(** * BlenderMCP: the command protocol between the MCP client and the Blender add-on

    A shallow embedding of the protocol core of the repository:

    - [src/addon.py], class [BlenderMCPServer]: the timer callback
      [_process_server], and the dispatcher [execute_command] /
      [_execute_command_internal];
    - [src/blender_mcp_server.py], class [BlenderConnection]: [connect],
      [receive_full_response] and [send_command].

    Around this core, further down: the life cycle of the server ([start],
    [stop], the two operators of the panel) and its status handler; on the
    client side [disconnect], the global connection of
    [get_blender_connection], [server_lifespan] and the tools that send one
    command each.

    Python code that mutates [self] and raises exceptions is written in a
    state-and-exception monad whose state survives a raise, as Python's does;
    [try_except] takes the except clauses in their order.  Sockets, the
    Blender host and the handlers are the environment: their outcomes are
    inputs of the model.

    Boundaries of the model.  A call into a library (the socket layer,
    [json], the decoder, the registration of the timer) returns or raises an
    error whose class is below [Exception]; an interrupt that arrives from
    outside while such a call runs is not modelled.  A handler is arbitrary
    code: its call returns or raises anything, [SystemExit] and
    [KeyboardInterrupt] included, and leaves the fields of the server and the
    host as it pleases.  Every [except Exception] clause tests the class of
    what it is given.  [socket.close()] and [print] do not fail (the [close]
    inside [disconnect], which the code guards, has its outcome as an input),
    nor do the calls of [bpy.app.timers] in [stop].  Handler results are JSON
    values, so that [json.dumps] of a response does not fail.  Time is
    counted in whole time units. *)

From Stdlib Require Import List String Ascii Strings.Byte Bool Arith NArith Lia.
Import ListNotations.

Set Implicit Arguments.
Set Warnings "-register-all,-automation,-notation-for-abbreviation".

Local Open Scope string_scope.

(* ===================================================================== *)
(** * Python values *)
(* ===================================================================== *)

(** [bytes] objects are lists of bytes. *)
Notation bytes := (list byte) (only parsing).

(** The values [json.loads] produces and [json.dumps] consumes.  A number
    keeps the text of its literal; a [dict] is an association list in
    insertion order, without duplicate keys when it comes from the parser. *)
Inductive json : Type :=
| JNull
| JBool (b : bool)
| JNum (literal : string)
| JStr (s : string)
| JArr (items : list json)
| JObj (members : list (string * json)).

(** Dicts with string keys, as association lists in insertion order. *)
Fixpoint dict_lookup {V : Type} (members : list (string * V)) (key : string) : option V :=
  match members with
  | [] => None
  | (k, v) :: rest => if String.eqb k key then Some v else dict_lookup rest key
  end.

(** [d.get(key, default)]. *)
Definition dict_get {V : Type} (members : list (string * V)) (key : string) (default : V) : V :=
  match dict_lookup members key with
  | Some v => v
  | None => default
  end.

(** [d[key] = v]: an existing key keeps its place. *)
Fixpoint dict_set {V : Type} (members : list (string * V)) (key : string) (v : V)
  : list (string * V) :=
  match members with
  | [] => [(key, v)]
  | (k, v0) :: rest =>
      if String.eqb k key then (k, v) :: rest else (k, v0) :: dict_set rest key v
  end.

(** [d.update(other)]. *)
Definition dict_update {V : Type} (d other : list (string * V)) : list (string * V) :=
  fold_left (fun acc kv => dict_set acc (fst kv) (snd kv)) other d.

(** [x == "literal"] for a value [x] and a string literal. *)
Definition py_eq_str (x : json) (s : string) : bool :=
  match x with
  | JStr t => String.eqb t s
  | _ => false
  end.

(** [x in [s1, s2, ...]] for a list of string literals. *)
Definition py_in_strs (x : json) (l : list string) : bool :=
  existsb (py_eq_str x) l.

(** Truth value of a value, as [if x:] and [x or y] test it.  A number is
    false when its literal denotes zero: only digits [0], a sign, a point or
    an exponent occur in it. *)
Definition zero_literal (lit : string) : bool :=
  forallb (fun c => match c with
                    | "0"%char | "-"%char | "."%char => true
                    | _ => false
                    end)
          (list_ascii_of_string
             (match index 0 "e" lit, index 0 "E" lit with
              | Some n, _ => substring 0 n lit
              | None, Some n => substring 0 n lit
              | None, None => lit
              end)).

Definition py_truthy (x : json) : bool :=
  match x with
  | JNull => false
  | JBool b => b
  | JNum lit => negb (zero_literal lit)
  | JStr s => negb (String.eqb s "")
  | JArr l => match l with [] => false | _ => true end
  | JObj m => match m with [] => false | _ => true end
  end.

(** A number literal denotes a [float] when it has a fraction or an exponent,
    or is one of the three non-finite literals Python accepts. *)
Definition is_float_literal (lit : string) : bool :=
  existsb (fun c => match c with
                    | "."%char | "e"%char | "E"%char | "N"%char | "I"%char => true
                    | _ => false
                    end)
          (list_ascii_of_string lit).

(** [type(x).__name__]. *)
Definition py_type_name (x : json) : string :=
  match x with
  | JNull => "NoneType"
  | JBool _ => "bool"
  | JNum lit => if is_float_literal lit then "float" else "int"
  | JStr _ => "str"
  | JArr _ => "list"
  | JObj _ => "dict"
  end.

(* ===================================================================== *)
(** * Exceptions *)
(* ===================================================================== *)

(** The classes of errors the two files raise, catch or can receive from a
    library (the socket layer, [json], the interpreter itself), with Python's
    class hierarchy below [Exception]: every one of them is a subclass of
    [Exception]. *)
Inductive error_class : Type :=
| Exception
| OSError
| BlockingIOError
| SocketTimeout            (* socket.timeout *)
| ConnectionError
| BrokenPipeError
| ConnectionResetError
| ConnectionRefusedError
| ValueError
| JSONDecodeError          (* json.JSONDecodeError *)
| UnicodeDecodeError
| LookupError
| IndexError
| AttributeError
| TypeError
| OtherError (name : string).

Definition parent (c : error_class) : option error_class :=
  match c with
  | Exception => None
  | OSError => Some Exception
  | BlockingIOError => Some OSError
  | SocketTimeout => Some OSError
  | ConnectionError => Some OSError
  | BrokenPipeError => Some ConnectionError
  | ConnectionResetError => Some ConnectionError
  | ConnectionRefusedError => Some ConnectionError
  | ValueError => Some Exception
  | JSONDecodeError => Some ValueError
  | UnicodeDecodeError => Some ValueError
  | LookupError => Some Exception
  | IndexError => Some LookupError
  | AttributeError => Some Exception
  | TypeError => Some Exception
  | OtherError _ => Some Exception
  end.

Definition error_class_eqb (c d : error_class) : bool :=
  match c, d with
  | Exception, Exception | OSError, OSError | BlockingIOError, BlockingIOError
  | SocketTimeout, SocketTimeout | ConnectionError, ConnectionError
  | BrokenPipeError, BrokenPipeError | ConnectionResetError, ConnectionResetError
  | ConnectionRefusedError, ConnectionRefusedError
  | ValueError, ValueError | JSONDecodeError, JSONDecodeError
  | UnicodeDecodeError, UnicodeDecodeError | LookupError, LookupError
  | IndexError, IndexError | AttributeError, AttributeError
  | TypeError, TypeError => true
  | OtherError a, OtherError b => String.eqb a b
  | _, _ => false
  end.

(** [issubclass(c, d)] below [Exception]; the hierarchy above is three
    levels deep. *)
Fixpoint error_subclass_upto (depth : nat) (c d : error_class) : bool :=
  error_class_eqb c d ||
  match depth with
  | O => false
  | S k => match parent c with
           | Some p => error_subclass_upto k p d
           | None => false
           end
  end.

Definition error_subclass (c d : error_class) : bool :=
  match d with
  | Exception => true
  | _ => error_subclass_upto 3 c d
  end.

(** The classes of what Python code can raise: [BaseException], the two
    subclasses of it outside [Exception] that a [sys.exit()] or an interrupt
    raises, and the classes below [Exception].  An [except Exception] clause
    catches the last only. *)
Inductive exc_class : Type :=
| BaseException
| SystemExit
| KeyboardInterrupt
| ErrorClass (c : error_class).

Coercion ErrorClass : error_class >-> exc_class.

(** [issubclass(c, d)]. *)
Definition issubclass (c d : exc_class) : bool :=
  match d with
  | BaseException => true
  | SystemExit => match c with SystemExit => true | _ => false end
  | KeyboardInterrupt => match c with KeyboardInterrupt => true | _ => false end
  | ErrorClass d' => match c with
                     | ErrorClass c' => error_subclass c' d'
                     | _ => false
                     end
  end.

(** An exception object: its class and [str(e)]. *)
Record exn : Type := mkExn { exn_class : exc_class; exn_str : string }.

Definition isinstance (e : exn) (c : exc_class) : bool := issubclass (exn_class e) c.

(** [isinstance(e, (c1, c2, ...))]. *)
Definition isinstance_any (e : exn) (cs : list error_class) : bool :=
  existsb (fun c : error_class => isinstance e c) cs.

(** [isinstance(e, Exception)], the test of an [except Exception] clause. *)
Definition is_exception (e : exn) : bool :=
  match exn_class e with
  | ErrorClass _ => true
  | _ => false
  end.

(** An error raised by a call into a library: the socket layer, [json], the
    decoder.  Its class is below [Exception].  An interrupt that arrives from
    outside while such a call runs is not modelled: what is raised outside
    [Exception] comes from the code that a handler runs. *)
Record fault : Type := mkFault { fault_class : error_class; fault_str : string }.

Definition exn_of (f : fault) : exn := mkExn (fault_class f) (fault_str f).

Coercion exn_of : fault >-> exn.

(** The outcome of evaluating a Python expression, with what it raises in
    [X]. *)
Inductive outcome (X A : Type) : Type :=
| Ok (a : A)
| Raise (e : X).
Arguments Ok {X A} & a.
Arguments Raise {X A} & e.

(** The outcome of a statement of the program, and the outcome of a call
    into a library. *)
Notation result := (outcome exn).
Notation reply := (outcome fault).

(* ===================================================================== *)
(** * The monad of Python statements *)
(* ===================================================================== *)

(** A statement transforms a world and either yields a value or raises; the
    mutations made before a raise stay. *)
Definition M (W A : Type) : Type := W -> result A * W.

Definition ret {W A} (a : A) : M W A := fun w => (Ok a, w).

Definition raise {W A} (e : exn) : M W A := fun w => (Raise e, w).

Definition bind {W A B} (c : M W A) (k : A -> M W B) : M W B :=
  fun w => match c w with
           | (Ok a, w') => k a w'
           | (Raise e, w') => (Raise e, w')
           end.

(** An outcome supplied by the environment: a call into a library. *)
Definition raised {A} (r : reply A) : result A :=
  match r with
  | Ok a => Ok a
  | Raise f => Raise (exn_of f)
  end.

Definition lift {W A} (r : reply A) : M W A := fun w => (raised r, w).

Definition get {W} : M W W := fun w => (Ok w, w).

Definition modify {W} (f : W -> W) : M W unit := fun w => (Ok tt, f w).

(** [try: body  except ...:], where [handlers e] is [Some h] when one of the
    except clauses matches [e] and [h] is its body, and [None] when none
    does and [e] propagates. *)
Definition try_except {W A} (body : M W A) (handlers : exn -> option (M W A)) : M W A :=
  fun w => match body w with
           | (Ok a, w') => (Ok a, w')
           | (Raise e, w') => match handlers e with
                              | Some h => h w'
                              | None => (Raise e, w')
                              end
           end.

Declare Scope py_scope.
Delimit Scope py_scope with py.
Notation "x <- c ;; k" := (bind c (fun x => k))
  (at level 61, c at next level, right associativity) : py_scope.
Notation "c ;; k" := (bind c (fun _ => k))
  (at level 61, right associativity) : py_scope.

(* ===================================================================== *)
(** * The codec: [bytes.decode('utf-8')], [json.loads], [json.dumps] *)
(* ===================================================================== *)

(** The standard library functions the two files call on every message.
    They are not code of the repository; the model follows the grammar the
    C implementation of Python's [json] accepts (RFC 8259, plus the literals
    [NaN], [Infinity] and [-Infinity]) and the strict UTF-8 decoder.  The text
    of the decoders' error messages and the recursion limit are not modelled. *)

Local Open Scope N_scope.

Definition code (b : byte) : N := Byte.to_N b.

Definition byte_of_code (n : N) : byte :=
  match Byte.of_N n with
  | Some b => b
  | None => x00
  end.

Definition in_range (lo hi : N) (b : byte) : bool :=
  (lo <=? code b) && (code b <=? hi).

Definition is_cont : byte -> bool := in_range 128 191.

(** Well-formed UTF-8: shortest forms only, no surrogates, at most U+10FFFF. *)
Fixpoint utf8_valid (s : bytes) : bool :=
  match s with
  | [] => true
  | b0 :: r0 =>
      if code b0 <=? 127 then utf8_valid r0
      else match r0 with
      | [] => false
      | b1 :: r1 =>
          if in_range 194 223 b0 then is_cont b1 && utf8_valid r1
          else match r1 with
          | [] => false
          | b2 :: r2 =>
              if in_range 224 239 b0 then
                (if code b0 =? 224 then in_range 160 191 b1
                 else if code b0 =? 237 then in_range 128 159 b1
                 else is_cont b1)
                && is_cont b2 && utf8_valid r2
              else match r2 with
              | [] => false
              | b3 :: r3 =>
                  in_range 240 244 b0
                  && (if code b0 =? 240 then in_range 144 191 b1
                      else if code b0 =? 244 then in_range 128 143 b1
                      else is_cont b1)
                  && is_cont b2 && is_cont b3 && utf8_valid r3
              end
          end
      end
  end.

(** The UTF-8 encoding of a code point (a lone surrogate included, as the
    three bytes of its value). *)
Definition utf8_encode (cp : N) : bytes :=
  if cp <? 128 then [byte_of_code cp]
  else if cp <? 2048 then
    [byte_of_code (192 + cp / 64); byte_of_code (128 + cp mod 64)]
  else if cp <? 65536 then
    [byte_of_code (224 + cp / 4096); byte_of_code (128 + (cp / 64) mod 64);
     byte_of_code (128 + cp mod 64)]
  else
    [byte_of_code (240 + cp / 262144); byte_of_code (128 + (cp / 4096) mod 64);
     byte_of_code (128 + (cp / 64) mod 64); byte_of_code (128 + cp mod 64)].

Definition is_ws (b : byte) : bool :=
  (code b =? 32) || (code b =? 9) || (code b =? 10) || (code b =? 13).

Fixpoint skip_ws (s : bytes) : bytes :=
  match s with
  | b :: r => if is_ws b then skip_ws r else s
  | [] => []
  end.

Definition is_digit : byte -> bool := in_range 48 57.

(** [strip_prefix p s] is the rest of [s] after its prefix [p]. *)
Fixpoint strip_prefix (p s : bytes) : option bytes :=
  match p, s with
  | [], _ => Some s
  | a :: p', b :: s' => if Byte.eqb a b then strip_prefix p' s' else None
  | _ :: _, [] => None
  end.

Fixpoint scan_digits (s : bytes) : bytes * bytes :=
  match s with
  | b :: r => if is_digit b
              then let (ds, rest) := scan_digits r in (b :: ds, rest)
              else ([], s)
  | [] => ([], [])
  end.

(** A number at the start of [s]: an optional minus sign, then a single zero
    or a digit from 1 to 9 followed by digits, then optionally a point with
    at least one digit, then optionally an exponent letter with an optional
    sign and at least one digit.  The matched text and the rest. *)
Definition scan_number (s : bytes) : option (bytes * bytes) :=
  let (sign, s1) := match s with
                    | b :: r => if Byte.eqb b x2d then ([b], r) else ([], s)
                    | [] => ([], s)
                    end in
  match s1 with
  | [] => None
  | d :: r =>
      if is_digit d then
        let (int_part, s2) :=
          if Byte.eqb d x30 then ([d], r)
          else let (ds, rest) := scan_digits r in (d :: ds, rest) in
        let (frac_part, s3) :=
          match s2 with
          | p :: r2 =>
              if Byte.eqb p x2e then
                match scan_digits r2 with
                | ([], _) => ([], s2)
                | (ds, rest) => (p :: ds, rest)
                end
              else ([], s2)
          | [] => ([], s2)
          end in
        let (exp_part, s4) :=
          match s3 with
          | e :: r3 =>
              if Byte.eqb e x65 || Byte.eqb e x45 then
                let (esign, r4) :=
                  match r3 with
                  | g :: r' => if Byte.eqb g x2b || Byte.eqb g x2d
                               then ([g], r') else ([], r3)
                  | [] => ([], r3)
                  end in
                match scan_digits r4 with
                | ([], _) => ([], s3)
                | (ds, rest) => (e :: esign ++ ds, rest)
                end
              else ([], s3)
          | [] => ([], s3)
          end in
        Some (sign ++ int_part ++ frac_part ++ exp_part, s4)
      else None
  end%list.

Definition hex_value (b : byte) : option N :=
  if is_digit b then Some (code b - 48)
  else if in_range 97 102 b then Some (code b - 87)
  else if in_range 65 70 b then Some (code b - 55)
  else None.

Definition hex4 (a b c d : byte) : option N :=
  match hex_value a, hex_value b, hex_value c, hex_value d with
  | Some x, Some y, Some z, Some t => Some (((x * 16 + y) * 16 + z) * 16 + t)
  | _, _, _, _ => None
  end.

(** The character an escape letter stands for. *)
Definition simple_escape (b : byte) : option byte :=
  if Byte.eqb b x22 then Some x22             (* quote *)
  else if Byte.eqb b x5c then Some x5c        (* backslash *)
  else if Byte.eqb b x2f then Some x2f        (* slash *)
  else if Byte.eqb b x62 then Some x08        (* b: backspace *)
  else if Byte.eqb b x66 then Some x0c        (* f: form feed *)
  else if Byte.eqb b x6e then Some x0a        (* n: line feed *)
  else if Byte.eqb b x72 then Some x0d        (* r: carriage return *)
  else if Byte.eqb b x74 then Some x09        (* t: tab *)
  else None.

(** The low surrogate escape that may follow a high surrogate escape. *)
Definition low_surrogate (s : bytes) : option (N * bytes) :=
  match s with
  | b :: u :: h1 :: h2 :: h3 :: h4 :: rest =>
      if Byte.eqb b x5c && Byte.eqb u x75 then
        match hex4 h1 h2 h3 h4 with
        | Some lo => if (56320 <=? lo) && (lo <=? 57343) then Some (lo, rest) else None
        | None => None
        end
      else None
  | _ => None
  end.

(** The body of a string after its opening quote, up to the closing quote:
    the text and the rest.  Control characters are refused (strict mode). *)
Fixpoint scan_string (fuel : nat) (s : bytes) : option (bytes * bytes) :=
  match fuel with
  | O => None
  | S f =>
      match s with
      | [] => None
      | b :: r =>
          if Byte.eqb b x22 then Some ([], r)
          else if code b <? 32 then None
          else if Byte.eqb b x5c then
            match r with
            | [] => None
            | e :: r1 =>
                if Byte.eqb e x75 then
                  match r1 with
                  | h1 :: h2 :: h3 :: h4 :: r2 =>
                      match hex4 h1 h2 h3 h4 with
                      | None => None
                      | Some hi =>
                          let (cp, r3) :=
                            if (55296 <=? hi) && (hi <=? 56319) then
                              match low_surrogate r2 with
                              | Some (lo, rest) =>
                                  (65536 + (hi - 55296) * 1024 + (lo - 56320), rest)
                              | None => (hi, r2)
                              end
                            else (hi, r2) in
                          match scan_string f r3 with
                          | Some (text, rest) => Some (utf8_encode cp ++ text, rest)%list
                          | None => None
                          end
                      end
                  | _ => None
                  end
                else
                  match simple_escape e with
                  | None => None
                  | Some c =>
                      match scan_string f r1 with
                      | Some (text, rest) => Some (c :: text, rest)
                      | None => None
                      end
                  end
            end
          else
            match scan_string f r with
            | Some (text, rest) => Some (b :: text, rest)
            | None => None
            end
      end
  end.

Definition bytes_of (s : string) : bytes := list_byte_of_string s.

Definition text_of (b : bytes) : string := string_of_list_byte b.

Definition parse_string (s : bytes) : option (string * bytes) :=
  match scan_string (S (List.length s)) s with
  | Some (text, rest) => Some (text_of text, rest)
  | None => None
  end.

(** The scanner: a value at the start of [s], and the rest.  [parse_elements]
    and [parse_members] run after the opening bracket and the white space
    behind it; [first] tells whether a closing bracket may come at once. *)
Fixpoint parse_value (fuel : nat) (s : bytes) : option (json * bytes) :=
  match fuel with
  | O => None
  | S f =>
      match s with
      | [] => None
      | b :: r =>
          if Byte.eqb b x22 then
            match parse_string r with
            | Some (text, rest) => Some (JStr text, rest)
            | None => None
            end
          else if Byte.eqb b x7b then
            match skip_ws r with
            | c :: r' => if Byte.eqb c x7d then Some (JObj [], r')
                         else parse_members f (c :: r') []
            | [] => None
            end
          else if Byte.eqb b x5b then
            match skip_ws r with
            | c :: r' => if Byte.eqb c x5d then Some (JArr [], r')
                         else parse_elements f (c :: r') []
            | [] => None
            end
          else
            match strip_prefix (bytes_of "null") s, strip_prefix (bytes_of "true") s,
                  strip_prefix (bytes_of "false") s with
            | Some rest, _, _ => Some (JNull, rest)
            | _, Some rest, _ => Some (JBool true, rest)
            | _, _, Some rest => Some (JBool false, rest)
            | None, None, None =>
                match scan_number s with
                | Some (lit, rest) => Some (JNum (text_of lit), rest)
                | None =>
                    match strip_prefix (bytes_of "NaN") s,
                          strip_prefix (bytes_of "Infinity") s,
                          strip_prefix (bytes_of "-Infinity") s with
                    | Some rest, _, _ => Some (JNum "NaN", rest)
                    | _, Some rest, _ => Some (JNum "Infinity", rest)
                    | _, _, Some rest => Some (JNum "-Infinity", rest)
                    | None, None, None => None
                    end
                end
            end
      end
  end

with parse_elements (fuel : nat) (s : bytes) (acc : list json) : option (json * bytes) :=
  match fuel with
  | O => None
  | S f =>
      match parse_value f s with
      | None => None
      | Some (v, rest) =>
          match skip_ws rest with
          | c :: r =>
              if Byte.eqb c x5d then Some (JArr (acc ++ [v]), r)
              else if Byte.eqb c x2c then parse_elements f (skip_ws r) (acc ++ [v])
              else None
          | [] => None
          end
      end
  end%list

with parse_members (fuel : nat) (s : bytes) (acc : list (string * json))
  : option (json * bytes) :=
  match fuel with
  | O => None
  | S f =>
      match s with
      | q :: r0 =>
          if Byte.eqb q x22 then
            match parse_string r0 with
            | None => None
            | Some (key, r1) =>
                match skip_ws r1 with
                | c :: r2 =>
                    if Byte.eqb c x3a then
                      match parse_value f (skip_ws r2) with
                      | None => None
                      | Some (v, r3) =>
                          match skip_ws r3 with
                          | d :: r4 =>
                              if Byte.eqb d x7d then Some (JObj (dict_set acc key v), r4)
                              else if Byte.eqb d x2c
                                   then parse_members f (skip_ws r4) (dict_set acc key v)
                              else None
                          | [] => None
                          end
                      end
                    else None
                | [] => None
                end
            end
          else None
      | [] => None
      end
  end.

(** [json.loads(text)]: one value between optional white space, nothing else. *)
Definition parse_json (s : bytes) : option json :=
  match parse_value (2 * List.length s + 2) (skip_ws s) with
  | Some (v, rest) => match skip_ws rest with
                      | [] => Some v
                      | _ :: _ => None
                      end
  | None => None
  end.

(** [json.loads(b.decode('utf-8'))]. *)
Definition py_loads (b : bytes) : reply json :=
  if utf8_valid b then
    match parse_json b with
    | Some v => Ok v
    | None => Raise (mkFault JSONDecodeError "invalid JSON document")
    end
  else Raise (mkFault UnicodeDecodeError "'utf-8' codec can't decode bytes").

(** The code points of a UTF-8 text. *)
Fixpoint code_points (s : bytes) : list N :=
  match s with
  | [] => []
  | b0 :: r0 =>
      if code b0 <? 192 then code b0 :: code_points r0
      else match r0 with
      | [] => [code b0]
      | b1 :: r1 =>
          if code b0 <? 224 then
            ((code b0 - 192) * 64 + (code b1 - 128)) :: code_points r1
          else match r1 with
          | [] => [code b0; code b1]
          | b2 :: r2 =>
              if code b0 <? 240 then
                (((code b0 - 224) * 64 + (code b1 - 128)) * 64 + (code b2 - 128))
                  :: code_points r2
              else match r2 with
              | [] => [code b0; code b1; code b2]
              | b3 :: r3 =>
                  ((((code b0 - 240) * 64 + (code b1 - 128)) * 64 + (code b2 - 128)) * 64
                   + (code b3 - 128)) :: code_points r3
              end
          end
      end
  end.

Definition hex_digit (n : N) : byte :=
  byte_of_code (if n <? 10 then 48 + n else 87 + n).

Definition u_escape (unit : N) : bytes :=
  [x5c; x75; hex_digit (unit / 4096); hex_digit ((unit / 256) mod 16);
   hex_digit ((unit / 16) mod 16); hex_digit (unit mod 16)].

(** One character of a string, as [json.dumps] writes it with its default
    [ensure_ascii=True]. *)
Definition escape_code_point (cp : N) : bytes :=
  if cp =? 34 then [x5c; x22]
  else if cp =? 92 then [x5c; x5c]
  else if cp =? 10 then [x5c; x6e]
  else if cp =? 13 then [x5c; x72]
  else if cp =? 9 then [x5c; x74]
  else if cp =? 8 then [x5c; x62]
  else if cp =? 12 then [x5c; x66]
  else if (32 <=? cp) && (cp <=? 126) then [byte_of_code cp]
  else if cp <? 65536 then u_escape cp
  else (u_escape (55296 + (cp - 65536) / 1024)
        ++ u_escape (56320 + (cp - 65536) mod 1024))%list.

Definition dumps_string (s : string) : bytes :=
  (x22 :: flat_map escape_code_point (code_points (bytes_of s)) ++ [x22])%list.

(** Items separated by a comma and a space. *)
Fixpoint join_items (items : list bytes) : bytes :=
  match items with
  | [] => []
  | [x] => x
  | x :: rest => (x ++ x2c :: x20 :: join_items rest)%list
  end.

(** [json.dumps(v).encode('utf-8')] with the default separators.  A number is
    written as its literal was read. *)
Fixpoint py_dumps (v : json) : bytes :=
  match v with
  | JNull => bytes_of "null"
  | JBool true => bytes_of "true"
  | JBool false => bytes_of "false"
  | JNum lit => bytes_of lit
  | JStr s => dumps_string s
  | JArr items => (x5b :: join_items (map py_dumps items) ++ [x5d])%list
  | JObj members =>
      (x7b :: join_items (map (fun kv => dumps_string (fst kv) ++ x3a :: x20 :: py_dumps (snd kv))
                              members)
           ++ [x7d])%list
  end.

Local Close Scope N_scope.

Local Open Scope py_scope.

Definition is_some {A : Type} (o : option A) : bool :=
  match o with
  | Some _ => true
  | None => false
  end.

(** [x.get(key, default)] for any value [x]: only a dict has the method. *)
Definition attr_get {W : Type} (x : json) (key : string) (default : json) : M W json :=
  match x with
  | JObj members => ret (dict_get members key default)
  | _ => raise (mkExn AttributeError
                  ("'" ++ py_type_name x ++ "' object has no attribute 'get'"))
  end.

(** The two response shapes of the protocol. *)
Definition success_response (value : json) : json :=
  JObj [("status", JStr "success"); ("result", value)].

Definition error_response (message : string) : json :=
  JObj [("status", JStr "error"); ("message", JStr message)].

(* ===================================================================== *)
(** * The add-on side: [src/addon.py], class [BlenderMCPServer] *)
(* ===================================================================== *)

(** An area of the Blender screen. *)
Record area : Type := mkArea { area_id : nat; area_type : string }.

(** The [handlers] dict of [_execute_command_internal]: command type to the
    name of the bound method. *)
Definition base_handlers : list (string * string) :=
  [ ("get_scene_info", "get_scene_info");
    ("create_object", "create_object");
    ("modify_object", "modify_object");
    ("delete_object", "delete_object");
    ("get_object_info", "get_object_info");
    ("execute_code", "execute_code");
    ("set_material", "set_material");
    ("get_polyhaven_status", "get_polyhaven_status") ].

Definition polyhaven_handlers : list (string * string) :=
  [ ("get_polyhaven_categories", "get_polyhaven_categories");
    ("search_polyhaven_assets", "search_polyhaven_assets");
    ("download_polyhaven_asset", "download_polyhaven_asset");
    ("set_texture", "set_texture") ].

(** The handlers dict as built on a call, given the Poly Haven flag. *)
Definition handlers_table (use_polyhaven_flag : bool) : list (string * string) :=
  if use_polyhaven_flag then dict_update base_handlers polyhaven_handlers
  else base_handlers.

(** A command type names a registered handler. *)
Definition registered (use_polyhaven_flag : bool) (cmd_type : string) : bool :=
  is_some (dict_lookup (handlers_table use_polyhaven_flag) cmd_type).

(** The command types whose handler runs inside a 3D viewport override. *)
Definition view3d_commands : list string :=
  ["create_object"; "modify_object"; "delete_object"].

(** What the timer callback returns to Blender: [None] unregisters it, a
    number of seconds asks for the next call ([0.1] s is 100 ms). *)
Inductive timer : Type :=
| Unregister
| Reinvoke (milliseconds : nat).

(** The outcomes of the socket calls of one step, chosen by the environment. *)
Record env : Type := mkEnv {
  accept_r : reply nat;           (* self.socket.accept(): the new client *)
  setblocking_r : reply unit;     (* self.client.setblocking(False) *)
  recv_r : reply bytes;           (* self.client.recv(8192) *)
  sendall_r : reply unit          (* self.client.sendall(...) *)
}.

(** The fields of a [BlenderMCPServer] that the step reads and writes. *)
Record server : Type := mkServer {
  running : bool;
  socket : option nat;
  client : option nat;
  buffer : bytes
}.

(** What a step did, for the statements below; not data of the program. *)
Inductive event : Type :=
| Accepted (cid : nat)
| Closed (cid : nat)
| Decoded (command : json)
| Called (method : string) (params : json) (out : result json)
| Sent (cid : nat) (data : bytes).

Section Addon.

(** The scene data of the host, which only handlers read and write. *)
Variable Scene : Type.

(** The part of [bpy.context] the dispatcher reads: the areas of the screen
    ([None] when there is no screen), the Poly Haven flag of the scene, and
    the area a [temp_override] currently puts in the context. *)
Record host : Type := mkHost {
  screen : option (list area);
  blendermcp_use_polyhaven : bool;
  override_area : option area;
  scene : Scene
}.

Record world : Type := mkWorld {
  srv : server;
  hst : host;
  trace : list event
}.

(** [json.loads(b.decode('utf-8'))] and [json.dumps(v).encode('utf-8')]. *)
Variable json_loads : bytes -> reply json.
Variable json_dumps : json -> bytes.

(** [str(x)] of a number or a container (Python's [repr]). *)
Variable py_repr : json -> string.

(** The handler registry: the call of the bound method of that name with
    [params] as keyword arguments, with its outcome and what it leaves.  The
    binding of [params] to the method's arguments is part of the call.  A
    handler is a method of the server and runs in Blender's interpreter
    ([execute_code] runs the code it is given): it can write the fields of
    the server as well as the host (the code can call
    [bpy.types.blendermcp_server.stop()]), and it can raise outside
    [Exception] (the code can call [sys.exit()]).  What it writes of the
    server is its result; the sockets it closes on the way are not events of
    the trace. *)
Variable call_handler : string -> json -> server -> host -> result json * server * host.

(** [str(x)], as an f-string formats it. *)
Definition py_str (x : json) : string :=
  match x with
  | JStr s => s
  | JNull => "None"
  | JBool true => "True"
  | JBool false => "False"
  | _ => py_repr x
  end.

Definition set_srv (f : server -> server) : M world unit :=
  modify (fun w => mkWorld (f (srv w)) (hst w) (trace w)).

Definition set_hst (f : host -> host) : M world unit :=
  modify (fun w => mkWorld (srv w) (f (hst w)) (trace w)).

Definition log (ev : event) : M world unit :=
  modify (fun w => mkWorld (srv w) (hst w) (trace w ++ [ev])).

Definition set_client (c : option nat) : M world unit :=
  set_srv (fun s => mkServer (running s) (socket s) c (buffer s)).

Definition set_buffer (b : bytes) : M world unit :=
  set_srv (fun s => mkServer (running s) (socket s) (client s) b).

Definition set_override (a : option area) : M world unit :=
  set_hst (fun h => mkHost (screen h) (blendermcp_use_polyhaven h) a (scene h)).

(** ** The dispatcher *)

(** The call of the bound method [method] with keyword arguments [params]. *)
Definition invoke (method : string) (params : json) : M world json :=
  fun w => let '(out, s, h) := call_handler method params (srv w) (hst w) in
           (out, mkWorld s h (trace w ++ [Called method params out])).

(** [handlers.get(cmd_type)]: a list or a dict is not hashable. *)
Definition handlers_get (handlers : list (string * string)) (cmd_type : json)
  : M world (option string) :=
  match cmd_type with
  | JStr s => ret (dict_lookup handlers s)
  | JArr _ | JObj _ =>
      raise (mkExn TypeError ("unhashable type: '" ++ py_type_name cmd_type ++ "'"))
  | _ => ret None
  end.

Definition _execute_command_internal (command : json) : M world json :=
  cmd_type <- attr_get command "type" JNull ;;
  params <- attr_get command "params" (JObj []) ;;
  if py_eq_str cmd_type "get_polyhaven_status" then
    status <- invoke "get_polyhaven_status" (JObj []) ;;
    ret (success_response status)
  else
    w <- get ;;
    let handlers := handlers_table (blendermcp_use_polyhaven (hst w)) in
    handler <- handlers_get handlers cmd_type ;;
    match handler with
    | Some method =>
        try_except
          (result <- invoke method params ;;
           ret (success_response result))
          (fun e => if is_exception e
                    then Some (ret (error_response (exn_str e)))
                    else None)
    | None =>
        ret (error_response ("Unknown command type: " ++ py_str cmd_type))
    end.

(** [[area for area in bpy.context.screen.areas if area.type == 'VIEW_3D'][0]]. *)
Definition view3d_area : M world area :=
  w <- get ;;
  match screen (hst w) with
  | None => raise (mkExn AttributeError "'NoneType' object has no attribute 'areas'")
  | Some areas =>
      match filter (fun a => String.eqb (area_type a) "VIEW_3D") areas with
      | a :: _ => ret a
      | [] => raise (mkExn IndexError "list index out of range")
      end
  end.

(** [with bpy.context.temp_override(...): body]: the override lasts
    for the body and the context it replaced comes back on the way out. *)
Definition with_temp_override {A : Type} (a : area) (body : M world A) : M world A :=
  w <- get ;;
  let saved := override_area (hst w) in
  set_override (Some a) ;;
  fun w1 => let (r, w2) := body w1 in
            (r, snd (set_override saved w2)).

Definition execute_command (command : json) : M world json :=
  try_except
    (cmd_type <- attr_get command "type" JNull ;;
     params <- attr_get command "params" (JObj []) ;;
     if py_in_strs cmd_type view3d_commands then
       a <- view3d_area ;;
       with_temp_override a (_execute_command_internal command)
     else
       _execute_command_internal command)
    (fun e => if is_exception e
              then Some (ret (error_response (exn_str e)))
              else None).

(** ** The timer callback *)

(** [self.client.close()]. *)
Definition close_client : M world unit :=
  w <- get ;;
  match client (srv w) with
  | Some cid => log (Closed cid)
  | None => raise (mkExn AttributeError "'NoneType' object has no attribute 'close'")
  end.

(** [self.client.sendall(data)]: all of [data] is written, or it raises. *)
Definition sendall (E : env) (data : bytes) : M world unit :=
  w <- get ;;
  match client (srv w) with
  | Some cid => lift (sendall_r E) ;; log (Sent cid data)
  | None => raise (mkExn AttributeError "'NoneType' object has no attribute 'sendall'")
  end.

Definition _process_server (E : env) : M world timer :=
  w <- get ;;
  if negb (running (srv w)) then ret Unregister
  else
    try_except
      (w <- get ;;
       (if negb (is_some (client (srv w))) && is_some (socket (srv w)) then
          try_except
            (cid <- lift (accept_r E) ;;
             set_client (Some cid) ;;
             log (Accepted cid) ;;
             lift (setblocking_r E))
            (fun e => if isinstance e BlockingIOError
                      then Some (ret tt)              (* no connection waiting *)
                      else if is_exception e
                      then Some (ret tt)              (* printed *)
                      else None)
        else ret tt) ;;
       w <- get ;;
       if is_some (client (srv w)) then
         try_except
           (try_except
              (data <- lift (recv_r E) ;;
               match data with
               | _ :: _ =>
                   w <- get ;;
                   set_buffer (buffer (srv w) ++ data)%list ;;
                   try_except
                     (w <- get ;;
                      command <- lift (json_loads (buffer (srv w))) ;;
                      set_buffer [] ;;
                      log (Decoded command) ;;
                      response <- execute_command command ;;
                      sendall E (json_dumps response))
                     (fun e => if isinstance e JSONDecodeError
                               then Some (ret tt)     (* incomplete: keep the buffer *)
                               else None)
               | [] =>
                   close_client ;;
                   set_client None ;;
                   set_buffer []
               end)
              (fun e => if isinstance e BlockingIOError
                        then Some (ret tt)            (* no data to receive *)
                        else if is_exception e
                        then Some (close_client ;;
                                   set_client None ;;
                                   set_buffer [])
                        else None))
           (fun e => if is_exception e
                     then Some (w <- get ;;
                                (if is_some (client (srv w))
                                 then close_client ;; set_client None
                                 else ret tt) ;;
                                set_buffer [])
                     else None)
       else ret tt)
      (fun e => if is_exception e
                then Some (ret tt)                    (* printed *)
                else None) ;;
    ret (Reinvoke 100).

(** One call of the timer callback on a fresh trace. *)
Definition step (E : env) (s : server) (h : host) : result timer * world :=
  _process_server E (mkWorld s h []).

End Addon.

(* ===================================================================== *)
(** * The client side: [src/blender_mcp_server.py], class [BlenderConnection] *)
(* ===================================================================== *)

(** What the peer does on the connection while a response is awaited: after
    [fst] time units the bytes of [snd] become readable (none of them means
    the peer closed), or the socket layer reports the error of [snd]. *)
Definition arrival : Type := (nat * reply bytes)%type.

(** What a call did on the network, for the statements below. *)
Inductive action : Type :=
| ConnectAttempt
| SendAll (data : bytes)
| Recv (waited : nat).

(** The [sock] field of a [BlenderConnection], and its environment: the
    outcomes of the coming [connect] and [sendall] calls and the coming
    arrivals, a clock, and what was done so far.  When the lists run out a
    connect is refused, a send succeeds and nothing arrives any more. *)
Record conn : Type := mkConn {
  sock : option nat;
  connects : list (reply nat);
  sends : list (reply unit);
  arrivals : list arrival;
  clock : nat;
  actions : list action
}.

(** How the receive loop of [receive_full_response] ends. *)
Inductive loop_exit : Type :=
| Returned (data : bytes)          (* return data, from inside the loop *)
| Broke (chunks : list bytes)      (* break, or a timeout caught outside *)
| Raised (e : exn).

Definition sum_list (l : list nat) : nat := fold_right Nat.add 0 l.

Section Client.

Variable json_loads : bytes -> reply json.
Variable json_dumps : json -> bytes.
Variable py_repr : json -> string.

Definition set_sock (s : option nat) : M conn unit :=
  modify (fun c => mkConn s (connects c) (sends c) (arrivals c) (clock c) (actions c)).

Definition act (a : action) : M conn unit :=
  modify (fun c => mkConn (sock c) (connects c) (sends c) (arrivals c) (clock c)
                          (actions c ++ [a])).

(** [self.sock.connect((host, port))] on the socket just created: the id it
    returns stands for that socket once it is connected. *)
Definition open_socket : M conn nat :=
  act ConnectAttempt ;;
  c <- get ;;
  match connects c with
  | r :: rest =>
      modify (fun c => mkConn (sock c) rest (sends c) (arrivals c) (clock c) (actions c)) ;;
      lift r
  | [] => raise (mkExn ConnectionRefusedError "[Errno 111] Connection refused")
  end.

(** [connect]: the socket is created and assigned to [self.sock], then
    connected.  No call in the [try] block raises outside [Exception], so the
    except clause always gets to put [None] back when the connect fails. *)
Definition connect : M conn bool :=
  c <- get ;;
  if is_some (sock c) then ret true
  else
    try_except
      (s <- open_socket ;;
       set_sock (Some s) ;;
       ret true)
      (fun e => if is_exception e
                then Some (set_sock None ;; ret false)
                else None).

(** [self.sock.sendall(data)]. *)
Definition client_sendall (data : bytes) : M conn unit :=
  act (SendAll data) ;;
  c <- get ;;
  match sends c with
  | r :: rest =>
      modify (fun c => mkConn (sock c) (connects c) rest (arrivals c) (clock c) (actions c)) ;;
      lift r
  | [] => ret tt
  end.

Definition timeout_exn : exn := mkExn SocketTimeout "timed out".

(** Where an exception raised in the body of the loop goes: the clauses of
    the inner [try], then those of the outer one. *)
Definition loop_exception (chunks : list bytes) (e : exn) : loop_exit :=
  if isinstance e SocketTimeout then Broke chunks
  else if isinstance_any e [ConnectionError; BrokenPipeError; ConnectionResetError]
       then Raised e
  else if isinstance e SocketTimeout then Broke chunks
  else Raised e.

(** The [while True] loop, from the chunks received so far.  Each call of
    [sock.recv] waits for the next arrival, at most [timeout] time units
    (the socket's timeout): the result is how the loop ends, the arrivals
    still to come, and how long each call of [recv] waited. *)
Fixpoint recv_loop (timeout : nat) (net : list arrival) (chunks : list bytes)
  : loop_exit * list arrival * list nat :=
  match net with
  | [] => (loop_exception chunks timeout_exn, [], [timeout])
  | (d, out) :: net' =>
      if (timeout <=? d)%nat then
        (loop_exception chunks timeout_exn, (d - timeout, out) :: net', [timeout])
      else
        match out with
        | Raise e => (loop_exception chunks e, net', [d])
        | Ok [] =>
            match chunks with
            | [] => (loop_exception chunks
                       (mkExn Exception "Connection closed before receiving any data"),
                     net', [d])
            | _ :: _ => (Broke chunks, net', [d])
            end
        | Ok chunk =>
            let chunks' := (chunks ++ [chunk])%list in
            let data := List.concat chunks' in
            match json_loads data with
            | Ok _ => (Returned data, net', [d])
            | Raise e =>
                if isinstance e JSONDecodeError then
                  let '(x, rest, waits) := recv_loop timeout net' chunks' in
                  (x, rest, d :: waits)
                else (loop_exception chunks' e, net', [d])
            end
        end
  end.

(** The code after the loop: a last parse of what was received. *)
Definition finalize (chunks : list bytes) : M conn bytes :=
  match chunks with
  | _ :: _ =>
      let data := List.concat chunks in
      try_except
        (lift (json_loads data) ;; ret data)
        (fun e => if isinstance e JSONDecodeError
                  then Some (raise (mkExn Exception "Incomplete JSON response received"))
                  else None)
  | [] => raise (mkExn Exception "No data received")
  end.

(** [receive_full_response] from a state of the loop in which [chunks] were
    received; [sock.settimeout(15.0)] sets the timeout of every [recv]. *)
Definition receive_from (chunks : list bytes) : M conn bytes :=
  fun c =>
    let '(x, rest, waits) := recv_loop 15 (arrivals c) chunks in
    let c' := mkConn (sock c) (connects c) (sends c) rest
                     (clock c + sum_list waits) (actions c ++ map Recv waits) in
    match x with
    | Returned data => (Ok data, c')
    | Broke chunks' => finalize chunks' c'
    | Raised e => (Raise e, c')
    end.

Definition receive_full_response : M conn bytes := receive_from [].

Definition send_command (command_type : string) (params : json) : M conn json :=
  c <- get ;;
  connected <- (if is_some (sock c) then ret true else connect) ;;
  if negb connected then raise (mkExn ConnectionError "Not connected to Blender")
  else
    let command :=
      JObj [("type", JStr command_type);
            ("params", if py_truthy params then params else JObj [])] in
    try_except
      (client_sendall (json_dumps command) ;;
       response_data <- receive_full_response ;;
       response <- lift (json_loads response_data) ;;
       status <- attr_get response "status" JNull ;;
       if py_eq_str status "error" then
         message <- attr_get response "message" (JStr "Unknown error from Blender") ;;
         raise (mkExn Exception (py_str py_repr message))
       else
         attr_get response "result" (JObj []))
      (fun e =>
         if isinstance e SocketTimeout then
           Some (set_sock None ;;
                 raise (mkExn Exception
                   "Timeout waiting for Blender response - try simplifying your request"))
         else if isinstance_any e [ConnectionError; BrokenPipeError; ConnectionResetError] then
           Some (set_sock None ;;
                 raise (mkExn Exception ("Connection to Blender lost: " ++ exn_str e)))
         else if isinstance e JSONDecodeError then
           Some (raise (mkExn Exception ("Invalid response from Blender: " ++ exn_str e)))
         else if is_exception e then
           Some (set_sock None ;;
                 raise (mkExn Exception ("Communication error with Blender: " ++ exn_str e)))
         else None).

End Client.

(* ===================================================================== *)
(** * Vocabulary of the statements *)
(* ===================================================================== *)

(** The would-block signal of a non-blocking socket, and a fault of the
    socket layer that is not that signal. *)
Definition would_block (e : exn) : bool := isinstance e BlockingIOError.

Definition transport_fault (e : exn) : bool :=
  isinstance e OSError && negb (isinstance e BlockingIOError).

(** The client socket the receive part of a step works on: the one the
    server had, or the one accepted at the start of the step. *)
Definition client_after_accept (E : env) (s : server) : option nat :=
  match client s with
  | Some cid => Some cid
  | None =>
      match socket s, accept_r E with
      | Some _, Ok cid => Some cid
      | _, _ => None
      end
  end.

(** The command a step decodes: the server runs, has a client, receives at
    least one byte, and the buffer with the new bytes appended parses. *)
Definition parsed_command (json_loads : bytes -> reply json) (E : env) (s : server)
  : option json :=
  if running s then
    match client_after_accept E s, recv_r E with
    | Some _, Ok (b :: data) =>
        match json_loads (buffer s ++ b :: data)%list with
        | Ok command => Some command
        | Raise _ => None
        end
    | _, _ => None
    end
  else None.

(** The responses a trace shows as written back in full, and the commands
    it shows as decoded. *)
Definition sent_of (tr : list event) : list bytes :=
  flat_map (fun ev => match ev with Sent _ data => [data] | _ => [] end) tr.

Definition decoded_of (tr : list event) : list json :=
  flat_map (fun ev => match ev with Decoded c => [c] | _ => [] end) tr.

(** The screen of the host has a 3D viewport. *)
Definition has_view3d {Scene : Type} (h : host Scene) : bool :=
  match screen h with
  | Some areas => existsb (fun a => String.eqb (area_type a) "VIEW_3D") areas
  | None => false
  end.

(** The keyword arguments the dispatcher passes to the handler of a command:
    [get_polyhaven_status] is called without any. *)
Definition handler_arguments (cmd_type : string) (members : list (string * json)) : json :=
  if String.eqb cmd_type "get_polyhaven_status" then JObj []
  else dict_get members "params" (JObj []).

(** The server during the receive part of a step that works on client [cid],
    the events of the accept part, and the server after a disconnect. *)
Definition with_client (s : server) (cid : nat) : server :=
  mkServer (running s) (socket s) (Some cid) (buffer s).

Definition accepted (s : server) (cid : nat) : list event :=
  match client s with
  | Some _ => []
  | None => [Accepted cid]
  end.

Definition reset_server (s : server) : server :=
  mkServer (running s) (socket s) None [].

(** The rest of a step after the dispatch of the decoded command, given what
    the dispatcher returned and the world it left: what it raised goes on to
    the scheduler; a response is written to the client the server has then,
    and without a client the failed write ends in the reset of the outer
    except clause. *)
Definition after_dispatch {Scene : Type} (json_dumps : json -> bytes) (E : env)
           (x : result json * world Scene) : result timer * world Scene :=
  match fst x with
  | Raise e => (Raise e, snd x)
  | Ok resp =>
      (Ok (Reinvoke 100),
       match client (srv (snd x)) with
       | None => mkWorld (reset_server (srv (snd x))) (hst (snd x)) (trace (snd x))
       | Some c =>
           match sendall_r E with
           | Ok _ => mkWorld (srv (snd x)) (hst (snd x))
                             (trace (snd x) ++ [Sent c (json_dumps resp)])
           | Raise e =>
               if isinstance e JSONDecodeError || would_block e then snd x
               else mkWorld (reset_server (srv (snd x))) (hst (snd x))
                            (trace (snd x) ++ [Closed c])
           end
       end)
  end.

(** What the dispatcher makes of the outcome of a handler call: a value is
    wrapped as a success, an instance of [Exception] becomes an error
    response, and anything else that was raised goes on to the caller. *)
Definition answer (out : result json) : result json :=
  match out with
  | Ok v => Ok (success_response v)
  | Raise e => if is_exception e then Ok (error_response (exn_str e)) else Raise e
  end.

(** The first area of type [VIEW_3D] of the screen, if any. *)
Definition viewport {Scene : Type} (h : host Scene) : option area :=
  match screen h with
  | Some areas => hd_error (filter (fun a => String.eqb (area_type a) "VIEW_3D") areas)
  | None => None
  end.

(** The context in which the handler of a command type runs, given the host
    at the dispatch: inside the viewport override for the viewport commands.
    And the host after the dispatch, given the host [h0] at the dispatch and
    the host [h1] the handler left: the override of [h0] is back. *)
Definition handler_context {Scene : Type} (cmd_type : string) (h : host Scene) : host Scene :=
  if py_in_strs (JStr cmd_type) view3d_commands then
    mkHost (screen h) (blendermcp_use_polyhaven h) (viewport h) (scene h)
  else h.

Definition after_handler {Scene : Type} (cmd_type : string) (h0 h1 : host Scene)
  : host Scene :=
  if py_in_strs (JStr cmd_type) view3d_commands then
    mkHost (screen h1) (blendermcp_use_polyhaven h1) (override_area h0) (scene h1)
  else h1.

Section Handlers.

Variable Scene : Type.
Variable call_handler :
  string -> json -> server -> host Scene -> result json * server * host Scene.

(** Some call of a handler raises [e]. *)
Definition handler_raises (e : exn) : Prop :=
  exists method params s h, fst (fst (call_handler method params s h)) = Raise e.

(** No handler raises outside [Exception]. *)
Definition handlers_raise_errors : Prop :=
  forall method params s h e,
    fst (fst (call_handler method params s h)) = Raise e -> is_exception e = true.

(** No handler writes the given field of the server. *)
Definition handlers_keep {A : Type} (field : server -> A) : Prop :=
  forall method params s h, field (snd (fst (call_handler method params s h))) = field s.

End Handlers.

(** A Request of the protocol: an object with a string [type] and an object
    [params]. *)
Definition is_request (x : json) : bool :=
  match x with
  | JObj members =>
      match dict_lookup members "type", dict_lookup members "params" with
      | Some (JStr _), Some (JObj _) => true
      | _, _ => false
      end
  | _ => false
  end.

(** The request [send_command] writes. *)
Definition command_of (command_type : string) (params : json) : json :=
  JObj [("type", JStr command_type);
        ("params", if py_truthy params then params else JObj [])].

(** The coming [connect] fails, and the coming [sendall] goes through. *)
Definition connect_fails (c : conn) : bool :=
  match connects c with
  | Ok _ :: _ => false
  | _ => true
  end.

Definition send_succeeds (c : conn) : bool :=
  match sends c with
  | Raise _ :: _ => false
  | _ => true
  end.

(** The next call of [recv] ends the reading: nothing arrives within the
    timeout, or the peer has closed, or the socket layer reports a timeout. *)
Definition ends_reading (timeout : nat) (net : list arrival) : bool :=
  match net with
  | [] => true
  | (d, out) :: _ =>
      (timeout <=? d)%nat
      || match out with
         | Ok [] => true
         | Ok (_ :: _) => false
         | Raise e => isinstance e SocketTimeout
         end
  end.

(** The receive loop ended by a fault: it broke off without a response, or
    raised something other than a JSON decoding error. *)
Definition receive_fault (x : loop_exit) : bool :=
  match x with
  | Returned _ => false
  | Broke _ => true
  | Raised e => negb (isinstance e JSONDecodeError)
  end.

(** What the loop has received so far did not parse, as in every state the
    loop of [receive_full_response] reaches. *)
Definition unparsed (json_loads : bytes -> reply json) (chunks : list bytes) : Prop :=
  chunks = [] \/ exists e, json_loads (List.concat chunks) = Raise e.

(** A step in which [chunk] is read from a connected client: nobody else is
    waiting to be accepted and the send goes through. *)
Definition read_env (chunk : bytes) : env :=
  mkEnv (Raise (mkFault BlockingIOError "[Errno 11] Resource temporarily unavailable"))
        (Ok tt) (Ok chunk) (Ok tt).

Section Delivery.

Variable Scene : Type.
Variable json_loads : bytes -> reply json.
Variable json_dumps : json -> bytes.
Variable py_repr : json -> string.
Variable call_handler :
  string -> json -> server -> host Scene -> result json * server * host Scene.

(** Successive steps, one per chunk read; the trace collects their events. *)
Fixpoint deliver (chunks : list bytes) (w : world Scene) : world Scene :=
  match chunks with
  | [] => w
  | chunk :: rest =>
      let w1 := snd (step json_loads json_dumps py_repr call_handler
                          (read_env chunk) (srv w) (hst w)) in
      deliver rest (mkWorld (srv w1) (hst w1) (trace w ++ trace w1))
  end.

End Delivery.

(** [prefixes chunks] are the buffers after each read but the last. *)
Fixpoint proper_prefixes (acc : bytes) (chunks : list bytes) : list bytes :=
  match chunks with
  | [] => []
  | [_] => []
  | c :: rest => (acc ++ c)%list :: proper_prefixes (acc ++ c)%list rest
  end.

(* ===================================================================== *)
(** * A sample environment *)
(* ===================================================================== *)

(** A host whose scene is a count of objects, and a registry in which
    [create_object] adds an object, [execute_code] fails with the message
    "boom", and every other handler returns an empty dict; none of them
    touches the server. *)
Definition sample_call (method : string) (params : json) (s : server) (h : host nat)
  : result json * server * host nat :=
  if String.eqb method "create_object" then
    (Ok (JObj [("name", JStr "Cube")]), s,
     mkHost (screen h) (blendermcp_use_polyhaven h) (override_area h) (S (scene h)))
  else if String.eqb method "execute_code" then
    (Raise (mkExn Exception "boom"), s, h)
  else (Ok (JObj []), s, h).

Definition sample_repr (x : json) : string := text_of (py_dumps x).

Definition viewport_host : host nat :=
  mkHost (Some [mkArea 0 "OUTLINER"; mkArea 1 "VIEW_3D"]) false None 3.

Definition no_viewport_host : host nat :=
  mkHost (Some [mkArea 0 "OUTLINER"; mkArea 1 "PROPERTIES"]) false None 3.

Definition connected_server (buf : bytes) : server :=
  mkServer true (Some 0) (Some 1) buf.

Definition quoted (s : string) : bytes := (x22 :: bytes_of s ++ [x22])%list.

(** The request dict of a command type, with empty params. *)
Definition request_of (cmd_type : string) : json :=
  JObj [("type", JStr cmd_type); ("params", JObj [])].

(** A request for the information of the object named by U+00E9, whose UTF-8
    encoding is the two bytes C3 A9, cut between those two bytes. *)
Definition accented_request_head : bytes :=
  (bytes_of "{" ++ quoted "type" ++ bytes_of ": " ++ quoted "get_object_info"
   ++ bytes_of ", " ++ quoted "params" ++ bytes_of ": {" ++ quoted "name"
   ++ bytes_of ": " ++ [x22; xc3])%list.

Definition accented_request_tail : bytes :=
  ([xa9; x22] ++ bytes_of "}}")%list.

Definition accented_request : bytes :=
  (accented_request_head ++ accented_request_tail)%list.

(** The step of the sample environment. *)
Definition sample_step : env -> server -> host nat -> result timer * world nat :=
  step py_loads py_dumps sample_repr sample_call.

Definition sample_deliver : list bytes -> world nat -> world nat :=
  deliver py_loads py_dumps sample_repr sample_call.

(** A running server with client 1 connected and an empty buffer, on a host
    with a 3D viewport. *)
Definition fresh_world : world nat :=
  mkWorld (connected_server []) viewport_host [].

(** Exceptions of the socket layer. *)
Definition would_block_exn : fault :=
  mkFault BlockingIOError "[Errno 11] Resource temporarily unavailable".

Definition broken_pipe_exn : fault :=
  mkFault BrokenPipeError "[Errno 32] Broken pipe".

Definition connection_reset_exn : fault :=
  mkFault ConnectionResetError "[Errno 104] Connection reset by peer".

(** The bytes of the request [send_command("get_scene_info")] writes. *)
Definition scene_info_request : bytes :=
  py_dumps (command_of "get_scene_info" JNull).

(** A connected manager waiting for the given arrivals. *)
Definition waiting_conn (net : list arrival) : conn :=
  mkConn (Some 7) [] [] net 0 [].


(* ===================================================================== *)
(** * The rest of the add-on: life cycle, operators, the status handler *)
(* ===================================================================== *)

(** [try: body  finally: final]. *)
Definition try_finally {W A : Type} (body : M W A) (final : M W unit) : M W A :=
  fun w => let (r, w1) := body w in
           match final w1 with
           | (Ok _, w2) => (r, w2)
           | (Raise e, w2) => (Raise e, w2)
           end.

(** [BlenderMCPServer.__init__]: not running, no sockets, an empty buffer.
    (The host name, the port and the unused command queue are left out: only
    [bind] reads the first two, and its outcome is an input.) *)
Definition init_server : server := mkServer false None None [].

(** A socket that [close()] was called on. *)
Inductive closed_socket : Type :=
| ClosedListening (sid : nat)
| ClosedClient (cid : nat).

(** An instance of the server with what Blender holds about it: whether its
    timer callback is registered, and the sockets it has closed. *)
Record life : Type := mkLife {
  self : server;
  timer_registered : bool;
  closed : list closed_socket
}.

(** The outcomes of the calls [start] makes. *)
Record start_env : Type := mkStartEnv {
  socket_r : reply nat;         (* socket.socket(...) *)
  setsockopt_r : reply unit;    (* self.socket.setsockopt(...) *)
  bind_r : reply unit;          (* self.socket.bind((host, port)) *)
  listen_r : reply unit;        (* self.socket.listen(1) *)
  nonblocking_r : reply unit;   (* self.socket.setblocking(False) *)
  register_r : reply unit       (* bpy.app.timers.register(...) *)
}.

Definition set_self (f : server -> server) : M life unit :=
  modify (fun l => mkLife (f (self l)) (timer_registered l) (closed l)).

Definition set_registered (b : bool) : M life unit :=
  modify (fun l => mkLife (self l) b (closed l)).

Definition close_socket (c : closed_socket) : M life unit :=
  modify (fun l => mkLife (self l) (timer_registered l) (closed l ++ [c])).

(** [BlenderMCPServer.stop]; [has_unregister] is
    [hasattr(bpy.app.timers, "unregister")]. *)
Definition stop (has_unregister : bool) : M life unit :=
  set_self (fun s => mkServer false (socket s) (client s) (buffer s)) ;;
  (if has_unregister then
     l <- get ;;
     if timer_registered l then set_registered false else ret tt
   else ret tt) ;;
  l <- get ;;
  match socket (self l) with
  | Some sid => close_socket (ClosedListening sid)
  | None => ret tt
  end ;;
  l <- get ;;
  match client (self l) with
  | Some cid => close_socket (ClosedClient cid)
  | None => ret tt
  end ;;
  set_self (fun s => mkServer (running s) None (client s) (buffer s)) ;;
  set_self (fun s => mkServer (running s) (socket s) None (buffer s)).

(** [BlenderMCPServer.start]. *)
Definition start (has_unregister : bool) (E : start_env) : M life unit :=
  set_self (fun s => mkServer true (socket s) (client s) (buffer s)) ;;
  sid <- lift (socket_r E) ;;
  set_self (fun s => mkServer (running s) (Some sid) (client s) (buffer s)) ;;
  lift (setsockopt_r E) ;;
  try_except
    (lift (bind_r E) ;;
     lift (listen_r E) ;;
     lift (nonblocking_r E) ;;
     lift (register_r E) ;;
     set_registered true)
    (fun e => if is_exception e then Some (stop has_unregister) else None).

(** What the two operators of the panel work on: the server instance kept in
    [bpy.types.blendermcp_server], if any, and the scene property
    [blendermcp_server_running]. *)
Record panel : Type := mkPanel {
  blendermcp_server : option life;
  blendermcp_server_running : bool
}.

(** A method of the instance in [bpy.types.blendermcp_server]. *)
Definition on_instance (l : life) (c : M life unit) : M panel unit :=
  fun p => let (r, l') := c l in
           (r, mkPanel (Some l') (blendermcp_server_running p)).

(** [BLENDERMCP_OT_StartServer.execute]. *)
Definition start_server_execute (has_unregister : bool) (E : start_env) : M panel unit :=
  p <- get ;;
  (match blendermcp_server p with
   | Some _ => ret tt
   | None => modify (fun p => mkPanel (Some (mkLife init_server false []))
                                      (blendermcp_server_running p))
   end) ;;
  p <- get ;;
  match blendermcp_server p with
  | Some l => on_instance l (start has_unregister E)
  | None => raise (mkExn AttributeError
                     "type object 'bpy_types' has no attribute 'blendermcp_server'")
  end ;;
  modify (fun p => mkPanel (blendermcp_server p) true).

(** [BLENDERMCP_OT_StopServer.execute]. *)
Definition stop_server_execute (has_unregister : bool) : M panel unit :=
  p <- get ;;
  match blendermcp_server p with
  | Some l =>
      on_instance l (stop has_unregister) ;;
      modify (fun p => mkPanel None (blendermcp_server_running p))
  | None => ret tt
  end ;;
  modify (fun p => mkPanel (blendermcp_server p) false).

(** The text [get_polyhaven_status] gives when the integration is off. *)
Definition polyhaven_disabled_message : string :=
  "PolyHaven integration is currently disabled. To enable it:
                            1. In the 3D Viewport, find the BlenderMCP panel in the sidebar (press N if hidden)
                            2. Check the 'Use assets from Poly Haven' checkbox
                            3. Restart the connection to Claude".

(** The handler [BlenderMCPServer.get_polyhaven_status]. *)
Definition get_polyhaven_status {Scene : Type} (h : host Scene) : json :=
  if blendermcp_use_polyhaven h then
    JObj [("enabled", JBool true);
          ("message", JStr "PolyHaven integration is enabled and ready to use.")]
  else
    JObj [("enabled", JBool false);
          ("message", JStr polyhaven_disabled_message)].

(* ===================================================================== *)
(** * The rest of the client: the global connection and the tools *)
(* ===================================================================== *)

(** The module globals: [_blender_connection] is [None] exactly when
    [has_connection] is false; otherwise the [sock] of the connection object
    is the [sock] of [link].  [link] also carries the network, which outlives
    the connection objects. *)
Record globals : Type := mkGlobals {
  has_connection : bool;
  _polyhaven_enabled : json;
  link : conn
}.

(** A method of the connection object, run on the global connection. *)
Definition on_link {A : Type} (c : M conn A) : M globals A :=
  fun g => let (r, c') := c (link g) in
           (r, mkGlobals (has_connection g) (_polyhaven_enabled g) c').

Definition set_has_connection (b : bool) : M globals unit :=
  modify (fun g => mkGlobals b (_polyhaven_enabled g) (link g)).

Definition set_polyhaven_enabled (v : json) : M globals unit :=
  modify (fun g => mkGlobals (has_connection g) v (link g)).

(** [x is None]. *)
Definition is_none (x : json) : bool :=
  match x with
  | JNull => true
  | _ => false
  end.

Section Connection.

Variable json_loads : bytes -> reply json.
Variable json_dumps : json -> bytes.
Variable py_repr : json -> string.

(** The outcome of [self.sock.close()]. *)
Variable close_r : reply unit.

(** [BlenderConnection.disconnect]. *)
Definition disconnect : M conn unit :=
  c <- get ;;
  if is_some (sock c) then
    try_finally
      (try_except (lift close_r)
                  (fun e => if is_exception e then Some (ret tt) else None))
      (set_sock None)
  else ret tt.

(** [get_blender_connection]; the connection it returns is the global one.
    The value of the first block tells whether it returned from there. *)
Definition get_blender_connection : M globals unit :=
  g <- get ;;
  returned <-
    (if has_connection g then
       try_except
         (result <- on_link (send_command json_loads json_dumps py_repr
                                          "get_polyhaven_status" JNull) ;;
          enabled <- attr_get result "enabled" (JBool false) ;;
          set_polyhaven_enabled enabled ;;
          ret true)
         (fun e => if is_exception e then
                     Some (try_except (on_link disconnect) (fun _ => Some (ret tt)) ;;
                           set_has_connection false ;;
                           ret false)
                   else None)
     else ret false) ;;
  if returned : bool then ret tt
  else
    g <- get ;;
    if negb (has_connection g) then
      set_has_connection true ;;
      on_link (set_sock None) ;;
      connected <- on_link connect ;;
      if negb connected then
        set_has_connection false ;;
        raise (mkExn Exception
                 "Could not connect to Blender. Make sure the Blender addon is running.")
      else ret tt
    else ret tt.

(** [server_lifespan]: the part before the [yield] and the [finally] part. *)
Definition lifespan_startup : M globals unit :=
  try_except get_blender_connection
             (fun e => if is_exception e then Some (ret tt) else None).

Definition lifespan_shutdown : M globals unit :=
  g <- get ;;
  if has_connection g then
    on_link disconnect ;;
    set_has_connection false
  else ret tt.

End Connection.

(** [x[key]] for a string key.  Subscripting a string by a string raises a
    [TypeError] whose text differs between Python versions: it is
    [string_indices_message]. *)
Definition py_getitem {W : Type} (string_indices_message : string) (x : json) (key : string)
  : M W json :=
  match x with
  | JObj members =>
      match dict_lookup members key with
      | Some v => ret v
      | None => raise (mkExn (OtherError "KeyError") ("'" ++ key ++ "'"))
      end
  | JArr _ => raise (mkExn TypeError "list indices must be integers or slices, not str")
  | JStr _ => raise (mkExn TypeError string_indices_message)
  | _ => raise (mkExn TypeError ("'" ++ py_type_name x ++ "' object is not subscriptable"))
  end.

(** The tool endpoints.  They return Python strings, here [JStr] values; the
    status tool returns whatever the message of the result is. *)
Module Tool.

Section Tools.

Variable json_loads : bytes -> reply json.
Variable json_dumps : json -> bytes.
Variable py_repr : json -> string.
Variable close_r : reply unit.

(** [json.dumps(v, indent=2)]. *)
Variable json_dumps_indent : json -> string.

Variable string_indices_message : string.

Local Notation connection := (get_blender_connection json_loads json_dumps py_repr close_r).
Local Notation command := (send_command json_loads json_dumps py_repr).
Local Notation str := (py_str py_repr).

Definition get_scene_info : M globals json :=
  try_except
    (connection ;;
     result <- on_link (command "get_scene_info" JNull) ;;
     ret (JStr (json_dumps_indent result)))
    (fun e => if is_exception e
              then Some (ret (JStr ("Error getting scene info: " ++ exn_str e)))
              else None).

Definition get_object_info (object_name : json) : M globals json :=
  try_except
    (connection ;;
     result <- on_link (command "get_object_info" (JObj [("name", object_name)])) ;;
     ret (JStr (json_dumps_indent result)))
    (fun e => if is_exception e
              then Some (ret (JStr ("Error getting object info: " ++ exn_str e)))
              else None).

Definition create_object (type name location rotation scale : json) : M globals json :=
  try_except
    (connection ;;
     let loc := if py_truthy location then location
                else JArr [JNum "0"; JNum "0"; JNum "0"] in
     let rot := if py_truthy rotation then rotation
                else JArr [JNum "0"; JNum "0"; JNum "0"] in
     let sc := if py_truthy scale then scale
               else JArr [JNum "1"; JNum "1"; JNum "1"] in
     let params := [("type", type); ("location", loc); ("rotation", rot); ("scale", sc)] in
     let params := if py_truthy name then dict_set params "name" name else params in
     result <- on_link (command "create_object" (JObj params)) ;;
     created <- py_getitem string_indices_message result "name" ;;
     ret (JStr ("Created " ++ str type ++ " object: " ++ str created)))
    (fun e => if is_exception e
              then Some (ret (JStr ("Error creating object: " ++ exn_str e)))
              else None).

Definition modify_object (name location rotation scale visible : json) : M globals json :=
  try_except
    (connection ;;
     let params := [("name", name)] in
     let params := if negb (is_none location) then dict_set params "location" location
                   else params in
     let params := if negb (is_none rotation) then dict_set params "rotation" rotation
                   else params in
     let params := if negb (is_none scale) then dict_set params "scale" scale
                   else params in
     let params := if negb (is_none visible) then dict_set params "visible" visible
                   else params in
     result <- on_link (command "modify_object" (JObj params)) ;;
     modified <- py_getitem string_indices_message result "name" ;;
     ret (JStr ("Modified object: " ++ str modified)))
    (fun e => if is_exception e
              then Some (ret (JStr ("Error modifying object: " ++ exn_str e)))
              else None).

Definition delete_object (name : json) : M globals json :=
  try_except
    (connection ;;
     result <- on_link (command "delete_object" (JObj [("name", name)])) ;;
     ret (JStr ("Deleted object: " ++ str name)))
    (fun e => if is_exception e
              then Some (ret (JStr ("Error deleting object: " ++ exn_str e)))
              else None).

Definition set_material (object_name material_name color : json) : M globals json :=
  try_except
    (connection ;;
     let params := [("object_name", object_name)] in
     let params := if py_truthy material_name
                   then dict_set params "material_name" material_name else params in
     let params := if py_truthy color then dict_set params "color" color else params in
     result <- on_link (command "set_material" (JObj params)) ;;
     applied <- attr_get result "material_name" (JStr "unknown") ;;
     ret (JStr ("Applied material to " ++ str object_name ++ ": " ++ str applied)))
    (fun e => if is_exception e
              then Some (ret (JStr ("Error setting material: " ++ exn_str e)))
              else None).

Definition execute_blender_code (code : json) : M globals json :=
  try_except
    (connection ;;
     result <- on_link (command "execute_code" (JObj [("code", code)])) ;;
     outcome <- attr_get result "result" (JStr "") ;;
     ret (JStr ("Code executed successfully: " ++ str outcome)))
    (fun e => if is_exception e
              then Some (ret (JStr ("Error executing code: " ++ exn_str e)))
              else None).

Definition get_polyhaven_status : M globals json :=
  try_except
    (connection ;;
     result <- on_link (command "get_polyhaven_status" JNull) ;;
     enabled <- attr_get result "enabled" (JBool false) ;;
     message <- attr_get result "message" (JStr "") ;;
     ret message)
    (fun e => if is_exception e
              then Some (ret (JStr ("Error checking PolyHaven status: " ++ exn_str e)))
              else None).

End Tools.

End Tool.

(* ===================================================================== *)
(** * Vocabulary of the further statements *)
(* ===================================================================== *)

(** The clients a trace shows as accepted, and the handler calls it shows. *)
Definition accepts_of (tr : list event) : list nat :=
  flat_map (fun ev => match ev with Accepted cid => [cid] | _ => [] end) tr.

Definition calls_of (tr : list event) : list (string * json) :=
  flat_map (fun ev => match ev with Called m p _ => [(m, p)] | _ => [] end) tr.

Section Runs.

Variable Scene : Type.
Variable json_loads : bytes -> reply json.
Variable json_dumps : json -> bytes.
Variable py_repr : json -> string.
Variable call_handler : string -> json -> server -> host Scene
                        -> result json * server * host Scene.

(** Successive calls of the timer callback, one per environment; the trace
    collects their events. *)
Fixpoint run_steps (Es : list env) (w : world Scene) : world Scene :=
  match Es with
  | [] => w
  | E :: rest =>
      let w1 := snd (step json_loads json_dumps py_repr call_handler E (srv w) (hst w)) in
      run_steps rest (mkWorld (srv w1) (hst w1) (trace w ++ trace w1))
  end.

End Runs.

(** The sockets a server holds, the listening one first. *)
Definition sockets_of (s : server) : list closed_socket :=
  (match socket s with Some sid => [ClosedListening sid] | None => [] end
   ++ match client s with Some cid => [ClosedClient cid] | None => [] end)%list.

(** One of the calls inside the [try] block of [start] raises. *)
Definition setup_fails (E : start_env) : bool :=
  match bind_r E, listen_r E, nonblocking_r E, register_r E with
  | Ok _, Ok _, Ok _, Ok _ => false
  | _, _, _, _ => true
  end.

(** Every error the socket layer has in store for the coming [sendall] and
    [recv] calls is an [OSError], as the errors of sockets are. *)
Definition raises_oserror {A : Type} (r : reply A) : bool :=
  match r with
  | Ok _ => true
  | Raise e => isinstance e OSError
  end.

Definition socket_errors (c : conn) : bool :=
  forallb raises_oserror (sends c)
  && forallb (fun a : arrival => raises_oserror (snd a)) (arrivals c).

(** The connection after a call of [connect]. *)
Definition connected (c : conn) : conn :=
  match sock c with
  | Some _ => c
  | None =>
      mkConn (match connects c with Ok sid :: _ => Some sid | _ => None end)
             (tl (connects c)) (sends c) (arrivals c) (clock c)
             (actions c ++ [ConnectAttempt])
  end.

(** The connection without its socket, and where the except clauses of
    [send_command] take an exception raised in its [try] block. *)
Definition dropped (c : conn) : conn :=
  mkConn None (connects c) (sends c) (arrivals c) (clock c) (actions c).

Definition on_error (e : exn) (c : conn) : result json * conn :=
  if isinstance e SocketTimeout then
    (Raise (mkExn Exception
              "Timeout waiting for Blender response - try simplifying your request"),
     dropped c)
  else if isinstance_any e [ConnectionError; BrokenPipeError; ConnectionResetError] then
    (Raise (mkExn Exception ("Connection to Blender lost: " ++ exn_str e)), dropped c)
  else if isinstance e JSONDecodeError then
    (Raise (mkExn Exception ("Invalid response from Blender: " ++ exn_str e)), c)
  else if is_exception e then
    (Raise (mkExn Exception ("Communication error with Blender: " ++ exn_str e)), dropped c)
  else (Raise e, c).

(** What [send_command] makes of a decoded response. *)
Definition interpret (py_repr : json -> string) (response : json) : result json :=
  match response with
  | JObj members =>
      if py_eq_str (dict_get members "status" JNull) "error" then
        Raise (mkExn Exception
                 ("Communication error with Blender: "
                  ++ py_str py_repr
                       (dict_get members "message" (JStr "Unknown error from Blender"))))
      else Ok (dict_get members "result" (JObj []))
  | _ =>
      Raise (mkExn Exception
               ("Communication error with Blender: '" ++ py_type_name response
                ++ "' object has no attribute 'get'"))
  end.

(** The message of [get_blender_connection] when Blender cannot be reached. *)
Definition unreachable : string :=
  "Could not connect to Blender. Make sure the Blender addon is running.".

(** The second half of [get_blender_connection]: a new connection object is
    made the global one and connected; when that fails there is none. *)
Definition fresh_connection (flag : json) (c : conn) : result unit * globals :=
  let c' := connected (dropped c) in
  if is_some (sock c') then (Ok tt, mkGlobals true flag c')
  else (Raise (mkExn Exception unreachable), mkGlobals false flag c').

(** [x or d]. *)
Definition or_default (x d : json) : json := if py_truthy x then x else d.

(** The entry a tool adds to its params when [present] holds of the value. *)
Definition optional (present : json -> bool) (key : string) (x : json)
  : list (string * json) :=
  if present x then [(key, x)] else [].

Definition given (x : json) : bool := negb (is_none x).

(** What the client of a server reads after a step of that server: the
    responses the step wrote, and the end of the stream if it closed the
    client socket; all of it arrives at once. *)
Definition replies (tr : list event) : list arrival :=
  flat_map (fun ev => match ev with
                      | Sent _ data => [(0, Ok data)]
                      | Closed _ => [(0, Ok [])]
                      | _ => []
                      end) tr.

Section Exchange.

Variable Scene : Type.
Variable json_loads : bytes -> reply json.
Variable json_dumps : json -> bytes.
Variable py_repr : json -> string.
Variable call_handler : string -> json -> server -> host Scene
                        -> result json * server * host Scene.

(** The server after the step that reads the request of
    [send_command(command_type, params)] in one piece. *)
Definition serve (command_type : string) (params : json) (s : server) (h : host Scene)
  : world Scene :=
  snd (step json_loads json_dumps py_repr call_handler
            (read_env (json_dumps (command_of command_type params))) s h).

(** The connection of the client of that server while [send_command] runs:
    what the server writes in that step is what arrives. *)
Definition served (command_type : string) (params : json) (s : server) (h : host Scene)
           (c : conn) : conn :=
  mkConn (sock c) (connects c) (sends c)
         (replies (trace (serve command_type params s h))) (clock c) (actions c).

(** One call of [send_command] against one step of the server. *)
Definition round_trip (command_type : string) (params : json) (s : server) (h : host Scene)
           (c : conn) : result json * conn :=
  send_command json_loads json_dumps py_repr command_type params
               (served command_type params s h c).

End Exchange.

(* ===================================================================== *)
(** * More of the sample environment *)
(* ===================================================================== *)

(** The sample registry with the status handler of the add-on. *)
Definition status_call (method : string) (params : json) (s : server) (h : host nat)
  : result json * server * host nat :=
  if String.eqb method "get_polyhaven_status" then (Ok (get_polyhaven_status h), s, h)
  else sample_call method params s h.

Definition address_in_use_exn : fault :=
  mkFault OSError "[Errno 98] Address already in use".

(** The calls of [start] when the port is taken, and when all goes well. *)
Definition port_taken : start_env :=
  mkStartEnv (Ok 5) (Ok tt) (Raise address_in_use_exn) (Ok tt) (Ok tt) (Ok tt).

Definition port_free : start_env :=
  mkStartEnv (Ok 5) (Ok tt) (Ok tt) (Ok tt) (Ok tt) (Ok tt).

(** A server instance that listens on socket 0, serves client 1 and holds
    the first byte of a request. *)
Definition serving_life : life :=
  mkLife (mkServer true (Some 0) (Some 1) (bytes_of "{")) true [].

(** That server stopped and started again on a free port: it has no client
    and still holds the byte. *)
Definition restarted_server : server :=
  self (snd (start true port_free (snd (stop true serving_life)))).

Definition too_many_files_exn : fault :=
  mkFault OSError "[Errno 24] Too many open files".

(** Two scripts a client can have [execute_code] run. *)
Definition stop_script : string := "bpy.types.blendermcp_server.stop()".

Definition exit_script : string := "import sys; sys.exit()".

(** The sample registry with an [execute_code] that runs these two scripts
    as Blender's interpreter does: the first calls [stop] on the server the
    handler belongs to, whose timer is registered, and the handler returns
    [{"executed": True}]; the second raises [SystemExit], which the
    [except Exception] clause of the handler lets through. *)
Definition scripted_call (method : string) (params : json) (s : server) (h : host nat)
  : result json * server * host nat :=
  if String.eqb method "execute_code" then
    match params with
    | JObj members =>
        if py_eq_str (dict_get members "code" JNull) stop_script then
          (Ok (JObj [("executed", JBool true)]),
           self (snd (stop true (mkLife s true []))), h)
        else if py_eq_str (dict_get members "code" JNull) exit_script then
          (Raise (mkExn SystemExit ""), s, h)
        else sample_call method params s h
    | _ => sample_call method params s h
    end
  else sample_call method params s h.

(** The bytes of the request [send_command("execute_code", {"code": code})]
    writes. *)
Definition script_request (code : string) : bytes :=
  py_dumps (command_of "execute_code" (JObj [("code", JStr code)])).

Definition scripted_step : env -> server -> host nat -> result timer * world nat :=
  step py_loads py_dumps sample_repr scripted_call.

(** No connection object yet, and nobody listening on the port. *)
Definition no_blender : globals :=
  mkGlobals false (JBool false) (mkConn None [] [] [] 0 []).

(** No connection object yet; Blender accepts the connection and answers the
    first request with [response] after one time unit. *)
Definition blender_answering (response : json) : globals :=
  mkGlobals false (JBool false)
            (mkConn None [Ok 7] [] [(1, Ok (py_dumps response))] 0 []).

(* ===================================================================== *)
(** * Tactics *)
(* ===================================================================== *)

(** An error of a library is an instance of [Exception]. *)
Ltac caught :=
  repeat match goal with
         | |- context [is_exception (exn_of ?f)] =>
             change (is_exception (exn_of f)) with true
         | |- context [is_exception (mkExn (ErrorClass ?c) ?m)] =>
             change (is_exception (mkExn (ErrorClass c) m)) with true
         end.

(** Runs the statements of a step whose server and environment are known. *)
Ltac run :=
  repeat (progress (cbv beta iota zeta delta
    [step _process_server sendall close_client set_client set_buffer set_srv log
     modify bind try_except get ret lift raise raised
     srv hst trace running client socket buffer is_some negb andb fst snd
     accept_r setblocking_r recv_r sendall_r
     with_client accepted reset_server]; caught));
  cbn [app].

(** Runs the statements of a client call on a known connection. *)
Ltac crun :=
  repeat (progress (cbv beta iota zeta delta
    [send_command connect open_socket client_sendall set_sock act
     receive_full_response receive_from finalize attr_get
     modify bind try_except get ret lift raise raised
     sock connects sends arrivals clock actions is_some negb fst snd]; caught));
  cbn [app].

(** Walks through the except clauses of [send_command] for an exception [e]
    that [Hnj] says is no JSON decoding error. *)
Ltac invalidate e Hnj :=
  caught;
  try match goal with
      | H : is_exception e = true |- _ => rewrite H
      end;
  revert Hnj;
  destruct (isinstance e SocketTimeout);
  [ | destruct (isinstance_any e [ConnectionError; BrokenPipeError; ConnectionResetError]);
      [ | destruct (isinstance e JSONDecodeError); [discriminate|] ] ];
  intros _; eexists; split; reflexivity.

(** Takes apart the server and the environment of a step that has a client,
    [Hc] telling which, and runs the accept part. *)
Ltac enter_receive Hc :=
  unfold client_after_accept in Hc;
  match goal with
  | |- context [step _ _ _ _ ?E ?s _] =>
      let rn := fresh "rn" in
      let so := fresh "so" in
      let cl := fresh "cl" in
      let buf := fresh "buf" in
      let acc := fresh "acc" in
      let sb := fresh "sb" in
      let rc := fresh "rc" in
      let sd := fresh "sd" in
      destruct s as [rn so cl buf]; destruct E as [acc sb rc sd];
      cbn [running client socket buffer accept_r recv_r sendall_r] in *; subst;
      destruct cl as [?|];
      [ injection Hc as -> |
        destruct so; [|discriminate]; destruct acc as [?|]; [|discriminate];
        injection Hc as ->;
        let e' := fresh "e" in
        run; destruct sb as [[]|e']; run;
        [ | destruct (isinstance e' BlockingIOError) ] ];
      run
  end.

(** Runs the statements of the life cycle of the server. *)
Ltac lrun :=
  repeat (progress (cbv beta iota zeta delta
    [start stop set_self set_registered close_socket try_except
     start_server_execute stop_server_execute on_instance init_server
     modify bind get ret lift raise raised
     self timer_registered closed running socket client buffer
     socket_r setsockopt_r bind_r listen_r nonblocking_r register_r
     blendermcp_server blendermcp_server_running sockets_of setup_fails fst snd]; caught));
  cbn [app].

(** Walks through the except clauses of [send_command] on both sides of an
    equation with [on_error]. *)
Ltac settle e :=
  cbv beta iota delta [raised];
  unfold on_error, dropped; caught;
  destruct (isinstance e SocketTimeout); [reflexivity|];
  destruct (isinstance_any e [ConnectionError; BrokenPipeError; ConnectionResetError]);
  [reflexivity|];
  destruct (isinstance e JSONDecodeError); [reflexivity|];
  try destruct (is_exception e); reflexivity.

Unset Implicit Arguments.

(* ===================================================================== *)
(** * Facts about dicts and exception classes *)
(* ===================================================================== *)

Lemma dict_lookup_none {V : Type} (tbl : list (string * V)) (key : string) :
  dict_lookup tbl key = None ->
  forall k v, In (k, v) tbl -> String.eqb key k = false.
Proof.
  induction tbl as [|[k0 v0] tbl IH]; intros Hnone k v Hin; [contradiction|].
  cbn [dict_lookup] in Hnone.
  destruct (String.eqb k0 key) eqn:Hk; [discriminate|].
  destruct Hin as [Heq|Hin].
  - inversion Heq; subst. now rewrite String.eqb_sym.
  - eapply IH; eauto.
Qed.

Lemma base_in_table (flag : bool) (k m : string) :
  In (k, m) base_handlers -> In (k, m) (handlers_table flag).
Proof.
  destruct flag; [|trivial].
  vm_compute. intuition.
Qed.

Lemma unregistered_not_base (flag : bool) (t : string) :
  registered flag t = false ->
  forall k m, In (k, m) base_handlers -> String.eqb t k = false.
Proof.
  unfold registered. intros H k m Hin.
  destruct (dict_lookup (handlers_table flag) t) eqn:Hl; [discriminate|].
  eapply dict_lookup_none; eauto using base_in_table.
Qed.

(** Every entry of the handlers dict maps a command type to the method of
    the same name. *)
Lemma registered_method (flag : bool) (t m : string) :
  dict_lookup (handlers_table flag) t = Some m -> m = t.
Proof.
  destruct flag; unfold handlers_table;
    [ replace (dict_update base_handlers polyhaven_handlers)
        with (base_handlers ++ polyhaven_handlers)%list by reflexivity | ];
    unfold base_handlers, polyhaven_handlers; cbn [dict_lookup app];
    repeat match goal with
           | |- context [String.eqb ?k t] =>
               destruct (String.eqb_spec k t) as [->|_]; [now intros [= <-]|]
           end; discriminate.
Qed.

Lemma filter_nil_existsb {A : Type} (f : A -> bool) (l : list A) :
  filter f l = [] -> existsb f l = false.
Proof.
  induction l as [|x l IH]; cbn; [reflexivity|].
  destruct (f x); [discriminate|]. exact IH.
Qed.

Lemma filter_nil_of_none {A : Type} (f : A -> bool) (l : list A) :
  (forall x, In x l -> f x = false) -> filter f l = [].
Proof.
  induction l as [|x l IH]; cbn; intros H; [reflexivity|].
  rewrite (H x (or_introl eq_refl)). apply IH. intros y Hy. apply H. now right.
Qed.

(* ===================================================================== *)
(** * The dispatcher *)
(* ===================================================================== *)

Section DispatcherFacts.

Variable Scene : Type.
Variable py_repr : json -> string.
Variable call_handler : string -> json -> server -> host Scene
                        -> result json * server * host Scene.

Local Notation exec := (execute_command py_repr call_handler).
Local Notation exec_internal := (_execute_command_internal py_repr call_handler).

(** [_execute_command_internal] on a registered command type: the handler is
    called once, on the server and the host as they are; only the status
    handler lets an instance of [Exception] through. *)
Lemma internal_registered members t (w : world Scene) :
  dict_get members "type" JNull = JStr t ->
  registered (blendermcp_use_polyhaven (hst w)) t = true ->
  exec_internal (JObj members) w
  = let a := handler_arguments t members in
    let called := call_handler t a (srv w) (hst w) in
    (match fst (fst called) with
     | Ok v => Ok (success_response v)
     | Raise e => if String.eqb t "get_polyhaven_status" then Raise e
                  else if is_exception e then Ok (error_response (exn_str e))
                  else Raise e
     end,
     mkWorld (snd (fst called)) (snd called) (trace w ++ [Called t a (fst (fst called))])).
Proof.
  intros Htype Hreg.
  unfold _execute_command_internal, handler_arguments, bind, attr_get, ret, get.
  rewrite Htype. cbn [py_eq_str].
  destruct (String.eqb_spec t "get_polyhaven_status") as [->|Hne].
  - unfold invoke. cbv zeta.
    destruct (call_handler _ _ _ _) as [[[v|e] s1] h1]; reflexivity.
  - unfold registered in Hreg. unfold handlers_get, ret.
    destruct (dict_lookup _ t) as [m|] eqn:Hl; [|discriminate].
    apply registered_method in Hl. subst m.
    unfold try_except, bind, invoke, ret. cbv zeta.
    destruct (call_handler _ _ _ _) as [[[v|e] s1] h1]; cbn [fst snd]; [reflexivity|].
    destruct (is_exception e); reflexivity.
Qed.

Lemma filter_cons_existsb {A : Type} (f : A -> bool) (l : list A) (a : A) (rest : list A) :
  filter f l = a :: rest -> existsb f l = true.
Proof.
  induction l as [|x l IH]; cbn; [discriminate|].
  destruct (f x); [reflexivity|]. exact IH.
Qed.

(** The dispatcher on a command whose type is a string, case by case. *)
Lemma exec_run members t (w : world Scene) :
  dict_get members "type" JNull = JStr t ->
  exec (JObj members) w
  = if registered (blendermcp_use_polyhaven (hst w)) t then
      if py_in_strs (JStr t) view3d_commands && negb (has_view3d (hst w)) then
        (Ok (error_response match screen (hst w) with
                            | Some _ => "list index out of range"
                            | None => "'NoneType' object has no attribute 'areas'"
                            end), w)
      else
        let args := handler_arguments t members in
        let called := call_handler t args (srv w) (handler_context t (hst w)) in
        (answer (fst (fst called)),
         mkWorld (snd (fst called)) (after_handler t (hst w) (snd called))
                 (trace w ++ [Called t args (fst (fst called))]))
    else (Ok (error_response ("Unknown command type: " ++ t)), w).
Proof.
  intros Htype.
  destruct (registered (blendermcp_use_polyhaven (hst w)) t) eqn:Hreg.
  - unfold execute_command, try_except, bind at 1 2. unfold attr_get at 1 2, ret at 1 2.
    rewrite Htype. unfold handler_context, after_handler.
    destruct (py_in_strs (JStr t) view3d_commands) eqn:Hv; cbn [andb].
    + (* the command runs inside a viewport override *)
      assert (Hs : String.eqb t "get_polyhaven_status" = false).
      { cbn [py_in_strs existsb view3d_commands py_eq_str] in Hv.
        destruct (String.eqb_spec t "get_polyhaven_status") as [->|]; [discriminate|reflexivity]. }
      unfold bind at 1, view3d_area, bind at 1, get at 1, has_view3d, viewport.
      destruct (screen (hst w)) as [areas|] eqn:Hscreen; [|reflexivity].
      destruct (filter _ areas) as [|a rest] eqn:Hfilter.
      * rewrite (filter_nil_existsb _ _ Hfilter). reflexivity.
      * rewrite (filter_cons_existsb _ _ _ _ Hfilter). cbn [negb hd_error].
        unfold ret at 1, with_temp_override, bind, get, set_override, set_hst, modify.
        cbn [snd hst srv trace].
        rewrite (@internal_registered members t _ Htype) by exact Hreg.
        cbn [hst srv trace blendermcp_use_polyhaven]. cbv zeta. rewrite ?Hscreen, Hs.
        unfold answer.
        destruct (call_handler t _ _ _) as [[[v|e] s1] h1]; cbn [fst snd hst srv trace];
          [reflexivity|].
        destruct (is_exception e) eqn:He; cbv beta iota; rewrite ?He; reflexivity.
    + rewrite (@internal_registered members t _ Htype) by exact Hreg.
      cbv zeta. unfold answer.
      destruct (call_handler t _ _ _) as [[[v|e] s1] h1]; cbn [fst snd]; [reflexivity|].
      destruct (String.eqb t "get_polyhaven_status"); destruct (is_exception e) eqn:He;
        cbv beta iota; rewrite ?He; reflexivity.
  - pose proof (unregistered_not_base _ _ Hreg) as Hbase.
    assert (Hv : py_in_strs (JStr t) view3d_commands = false).
    { cbn [py_in_strs existsb view3d_commands py_eq_str].
      rewrite (Hbase "create_object" "create_object"), (Hbase "modify_object" "modify_object"),
              (Hbase "delete_object" "delete_object"); [reflexivity| | |]; cbn; tauto. }
    assert (Hp : py_eq_str (JStr t) "get_polyhaven_status" = false).
    { cbn [py_eq_str]. apply (Hbase _ "get_polyhaven_status"). cbn; tauto. }
    unfold execute_command, _execute_command_internal, try_except, bind, attr_get, ret, get.
    rewrite Htype, Hv, Hp.
    unfold handlers_get, ret.
    unfold registered in Hreg.
    destruct (dict_lookup _ t); [discriminate|].
    reflexivity.
Qed.

(** The dispatcher on a command whose type is no string. *)
Lemma exec_no_string cmd (w : world Scene) :
  (forall members t, cmd = JObj members -> dict_get members "type" JNull <> JStr t) ->
  exists msg, exec cmd w = (Ok (error_response msg), w).
Proof.
  intros Hno. destruct cmd as [| | | | |members]; try (eexists; reflexivity).
  specialize (Hno members).
  unfold execute_command, _execute_command_internal, try_except, bind, attr_get, ret, get.
  destruct (dict_get members "type" JNull) as [| | |s| |] eqn:Ht;
    try (eexists; reflexivity).
  now destruct (Hno s eq_refl).
Qed.

(** The dispatcher calls no handler and leaves the world, or calls one
    handler on the server as it is and answers with its outcome. *)
Lemma exec_cases cmd (w : world Scene) :
  (exists msg, exec cmd w = (Ok (error_response msg), w))
  \/ (exists t args hin hout,
        exec cmd w
        = (answer (fst (fst (call_handler t args (srv w) hin))),
           mkWorld (snd (fst (call_handler t args (srv w) hin))) hout
                   (trace w ++ [Called t args (fst (fst (call_handler t args (srv w) hin)))]))).
Proof.
  destruct cmd as [| | | | |members];
    try solve [left; apply exec_no_string; intros ? ? [=]].
  destruct (dict_get members "type" JNull) as [| | |t| |] eqn:Ht;
    try solve [left; apply exec_no_string; intros ? ? [= <-]; rewrite Ht; discriminate].
  rewrite (exec_run members t w Ht).
  destruct (registered _ t); [|eauto].
  destruct (_ && _); [eauto|].
  right. cbv zeta. eauto 8.
Qed.

(** What the dispatcher raises was raised by a handler, outside [Exception]. *)
Lemma exec_raises cmd (w : world Scene) (e : exn) :
  fst (exec cmd w) = Raise e ->
  is_exception e = false /\ handler_raises call_handler e.
Proof.
  destruct (exec_cases cmd w) as [(msg & ->)|(t & args & hin & hout & ->)];
    cbn [fst]; [discriminate|].
  unfold answer.
  destruct (fst (fst (call_handler t args (srv w) hin))) as [v|e0] eqn:Hout; [discriminate|].
  destruct (is_exception e0) eqn:He; [discriminate|].
  intros [= <-]. split; [exact He|]. exists t, args, (srv w), hin. exact Hout.
Qed.

(** The dispatcher adds at most one handler call to the trace. *)
Lemma exec_calls cmd (w : world Scene) :
  exists evs, trace (snd (exec cmd w)) = (trace w ++ evs)%list
              /\ (evs = [] \/ exists m a out, evs = [Called m a out]).
Proof.
  destruct (exec_cases cmd w) as [(msg & ->)|(t & args & hin & hout & ->)]; cbn [snd trace].
  - exists []. rewrite app_nil_r. auto.
  - eexists. split; [reflexivity|]. eauto 8.
Qed.

(** The server the dispatcher leaves is the one it found, or the one a
    handler called on it left. *)
Lemma exec_server cmd (w : world Scene) :
  srv (snd (exec cmd w)) = srv w
  \/ exists t args hin,
       srv (snd (exec cmd w)) = snd (fst (call_handler t args (srv w) hin)).
Proof.
  destruct (exec_cases cmd w) as [(msg & ->)|(t & args & hin & hout & ->)]; cbn [snd srv];
    eauto 8.
Qed.

(** When no handler raises outside [Exception], the dispatcher returns. *)
Lemma exec_returns cmd (w : world Scene) :
  handlers_raise_errors call_handler -> exists resp, fst (exec cmd w) = Ok resp.
Proof.
  intros Herr.
  destruct (exec_cases cmd w) as [(msg & ->)|(t & args & hin & hout & ->)];
    cbn [fst]; [eauto|].
  unfold answer.
  destruct (fst (fst (call_handler t args (srv w) hin))) as [v|e] eqn:Hout; [eauto|].
  rewrite (Herr _ _ _ _ _ Hout). eauto.
Qed.

(** A field of the server that no handler writes is as it was after the
    dispatch. *)
Lemma exec_keeps {A : Type} (field : server -> A) cmd (w : world Scene) :
  handlers_keep call_handler field -> field (srv (snd (exec cmd w))) = field (srv w).
Proof.
  intros Hkeep.
  destruct (exec_server cmd w) as [->|(t & args & hin & ->)]; [reflexivity|apply Hkeep].
Qed.

(** C3.  A command whose type string names no registered handler, under the
    Poly Haven flag as it is at the call, gets exactly the response
    [{"status": "error", "message": "Unknown command type: <type>"}], whatever
    its params; the dispatcher returns it and does not raise, and it leaves
    the host as it was. *)
Theorem unknown_command_type_error :
  forall (members : list (string * json)) (t : string) (w : world Scene),
    dict_get members "type" JNull = JStr t ->
    registered (blendermcp_use_polyhaven (hst w)) t = false ->
    exec (JObj members) w
    = (Ok (error_response ("Unknown command type: " ++ t)), w).
Proof.
  intros members t w Htype Hreg.
  rewrite (exec_run members t w Htype), Hreg. reflexivity.
Qed.

(** C4, as amended.  For a registered command type, unless the command needs
    a 3D viewport that the screen lacks, the dispatcher calls the handler of
    that type once, with the params of the command, and what it returns
    follows the outcome of that call: [{"status": "success", "result": v}]
    when the handler returned [v], [{"status": "error", "message": str(e)}]
    when it raised an instance [e] of [Exception]; what the handler raises
    outside [Exception] propagates out of the dispatcher.  The server is as
    the handler left it. *)
Theorem handler_outcome_becomes_response :
  forall (members : list (string * json)) (t : string) (w : world Scene),
    dict_get members "type" JNull = JStr t ->
    registered (blendermcp_use_polyhaven (hst w)) t = true ->
    py_in_strs (JStr t) view3d_commands = false \/ has_view3d (hst w) = true ->
    let args := handler_arguments t members in
    let called := call_handler t args (srv w) (handler_context t (hst w)) in
    exec (JObj members) w
    = (match fst (fst called) with
       | Ok v => Ok (success_response v)
       | Raise e => if is_exception e then Ok (error_response (exn_str e)) else Raise e
       end,
       mkWorld (snd (fst called)) (after_handler t (hst w) (snd called))
               (trace w ++ [Called t args (fst (fst called))])).
Proof.
  intros members t w Htype Hreg Hview.
  rewrite (exec_run members t w Htype), Hreg.
  assert (py_in_strs (JStr t) view3d_commands && negb (has_view3d (hst w)) = false) as ->.
  { destruct Hview as [->| ->]; [reflexivity|]. now rewrite andb_false_r. }
  reflexivity.
Qed.

(** C10.  For [create_object], [modify_object] and [delete_object], when the
    screen of the host has no area of type [VIEW_3D], the lookup of the area
    raises before the handler is reached ([IndexError] on a screen without
    such an area): the dispatcher returns an error response carrying that
    exception's text, does not raise, calls no handler (the trace is as it
    was) and leaves the host as it was. *)
Theorem missing_viewport_skips_handler :
  forall (members : list (string * json)) (t : string) (w : world Scene),
    dict_get members "type" JNull = JStr t ->
    In t view3d_commands ->
    has_view3d (hst w) = false ->
    exists message,
      exec (JObj members) w = (Ok (error_response message), w)
      /\ (forall areas, screen (hst w) = Some areas ->
            message = "list index out of range").
Proof.
  intros members t w Htype Hin Hnone.
  assert (Hv : py_in_strs (JStr t) view3d_commands = true).
  { unfold py_in_strs. apply existsb_exists. exists t. split; [exact Hin|].
    cbn [py_eq_str]. apply String.eqb_refl. }
  assert (Hreg : registered (blendermcp_use_polyhaven (hst w)) t = true).
  { cbn in Hin.
    destruct Hin as [<-|[<-|[<-|[]]]]; destruct (blendermcp_use_polyhaven (hst w));
      reflexivity. }
  rewrite (exec_run members t w Htype), Hreg, Hv, Hnone. cbn [andb negb].
  eexists. split; [reflexivity|].
  intros areas ->. reflexivity.
Qed.

End DispatcherFacts.

(** The dispatch of ["nonexistent"] with empty params. *)
Lemma unknown_command_type_error_witness :
  execute_command sample_repr sample_call (request_of "nonexistent")
                  (mkWorld (connected_server []) viewport_host [])
  = (Ok (error_response "Unknown command type: nonexistent"),
     mkWorld (connected_server []) viewport_host []).
Proof.
  apply (@unknown_command_type_error nat sample_repr sample_call
           [("type", JStr "nonexistent"); ("params", JObj [])] "nonexistent"
           (mkWorld (connected_server []) viewport_host [])).
  - reflexivity.
  - reflexivity.
Defined.

(** A handler that raises with the text "boom": the response is the error
    with that text. *)
Lemma handler_outcome_becomes_response_witness :
  execute_command sample_repr sample_call (request_of "execute_code")
                  (mkWorld (connected_server []) viewport_host [])
  = (Ok (error_response "boom"),
     mkWorld (connected_server []) viewport_host
             [Called "execute_code" (JObj []) (Raise (mkExn Exception "boom"))]).
Proof.
  apply (@handler_outcome_becomes_response nat sample_repr sample_call
           [("type", JStr "execute_code"); ("params", JObj [])] "execute_code"
           (mkWorld (connected_server []) viewport_host [])).
  - reflexivity.
  - reflexivity.
  - left. reflexivity.
Defined.

(** [create_object] on a screen without a 3D viewport. *)
Lemma missing_viewport_skips_handler_witness :
  exists message,
    execute_command sample_repr sample_call (request_of "create_object")
                    (mkWorld (connected_server []) no_viewport_host [])
    = (Ok (error_response message),
       mkWorld (connected_server []) no_viewport_host [])
    /\ (forall areas,
          screen (hst (mkWorld (connected_server []) no_viewport_host [])) = Some areas ->
          message = "list index out of range").
Proof.
  apply (@missing_viewport_skips_handler nat sample_repr sample_call
           [("type", JStr "create_object"); ("params", JObj [])] "create_object"
           (mkWorld (connected_server []) no_viewport_host [])).
  - reflexivity.
  - cbn. tauto.
  - reflexivity.
Defined.

(* ===================================================================== *)
(** * The server step *)
(* ===================================================================== *)

Lemma oserror_not_json (e : exn) :
  isinstance e OSError = true -> isinstance e JSONDecodeError = false.
Proof.
  unfold isinstance. destruct (exn_class e) as [| | |c]; cbn; try discriminate.
  destruct c; cbn; try reflexivity; try discriminate.
Qed.

(** What is outside [Exception] is an instance of no class below it. *)
Lemma outside_exception (e : exn) (c : error_class) :
  is_exception e = false -> isinstance e c = false.
Proof.
  unfold is_exception, isinstance. destruct (exn_class e); [reflexivity..|discriminate].
Qed.

Section StepFacts.

Local Open Scope list_scope.
Variable Scene : Type.
Variable json_loads : bytes -> reply json.
Variable json_dumps : json -> bytes.
Variable py_repr : json -> string.
Variable call_handler : string -> json -> server -> host Scene
                        -> result json * server * host Scene.

Local Notation exec := (execute_command py_repr call_handler).
Local Notation pstep := (step json_loads json_dumps py_repr call_handler).

Lemma step_not_running E s h :
  running s = false -> pstep E s h = (Ok Unregister, mkWorld s h []).
Proof. intros H. destruct s; cbn in H; subst. reflexivity. Qed.

Lemma step_no_client E s h :
  running s = true -> client_after_accept E s = None ->
  pstep E s h = (Ok (Reinvoke 100), mkWorld s h []).
Proof.
  intros Hr Hc. unfold client_after_accept in Hc.
  destruct s as [rn so cl buf], E as [acc sb rc sd]. cbn in Hr, Hc. subst rn.
  destruct cl; [discriminate|].
  destruct so; run.
  - destruct acc as [cid|e]; [discriminate|]. run.
    destruct (isinstance e BlockingIOError); reflexivity.
  - reflexivity.
Qed.

Lemma step_recv_raises E s h cid e :
  running s = true -> client_after_accept E s = Some cid ->
  recv_r E = Raise e ->
  pstep E s h
  = (Ok (Reinvoke 100),
     if would_block e then mkWorld (with_client s cid) h (accepted s cid)
     else mkWorld (reset_server s) h (accepted s cid ++ [Closed cid])).
Proof.
  intros Hr Hc Hrecv. enter_receive Hc; unfold would_block;
    destruct (isinstance e BlockingIOError); reflexivity.
Qed.

Lemma step_recv_empty E s h cid :
  running s = true -> client_after_accept E s = Some cid ->
  recv_r E = Ok [] ->
  pstep E s h
  = (Ok (Reinvoke 100), mkWorld (reset_server s) h (accepted s cid ++ [Closed cid])).
Proof.
  intros Hr Hc Hrecv. enter_receive Hc; reflexivity.
Qed.

Lemma step_parse_fails E s h cid b data e :
  running s = true -> client_after_accept E s = Some cid ->
  recv_r E = Ok (b :: data) ->
  json_loads (buffer s ++ b :: data)%list = Raise e ->
  pstep E s h
  = (Ok (Reinvoke 100),
     if isinstance e JSONDecodeError || would_block e
     then mkWorld (mkServer (running s) (socket s) (Some cid) (buffer s ++ b :: data)%list)
                  h (accepted s cid)
     else mkWorld (reset_server s) h (accepted s cid ++ [Closed cid])).
Proof.
  intros Hr Hc Hrecv Hl. enter_receive Hc; unfold would_block;
    rewrite Hl; run;
    destruct (isinstance e JSONDecodeError); run; try reflexivity;
    destruct (isinstance e BlockingIOError); reflexivity.
Qed.

(** A step that decodes a command dispatches it on the server with the
    buffer cleared, and goes on from what the dispatcher returns. *)
Lemma step_decodes E s h cid b data cmd :
  running s = true -> client_after_accept E s = Some cid ->
  recv_r E = Ok (b :: data) ->
  json_loads (buffer s ++ b :: data)%list = Ok cmd ->
  pstep E s h
  = after_dispatch json_dumps E
      (exec cmd (mkWorld (mkServer (running s) (socket s) (Some cid) []) h
                         (accepted s cid ++ [Decoded cmd]))).
Proof.
  intros Hr Hc Hrecv Hl.
  pose proof (exec_raises Scene py_repr call_handler cmd
                (mkWorld (mkServer (running s) (socket s) (Some cid) []) h
                         (accepted s cid ++ [Decoded cmd]))) as Hraise.
  destruct (exec cmd _) as [[resp|e] w3] eqn:Hx.
  - clear Hraise. unfold after_dispatch. cbn [fst snd].
    destruct w3 as [[r3 so3 [c3|] b3] h3 t3]; revert Hx;
      enter_receive Hc; unfold would_block; intros Hx;
      rewrite Hl; run; rewrite Hx; run; try reflexivity;
      destruct sd as [[]|ex]; run; try reflexivity;
      destruct (isinstance ex JSONDecodeError); run; try reflexivity;
      destruct (isinstance ex BlockingIOError); reflexivity.
  - destruct (Hraise e eq_refl) as [He _]. clear Hraise.
    pose proof (outside_exception e JSONDecodeError He) as Hj.
    pose proof (outside_exception e BlockingIOError He) as Hb.
    unfold after_dispatch. cbn [fst snd].
    revert Hx; enter_receive Hc; intros Hx;
      rewrite Hl; run; rewrite Hx; run;
      rewrite Hj; run; rewrite Hb, He; run; rewrite He; run; rewrite He; reflexivity.
Qed.

Lemma parsed_command_inv E s cmd :
  parsed_command json_loads E s = Some cmd ->
  running s = true
  /\ exists cid b data,
      client_after_accept E s = Some cid
      /\ recv_r E = Ok (b :: data)
      /\ json_loads (buffer s ++ b :: data)%list = Ok cmd.
Proof.
  unfold parsed_command. destruct (running s); [|discriminate].
  destruct (client_after_accept E s) as [cid|]; [|discriminate].
  destruct (recv_r E) as [[|b data]|e]; try discriminate.
  destruct (json_loads _) as [c|e] eqn:Hl; [|discriminate].
  intros [= <-]. split; [reflexivity|]. eauto 8.
Qed.

Lemma sent_of_app (a b : list event) : sent_of (a ++ b) = (sent_of a ++ sent_of b)%list.
Proof. apply flat_map_app. Qed.

Lemma sent_of_accepted s cid : sent_of (accepted s cid) = [].
Proof. unfold accepted. destruct (client s); reflexivity. Qed.

Lemma sent_of_exec cmd (w : world Scene) :
  sent_of (trace (snd (exec cmd w))) = sent_of (trace w).
Proof.
  destruct (exec_calls Scene py_repr call_handler cmd w)
    as (evs & -> & [->|(m & a & out & ->)]); rewrite sent_of_app; apply app_nil_r.
Qed.

(** What one step writes back to the client, case by case. *)
Lemma step_sent E s h :
  sent_of (trace (snd (pstep E s h)))
  = match parsed_command json_loads E s, client_after_accept E s with
    | Some cmd, Some cid =>
        let x := exec cmd (mkWorld (mkServer (running s) (socket s) (Some cid) []) h
                                   (accepted s cid ++ [Decoded cmd])) in
        match fst x, client (srv (snd x)), sendall_r E with
        | Ok resp, Some _, Ok _ => [json_dumps resp]
        | _, _, _ => []
        end
    | _, _ => []
    end.
Proof.
  unfold parsed_command.
  destruct (running s) eqn:Hr; [|now rewrite step_not_running].
  destruct (client_after_accept E s) as [cid|] eqn:Hc; [|now rewrite step_no_client].
  destruct (recv_r E) as [[|b data]|e] eqn:Hrecv.
  - rewrite (step_recv_empty _ _ _ _ Hr Hc Hrecv). cbn [snd trace].
    now rewrite sent_of_app, sent_of_accepted.
  - destruct (json_loads _) as [cmd|e] eqn:Hl.
    + rewrite (step_decodes _ _ _ _ _ _ _ Hr Hc Hrecv Hl), Hr. cbv zeta.
      pose proof (sent_of_exec cmd (mkWorld (mkServer true (socket s) (Some cid) []) h
                                            (accepted s cid ++ [Decoded cmd]))) as Hs.
      cbn [trace] in Hs. rewrite sent_of_app, sent_of_accepted in Hs. cbn in Hs.
      unfold after_dispatch.
      destruct (exec cmd _) as [[resp|e] w3]; cbn [fst snd] in *; [|exact Hs].
      destruct (client (srv w3)) as [c|]; cbn [trace]; [|destruct (sendall_r E); exact Hs].
      destruct (sendall_r E) as [[]|e].
      * cbn [trace]. rewrite sent_of_app, Hs. reflexivity.
      * destruct (_ || _); [exact Hs|]. cbn [trace]. rewrite sent_of_app, Hs. reflexivity.
    + rewrite (step_parse_fails _ _ _ _ _ _ _ Hr Hc Hrecv Hl). cbn [snd].
      destruct (_ || _); cbn [trace]; [|rewrite sent_of_app]; now rewrite sent_of_accepted.
  - rewrite (step_recv_raises _ _ _ _ _ Hr Hc Hrecv). cbn [snd].
    destruct (would_block e); cbn [trace]; [|rewrite sent_of_app]; now rewrite sent_of_accepted.
Qed.

(** C2, as amended.  In every step, a response is written back to the client
    if and only if the accumulated buffer parsed in that step, the dispatcher
    returned a response for what it parsed to, the server still had a client
    after the dispatch, and [sendall] raised no exception; what is written
    then is the serialized response of the dispatcher, once.  When the
    receive raises, no response is written.  When no handler raises outside
    [Exception] or writes the client of the server, the dispatcher does return
    and the client is still there: a response is written if and only if the
    buffer parsed and [sendall] raised no exception. *)
Theorem response_written_iff_parsed_and_sent :
  forall (E : env) (s : server) (h : host Scene),
    let written := sent_of (trace (snd (pstep E s h))) in
    let dispatch cmd cid :=
      exec cmd (mkWorld (mkServer (running s) (socket s) (Some cid) []) h
                        (accepted s cid ++ [Decoded cmd])) in
    (written <> [] <->
       exists cmd cid resp,
         parsed_command json_loads E s = Some cmd
         /\ client_after_accept E s = Some cid
         /\ fst (dispatch cmd cid) = Ok resp
         /\ client (srv (snd (dispatch cmd cid))) <> None
         /\ sendall_r E = Ok tt)
    /\ (forall cmd cid resp,
          parsed_command json_loads E s = Some cmd ->
          client_after_accept E s = Some cid ->
          fst (dispatch cmd cid) = Ok resp ->
          client (srv (snd (dispatch cmd cid))) <> None ->
          sendall_r E = Ok tt ->
          written = [json_dumps resp])
    /\ (forall e, recv_r E = Raise e -> written = [])
    /\ (handlers_raise_errors call_handler -> handlers_keep call_handler client ->
        (written <> [] <->
           parsed_command json_loads E s <> None /\ sendall_r E = Ok tt)).
Proof.
  intros E s h written dispatch. subst written dispatch. cbv beta. rewrite step_sent.
  assert (Hwritten : forall cmd cid resp,
             parsed_command json_loads E s = Some cmd ->
             client_after_accept E s = Some cid ->
             fst (exec cmd (mkWorld (mkServer (running s) (socket s) (Some cid) []) h
                                    (accepted s cid ++ [Decoded cmd]))) = Ok resp ->
             client (srv (snd (exec cmd (mkWorld (mkServer (running s) (socket s) (Some cid) [])
                                                 h (accepted s cid ++ [Decoded cmd])))))
             <> None ->
             sendall_r E = Ok tt ->
             match parsed_command json_loads E s, client_after_accept E s with
             | Some cmd, Some cid =>
                 let x := exec cmd (mkWorld (mkServer (running s) (socket s) (Some cid) []) h
                                            (accepted s cid ++ [Decoded cmd])) in
                 match fst x, client (srv (snd x)), sendall_r E with
                 | Ok resp, Some _, Ok _ => [json_dumps resp]
                 | _, _, _ => []
                 end
             | _, _ => []
             end = [json_dumps resp]).
  { intros cmd cid resp -> -> Hx Hcl ->. cbv zeta. rewrite Hx.
    destruct (client _); [reflexivity|now contradiction Hcl]. }
  split; [|split; [|split]].
  - split.
    + destruct (parsed_command json_loads E s) as [cmd|] eqn:Hp; [|intros Hn; now contradiction Hn].
      destruct (client_after_accept E s) as [cid|] eqn:Hc; [|intros Hn; now contradiction Hn].
      cbv zeta.
      destruct (fst (exec cmd _)) as [resp|e] eqn:Hx; [|intros Hn; now contradiction Hn].
      destruct (client (srv (snd (exec cmd _)))) as [c|] eqn:Hcl;
        [|intros Hn; now contradiction Hn].
      destruct (sendall_r E) as [[]|e] eqn:Hs; [|intros Hn; now contradiction Hn].
      intros _. exists cmd, cid, resp. rewrite Hx, Hcl.
      repeat split; try reflexivity. discriminate.
    + intros (cmd & cid & resp & Hp & Hc & Hx & Hcl & Hs).
      rewrite (Hwritten cmd cid resp Hp Hc Hx Hcl Hs). discriminate.
  - exact Hwritten.
  - intros e Hrecv. unfold parsed_command. rewrite Hrecv.
    destruct (running s); [|reflexivity].
    destruct (client_after_accept E s); reflexivity.
  - intros Herr Hkeep.
    destruct (parsed_command json_loads E s) as [cmd|] eqn:Hp;
      [|split; [intros Hn; now contradiction Hn | intros [Hn _]; now contradiction Hn]].
    destruct (parsed_command_inv _ _ _ Hp) as (Hr & cid & b & data & Hc & _ & _).
    rewrite Hc. cbv zeta.
    destruct (exec_returns Scene py_repr call_handler cmd
                (mkWorld (mkServer (running s) (socket s) (Some cid) []) h
                         (accepted s cid ++ [Decoded cmd])) Herr) as (resp & ->).
    rewrite (exec_keeps Scene py_repr call_handler client cmd _ Hkeep). cbn [srv client].
    destruct (sendall_r E) as [[]|e].
    + split; [intros _; split; [discriminate|reflexivity] | intros _; discriminate].
    + split; [intros Hn; now contradiction Hn | intros [_ Hs]; discriminate].
Qed.

Lemma transport_fault_inv e :
  transport_fault e = true ->
  would_block e = false /\ isinstance e JSONDecodeError = false.
Proof.
  unfold transport_fault, would_block. intros H.
  apply andb_true_iff in H as [Hos Hnb]. apply negb_true_iff in Hnb.
  split; [exact Hnb | now apply oserror_not_json].
Qed.

(** C5, as amended.  The step lets no instance of [Exception] escape: it
    returns to the scheduler (the delay of 100 ms while the server runs, the
    stop signal otherwise) unless a handler raised outside [Exception], and
    then what it raises is what that handler raised.  A zero-length receive
    closes the client socket, clears the buffer and leaves the server without
    client.  So does an error of the socket layer other than the would-block
    signal [BlockingIOError], raised by the receive or by the send of a
    response to the client the server has after the dispatch.  An exception
    raised by the accept is caught and leaves the server as it was, without
    client. *)
Theorem step_returns_and_disconnects :
  forall (E : env) (s : server) (h : host Scene),
    let w' := snd (pstep E s h) in
    let dispatch cmd cid :=
      exec cmd (mkWorld (mkServer (running s) (socket s) (Some cid) []) h
                        (accepted s cid ++ [Decoded cmd])) in
    match fst (pstep E s h) with
    | Ok t => t = if running s then Reinvoke 100 else Unregister
    | Raise e => is_exception e = false /\ handler_raises call_handler e
    end
    /\ (running s = true ->
        forall cid, client_after_accept E s = Some cid ->
          (recv_r E = Ok [] ->
             srv w' = reset_server s /\ In (Closed cid) (trace w'))
          /\ (forall e, recv_r E = Raise e -> transport_fault e = true ->
                srv w' = reset_server s /\ In (Closed cid) (trace w'))
          /\ (forall cmd resp c e,
                parsed_command json_loads E s = Some cmd ->
                fst (dispatch cmd cid) = Ok resp ->
                client (srv (snd (dispatch cmd cid))) = Some c ->
                sendall_r E = Raise e -> transport_fault e = true ->
                srv w' = reset_server (srv (snd (dispatch cmd cid)))
                /\ In (Closed c) (trace w')))
    /\ (running s = true -> client s = None ->
        forall e, accept_r E = Raise e -> w' = mkWorld s h []).
Proof.
  intros E s h w' dispatch. subst w' dispatch. cbv beta. split; [|split].
  - destruct (running s) eqn:Hr; [|now rewrite step_not_running].
    destruct (client_after_accept E s) as [cid|] eqn:Hc; [|now rewrite step_no_client].
    destruct (recv_r E) as [[|b data]|e] eqn:Hrecv.
    + now rewrite (step_recv_empty _ _ _ _ Hr Hc Hrecv).
    + destruct (json_loads (buffer s ++ b :: data)%list) as [cmd|e] eqn:Hl.
      * rewrite (step_decodes _ _ _ _ _ _ _ Hr Hc Hrecv Hl). unfold after_dispatch.
        pose proof (exec_raises Scene py_repr call_handler cmd
                      (mkWorld (mkServer (running s) (socket s) (Some cid) []) h
                               (accepted s cid ++ [Decoded cmd]))) as Hraise.
        destruct (fst (exec cmd _)) as [resp|e]; cbn [fst]; [reflexivity|].
        now apply Hraise.
      * now rewrite (step_parse_fails _ _ _ _ _ _ _ Hr Hc Hrecv Hl).
    + now rewrite (step_recv_raises _ _ _ _ _ Hr Hc Hrecv).
  - intros Hr cid Hc. split; [|split].
    + intros Hrecv. rewrite (step_recv_empty _ _ _ _ Hr Hc Hrecv). cbn [snd srv trace].
      split; [reflexivity|]. apply in_or_app. right. now left.
    + intros e Hrecv Hf. destruct (transport_fault_inv _ Hf) as [Hnb _].
      rewrite (step_recv_raises _ _ _ _ _ Hr Hc Hrecv), Hnb. cbn [snd srv trace].
      split; [reflexivity|]. apply in_or_app. right. now left.
    + intros cmd resp c e Hpc Hx Hcl Hs Hf. destruct (transport_fault_inv _ Hf) as [Hnb Hnj].
      destruct (parsed_command_inv _ _ _ Hpc) as (_ & cid' & b & data & Hc' & Hrecv & Hl).
      rewrite Hc in Hc'. injection Hc' as <-.
      rewrite (step_decodes _ _ _ _ _ _ _ Hr Hc Hrecv Hl). unfold after_dispatch.
      rewrite Hx, Hcl, Hs, Hnb, Hnj.
      cbn [orb snd srv trace].
      split; [reflexivity|]. apply in_or_app. right. now left.
  - intros Hr Hcl e Hacc.
    assert (Hc : client_after_accept E s = None).
    { unfold client_after_accept. rewrite Hcl, Hacc. now destruct (socket s). }
    now rewrite (step_no_client _ _ _ Hr Hc).
Qed.
Local Notation pdeliver := (deliver json_loads json_dumps py_repr call_handler).

(** Reading [c2] with [c1] already in the buffer is reading [c1 ++ c2]. *)
Lemma step_buffer_shift s h cid c1 c2 :
  running s = true -> client s = Some cid -> c2 <> [] ->
  pstep (read_env c2) (mkServer (running s) (socket s) (client s) (buffer s ++ c1)) h
  = pstep (read_env (c1 ++ c2)) s h.
Proof.
  intros Hr Hcl Hne.
  destruct c2 as [|b2 d2]; [contradiction|].
  destruct s as [rn so cl buf]. cbn [running socket client buffer] in *. subst rn cl.
  destruct c1 as [|b1 d1].
  - now rewrite app_nil_r.
  - cbn [app].
    set (s1 := mkServer true so (Some cid) (buf ++ b1 :: d1)).
    set (s0 := mkServer true so (Some cid) buf).
    assert (Hbuf : (buffer s1 ++ b2 :: d2 = buffer s0 ++ b1 :: d1 ++ b2 :: d2)%list).
    { cbn [buffer s1 s0]. now rewrite <- app_assoc. }
    destruct (json_loads (buffer s0 ++ b1 :: d1 ++ b2 :: d2)%list) as [cmd|e] eqn:Hl.
    + rewrite (step_decodes (read_env (b2 :: d2)) s1 h cid b2 d2 cmd eq_refl eq_refl
                 eq_refl (eq_trans (f_equal json_loads Hbuf) Hl)).
      rewrite (step_decodes (read_env (b1 :: d1 ++ b2 :: d2)) s0 h cid b1 (d1 ++ b2 :: d2)
                 cmd eq_refl eq_refl eq_refl Hl).
      reflexivity.
    + rewrite (step_parse_fails (read_env (b2 :: d2)) s1 h cid b2 d2 e eq_refl eq_refl
                 eq_refl (eq_trans (f_equal json_loads Hbuf) Hl)).
      rewrite (step_parse_fails (read_env (b1 :: d1 ++ b2 :: d2)) s0 h cid b1
                 (d1 ++ b2 :: d2) e eq_refl eq_refl eq_refl Hl).
      rewrite Hbuf. reflexivity.
Qed.

(** Split invariance of the framing, away from the defect of C1: when every
    buffer before the last read decodes as UTF-8 and fails to parse as JSON,
    the reads of a message cut into non-empty chunks leave the server, the
    host and the trace exactly as one read of the whole message does. *)
Lemma deliver_split_invariance :
  forall (chunks : list bytes) (w : world Scene) (cid : nat),
    running (srv w) = true ->
    client (srv w) = Some cid ->
    Forall (fun c => c <> []) chunks ->
    chunks <> [] ->
    Forall (fun p => exists e, json_loads p = Raise e
                               /\ isinstance e JSONDecodeError = true)
           (proper_prefixes (buffer (srv w)) chunks) ->
    pdeliver chunks w = pdeliver [List.concat chunks] w.
Proof.
  induction chunks as [|c rest IH]; intros w cid Hr Hcl Hne Hnil Hpre; [contradiction|].
  destruct rest as [|c' rest'].
  - cbn [List.concat]. now rewrite app_nil_r.
  - inversion Hne as [|? ? Hc Hrest]; subst.
    change (proper_prefixes (buffer (srv w)) (c :: c' :: rest'))
      with ((buffer (srv w) ++ c) :: proper_prefixes (buffer (srv w) ++ c) (c' :: rest'))
      in Hpre.
    inversion Hpre as [|? ? (e & Hl & He) Hpre']; subst.
    destruct c as [|b data]; [contradiction|].
    set (w1 := mkWorld (mkServer (running (srv w)) (socket (srv w)) (Some cid)
                                 (buffer (srv w) ++ b :: data))
                       (hst w) (trace w)).
    assert (Hstep : pdeliver ((b :: data) :: c' :: rest') w = pdeliver (c' :: rest') w1).
    { cbn [deliver].
      rewrite (step_parse_fails (read_env (b :: data)) (srv w) (hst w) cid b data e Hr
                 ltac:(unfold client_after_accept; now rewrite Hcl) eq_refl Hl).
      rewrite He. cbn [orb snd srv hst trace].
      unfold accepted. rewrite Hcl, app_nil_r. reflexivity. }
    transitivity (pdeliver (c' :: rest') w1); [exact Hstep|]. clear Hstep.
    rewrite (IH w1 cid); try assumption; try reflexivity; [|discriminate].
    cbn [deliver List.concat]. subst w1. cbn [srv hst trace].
    rewrite <- Hcl.
    rewrite (step_buffer_shift (srv w) (hst w) cid (b :: data) (c' ++ List.concat rest')
               Hr Hcl).
    + reflexivity.
    + inversion Hrest; subst. destruct c'; [contradiction|discriminate].
Qed.

End StepFacts.

(* ===================================================================== *)
(** * The client *)
(* ===================================================================== *)

Section ClientFacts.

Local Open Scope list_scope.

Variable json_loads : bytes -> reply json.
Variable json_dumps : json -> bytes.
Variable py_repr : json -> string.

Local Notation loop := (recv_loop json_loads).
Local Notation psend := (send_command json_loads json_dumps py_repr).

Lemma loop_exception_cases chunks e :
  loop_exception chunks e = if isinstance e SocketTimeout then Broke chunks else Raised e.
Proof.
  unfold loop_exception. destruct (isinstance e SocketTimeout); [reflexivity|].
  destruct (isinstance_any _ _); reflexivity.
Qed.

(** Every call of [recv] in the loop waits at most the timeout, and the loop
    calls [recv] at most once more than there are arrivals. *)
Lemma recv_loop_waits (timeout : nat) (net : list arrival) :
  forall chunks x rest waits,
    loop timeout net chunks = (x, rest, waits) ->
    Forall (fun d => d <= timeout) waits
    /\ 1 <= List.length waits <= S (List.length net).
Proof.
  induction net as [|[d out] net IH]; intros chunks x rest waits H; cbn [recv_loop] in H.
  - injection H as <- <- <-. cbn. split; [repeat constructor|lia].
  - destruct (Nat.leb_spec timeout d) as [Hle|Hlt].
    + injection H as <- <- <-. cbn. split; [repeat constructor|lia].
    + assert (Hone : forall x0 r0, (x0, r0, [d]) = (x, rest, waits) ->
                Forall (fun d0 => d0 <= timeout) waits
                /\ 1 <= List.length waits <= S (List.length ((d, out) :: net))).
      { intros x0 r0 [= <- <- <-]. cbn. split; [repeat constructor; lia|lia]. }
      destruct out as [[|b chunk]|e]; [destruct chunks| |]; try (eapply Hone; exact H).
      destruct (json_loads _) as [v|e]; [eapply Hone; exact H|].
      destruct (isinstance e JSONDecodeError); [|eapply Hone; exact H].
      destruct (loop timeout net _) as [[x1 r1] w1] eqn:Hrec.
      injection H as <- <- <-.
      destruct (IH _ _ _ _ Hrec) as [Hall Hlen].
      cbn [List.length]. split; [constructor; [lia|exact Hall] | lia].
Qed.

Lemma sum_list_bound (timeout : nat) (waits : list nat) :
  Forall (fun d => d <= timeout) waits -> sum_list waits <= timeout * List.length waits.
Proof.
  induction 1 as [|d waits Hd _ IH]; cbn [sum_list fold_right List.length]; [lia|].
  fold (sum_list waits). nia.
Qed.

(** The loop keeps the invariant that what it has received did not parse. *)
Lemma recv_loop_broke (timeout : nat) (net : list arrival) :
  forall chunks chunks' rest waits,
    unparsed json_loads chunks ->
    loop timeout net chunks = (Broke chunks', rest, waits) ->
    unparsed json_loads chunks'.
Proof.
  induction net as [|[d out] net IH]; intros chunks chunks' rest waits Hinv H;
    cbn [recv_loop] in H.
  - rewrite loop_exception_cases in H. cbn in H. now injection H as <- _ _.
  - destruct (timeout <=? d)%nat.
    + rewrite loop_exception_cases in H. cbn in H. now injection H as <- _ _.
    + destruct out as [[|b chunk]|e].
      * destruct chunks; [rewrite loop_exception_cases in H; cbn in H; discriminate|].
        now injection H as <- _ _.
      * destruct (json_loads _) as [v|e] eqn:Hl; [discriminate|].
        destruct (isinstance e JSONDecodeError) eqn:He.
        -- destruct (loop timeout net _) as [[x1 r1] w1] eqn:Hrec.
           injection H as -> _ _. eapply IH; [|exact Hrec]. right. eauto.
        -- rewrite loop_exception_cases in H.
           destruct (isinstance e SocketTimeout) eqn:Ht; [|discriminate].
           injection H as <- _ _. right. eauto.
      * rewrite loop_exception_cases in H.
        destruct (isinstance e SocketTimeout); [|discriminate].
        now injection H as <- _ _.
Qed.


(** What the loop raises is an instance of [Exception]. *)
Lemma recv_loop_raised (timeout : nat) (net : list arrival) :
  forall chunks e rest waits,
    loop timeout net chunks = (Raised e, rest, waits) -> is_exception e = true.
Proof.
  assert (Hexc : forall chunks (e0 e : exn) (r0 rest : list arrival) (w0 waits : list nat),
             is_exception e0 = true ->
             (loop_exception chunks e0, r0, w0) = (Raised e, rest, waits) ->
             is_exception e = true).
  { intros chunks e0 e r0 w0 rest waits He0. rewrite loop_exception_cases.
    destruct (isinstance e0 SocketTimeout); [discriminate|]. now intros [= <- _ _]. }
  induction net as [|[d out] net IH]; intros chunks e rest waits H; cbn [recv_loop] in H.
  - eapply Hexc; [|exact H]. reflexivity.
  - destruct (timeout <=? d)%nat; [eapply Hexc; [|exact H]; reflexivity|].
    destruct out as [[|b chunk]|f].
    + destruct chunks; [eapply Hexc; [|exact H]; reflexivity|discriminate].
    + destruct (json_loads _) as [v|f]; [discriminate|].
      destruct (isinstance f JSONDecodeError); [|eapply Hexc; [|exact H]; reflexivity].
      destruct (loop timeout net _) as [[x1 r1] w1] eqn:Hrec.
      injection H as -> _ _. eapply IH. exact Hrec.
    + eapply Hexc; [|exact H]. reflexivity.
Qed.

Lemma finalize_keeps_conn chunks c : snd (finalize json_loads chunks c) = c.
Proof.
  destruct chunks as [|ch chunks]; [reflexivity|].
  cbv beta iota zeta delta [finalize try_except bind lift raised ret raise snd].
  destruct (json_loads _) as [v|e]; [reflexivity|].
  destruct (isinstance e JSONDecodeError); reflexivity.
Qed.

(** C7, as amended.  The timeout of 15 time units bounds each call of
    [recv], not the loop: [receive_full_response] calls [recv] at least once
    and at most once more than there are arrivals, each call waits at most 15
    time units, and the time the loop takes is the sum of these waits, hence
    at most 15 time units times the number of calls. *)
Theorem receive_waits_bounded_per_read :
  forall (chunks : list bytes) (c : conn),
    let c' := snd (receive_from json_loads chunks c) in
    exists waits,
      actions c' = (actions c ++ map Recv waits)%list
      /\ clock c' = clock c + sum_list waits
      /\ Forall (fun d => d <= 15) waits
      /\ 1 <= List.length waits <= S (List.length (arrivals c))
      /\ sum_list waits <= 15 * List.length waits.
Proof.
  intros chunks c c'. subst c'. unfold receive_from.
  destruct (loop 15 (arrivals c) chunks) as [[x rest] waits] eqn:Hloop.
  destruct (recv_loop_waits _ _ _ _ _ _ Hloop) as [Hall Hlen].
  exists waits.
  assert (Hc : forall c1 : conn,
             snd (match x with
                  | Returned data => (Ok data, c1)
                  | Broke chunks' => finalize json_loads chunks' c1
                  | Raised e => (Raise e, c1)
                  end) = c1).
  { intros c1. destruct x; try reflexivity. apply finalize_keeps_conn. }
  rewrite Hc. cbn [actions clock].
  repeat split; try assumption; try lia. now apply sum_list_bound.
Qed.

(** C6.  In the receive loop of the client, a zero-length read with nothing
    accumulated raises the error "Connection closed before receiving any
    data".  With chunks accumulated, a zero-length read or a timeout stops the
    reading after that one call of [recv] and the accumulated bytes are parsed
    once more: the data is returned when the parse succeeds and the error
    "Incomplete JSON response received" is raised when it fails with a JSON
    decoding error. *)
Theorem zero_length_read_outcomes :
  (forall (c : conn) (d : nat) (net : list arrival),
     arrivals c = (d, Ok []) :: net -> d < 15 ->
     fst (receive_full_response json_loads c)
     = Raise (mkExn Exception "Connection closed before receiving any data"))
  /\ (forall (chunks : list bytes) (c : conn),
       chunks <> [] -> ends_reading 15 (arrivals c) = true ->
       fst (receive_from json_loads chunks c)
       = match json_loads (List.concat chunks) with
         | Ok _ => Ok (List.concat chunks)
         | Raise e => if isinstance e JSONDecodeError
                      then Raise (mkExn Exception "Incomplete JSON response received")
                      else Raise e
         end
       /\ exists waited,
           actions (snd (receive_from json_loads chunks c))
           = (actions c ++ [Recv waited])%list).
Proof.
  split.
  - intros c d net Hnet Hd. unfold receive_full_response, receive_from.
    rewrite Hnet. cbn [recv_loop].
    destruct (Nat.leb_spec 15 d) as [Hle|_]; [lia|]. reflexivity.
  - intros chunks c Hne Hend. unfold receive_from.
    assert (Hloop : exists rest waited,
               loop 15 (arrivals c) chunks = (Broke chunks, rest, [waited])).
    { unfold ends_reading in Hend.
      destruct (arrivals c) as [|[d out] net]; cbn [recv_loop].
      - rewrite loop_exception_cases. cbn. eauto.
      - destruct (15 <=? d)%nat.
        + rewrite loop_exception_cases. cbn. eauto.
        + cbn [orb] in Hend. destruct out as [[|b ch]|e]; [|discriminate|].
          * destruct chunks; [contradiction|]. eauto.
          * rewrite loop_exception_cases, Hend. eauto. }
    destruct Hloop as (rest & waited & ->).
    destruct chunks as [|ch chunks]; [contradiction|].
    cbv beta iota zeta delta [finalize try_except bind lift raised ret raise fst snd].
    destruct (json_loads _) as [v|e].
    + split; [reflexivity|]. eexists. reflexivity.
    + destruct (isinstance e JSONDecodeError); (split; [reflexivity|]); eexists; reflexivity.
Qed.


(** C8.  [send_command] under connection faults.  Disconnected and with a
    failing connect, it raises [ConnectionError("Not connected to Blender")]
    having attempted the connect and sent nothing.  On a connected manager, an
    error of the socket layer during the send, or a receive loop that ends by
    a fault, makes the call raise to its caller with the socket dropped
    ([sock] is [None]); the call did one send and no connect, so it did not
    retry.  A call on a manager without socket attempts a connect first and,
    when that succeeds, goes on as a call on the connected manager. *)
Theorem send_command_connection_faults :
  forall (command_type : string) (params : json) (c : conn),
    let sent := SendAll (json_dumps (command_of command_type params)) in
    (sock c = None -> connect_fails c = true ->
       psend command_type params c
       = (Raise (mkExn ConnectionError "Not connected to Blender"),
          mkConn None (tl (connects c)) (sends c) (arrivals c) (clock c)
                 (actions c ++ [ConnectAttempt])))
    /\ (forall sid e rest,
          sock c = Some sid -> sends c = Raise e :: rest ->
          isinstance e OSError = true ->
          exists e',
            psend command_type params c
            = (Raise e',
               mkConn None (connects c) rest (arrivals c) (clock c)
                      (actions c ++ [sent]))
            /\ exn_class e' = Exception)
    /\ (forall sid x rest waits,
          sock c = Some sid -> send_succeeds c = true ->
          loop 15 (arrivals c) [] = (x, rest, waits) ->
          receive_fault x = true ->
          exists e',
            psend command_type params c
            = (Raise e',
               mkConn None (connects c) (tl (sends c)) rest (clock c + sum_list waits)
                      ((actions c ++ [sent]) ++ map Recv waits))
            /\ exn_class e' = Exception)
    /\ (forall sid rest,
          sock c = None -> connects c = Ok sid :: rest ->
          psend command_type params c
          = psend command_type params
              (mkConn (Some sid) rest (sends c) (arrivals c) (clock c)
                      (actions c ++ [ConnectAttempt]))).
Proof.
  intros t p c sent. subst sent.
  destruct c as [so cs ss net ck acts]. cbn [sock connects sends arrivals clock actions].
  split; [|split; [|split]].
  - intros -> Hf. unfold connect_fails in Hf. cbn [connects] in Hf.
    destruct cs as [|[sid|e] cs]; [reflexivity|discriminate|reflexivity].
  - intros sid e rest -> -> He.
    pose proof (oserror_not_json e He) as Hnj.
    crun. fold (command_of t p). invalidate e Hnj.
  - intros sid x rest waits -> Hs Hloop Hfault.
    unfold send_succeeds in Hs. cbn [sends] in Hs.
    assert (Hrecv : exists e,
               receive_full_response json_loads
                 (mkConn (Some sid) cs (tl ss) net ck
                         (acts ++ [SendAll (json_dumps (command_of t p))]))
               = (Raise e,
                  mkConn (Some sid) cs (tl ss) rest (ck + sum_list waits)
                         ((acts ++ [SendAll (json_dumps (command_of t p))])
                            ++ map Recv waits))
               /\ isinstance e JSONDecodeError = false
               /\ is_exception e = true).
    { unfold receive_full_response, receive_from.
      cbn [arrivals sock connects sends clock actions]. rewrite Hloop.
      destruct x as [data|chunks|e]; [discriminate| |].
      - destruct (recv_loop_broke _ _ _ _ _ _ (or_introl eq_refl) Hloop) as [->|(e & Hl)].
        + eexists. repeat split; reflexivity.
        + destruct chunks as [|ch chunks].
          * eexists. repeat split; reflexivity.
          * cbv beta iota zeta delta [finalize try_except bind lift raised ret raise].
            rewrite Hl. destruct (isinstance e JSONDecodeError) eqn:He.
            -- eexists. repeat split; reflexivity.
            -- eexists. split; [reflexivity|]. split; [exact He|reflexivity].
      - cbn [receive_fault] in Hfault. apply negb_true_iff in Hfault.
        pose proof (recv_loop_raised _ _ _ _ _ _ Hloop). eauto. }
    destruct Hrecv as (e & Hrecv & Hnj & Hexc).
    destruct ss as [|[[]|es] ss]; [| |discriminate];
      cbv beta iota zeta delta
        [send_command connect client_sendall set_sock act
         modify bind try_except get ret lift raised raise
         sock connects sends arrivals clock actions is_some negb fst snd tl];
      fold (command_of t p); cbn [tl] in Hrecv; rewrite Hrecv;
      cbv beta iota; invalidate e Hnj.
  - intros sid rest -> ->. reflexivity.
Qed.


(** C9.  When the response that [send_command] receives is a dict whose
    status is ["error"] and whose message is a string, the exception raised
    with that message is caught by the last except clause: the socket is
    dropped ([sock] is [None]) and the caller gets
    "Communication error with Blender: <message>". *)
Theorem error_status_invalidates_connection :
  forall (command_type : string) (params : json) (c : conn)
         (sid : nat) (data : bytes) (rest : list arrival) (waits : list nat)
         (members : list (string * json)) (message : string),
    sock c = Some sid -> send_succeeds c = true ->
    loop 15 (arrivals c) [] = (Returned data, rest, waits) ->
    json_loads data = Ok (JObj members) ->
    dict_get members "status" JNull = JStr "error" ->
    dict_get members "message" (JStr "Unknown error from Blender") = JStr message ->
    psend command_type params c
    = (Raise (mkExn Exception ("Communication error with Blender: " ++ message)%string),
       mkConn None (connects c) (tl (sends c)) rest (clock c + sum_list waits)
              ((actions c ++ [SendAll (json_dumps (command_of command_type params))])
                 ++ map Recv waits)).
Proof.
  intros t p c sid data rest waits members m Hsock Hs Hloop Hl Hstatus Hmsg.
  destruct c as [so cs ss net ck acts].
  cbn [sock connects sends arrivals clock actions] in *. subst so.
  unfold send_succeeds in Hs. cbn [sends] in Hs.
  destruct ss as [|[[]|es] ss]; [| |discriminate];
    cbv beta iota zeta delta
      [send_command connect client_sendall set_sock act receive_full_response receive_from
       modify bind try_except get ret lift raised raise attr_get
       sock connects sends arrivals clock actions is_some negb fst snd tl];
    fold (command_of t p); rewrite Hloop; cbv beta iota; rewrite Hl; cbv beta iota;
    rewrite Hstatus; cbn [py_eq_str]; rewrite String.eqb_refl; cbv beta iota;
    rewrite Hmsg; reflexivity.
Qed.


(** The loop reads on through arrivals that come in time, carry bytes and
    leave the accumulated bytes unparsable. *)
Lemma recv_loop_accumulates (pre : list (nat * bytes)) :
  forall (chunks : list bytes) (tail : list arrival),
    Forall (fun dc => fst dc < 15 /\ snd dc <> []) pre ->
    (forall k, k < List.length pre ->
       exists e, json_loads (List.concat (chunks ++ map snd (firstn (S k) pre))) = Raise e
                 /\ isinstance e JSONDecodeError = true) ->
    loop 15 (map (fun dc => (fst dc, Ok (snd dc))) pre ++ tail) chunks
    = let '(x, rest, waits) := loop 15 tail (chunks ++ map snd pre) in
      (x, rest, map fst pre ++ waits).
Proof.
  induction pre as [|[d ch] pre IH]; intros chunks tail Hpre Hfail.
  - cbn [map app]. rewrite app_nil_r. now destruct (loop 15 tail chunks) as [[x rest] waits].
  - inversion Hpre as [|? ? [Hd Hch] Hpre']; subst. cbn [fst snd] in Hd, Hch.
    destruct ch as [|b ch]; [contradiction|].
    cbn [map app fst snd recv_loop].
    destruct (Nat.leb_spec 15 d) as [Hle|_]; [lia|].
    destruct (Hfail 0 ltac:(cbn; lia)) as (e & Hl & He).
    cbn [firstn map snd] in Hl. rewrite Hl, He.
    rewrite (IH (chunks ++ [b :: ch]) tail Hpre').
    + rewrite <- app_assoc. cbn [app].
      now destruct (loop 15 tail _) as [[x rest] waits].
    + intros k Hk. destruct (Hfail (S k) ltac:(cbn; lia)) as (e' & Hl' & He').
      exists e'. split; [|exact He'].
      rewrite <- Hl'. cbn [firstn map snd]. now rewrite <- app_assoc.
Qed.

(** End to end: a response that stops after one or more chunks which never
    parsed makes [receive_full_response] raise the incomplete-response error. *)
Lemma receive_incomplete_after_data :
  forall (c : conn) (pre : list (nat * bytes)) (tail : list arrival),
    pre <> [] ->
    Forall (fun dc => fst dc < 15 /\ snd dc <> []) pre ->
    (forall k, k < List.length pre ->
       exists e, json_loads (List.concat (map snd (firstn (S k) pre))) = Raise e
                 /\ isinstance e JSONDecodeError = true) ->
    arrivals c = (map (fun dc => (fst dc, Ok (snd dc))) pre ++ tail)%list ->
    ends_reading 15 tail = true ->
    fst (receive_full_response json_loads c)
    = Raise (mkExn Exception "Incomplete JSON response received").
Proof.
  intros c pre tail Hne Hpre Hfail Hnet Hend.
  unfold receive_full_response, receive_from. rewrite Hnet.
  rewrite (recv_loop_accumulates pre [] tail Hpre Hfail). cbn [app].
  assert (Hchunks : map snd pre <> []) by (destruct pre; [contradiction|discriminate]).
  assert (Hloop : exists rest waited,
             loop 15 tail (map snd pre) = (Broke (map snd pre), rest, [waited])).
  { unfold ends_reading in Hend.
    destruct tail as [|[d out] net]; cbn [recv_loop].
    - rewrite loop_exception_cases. cbn. eauto.
    - destruct (15 <=? d)%nat.
      + rewrite loop_exception_cases. cbn. eauto.
      + cbn [orb] in Hend. destruct out as [[|b ch]|e]; [|discriminate|].
        * destruct (map snd pre); [contradiction|]. eauto.
        * rewrite loop_exception_cases, Hend. eauto. }
  destruct Hloop as (rest & waited & ->).
  destruct (Hfail (Nat.pred (List.length pre))) as (e & Hl & He).
  { destruct pre; [contradiction|cbn; lia]. }
  replace (S (Nat.pred (List.length pre))) with (List.length pre) in Hl
    by (destruct pre; [contradiction|reflexivity]).
  rewrite firstn_all in Hl.
  destruct (map snd pre) as [|ch chunks] eqn:Hm; [contradiction|].
  cbv beta iota zeta delta [finalize try_except bind lift raised ret raise fst snd].
  rewrite Hl, He. reflexivity.
Qed.

End ClientFacts.

(* ===================================================================== *)
(** * Runs of the sample environment *)
(* ===================================================================== *)

(** C1 (defect of the code).  The request for the object named by U+00E9
    parses when it is read at once, and the server decodes it.  Read in two
    chunks cut between the two bytes of that character, the first read makes
    [decode('utf-8')] raise [UnicodeDecodeError], which the clause for
    [json.JSONDecodeError] does not catch: instead of keeping the bytes for
    the next read, the server closes the client and clears the buffer, and
    the request is never decoded nor answered. *)
Theorem utf8_split_drops_connection :
  let command :=
    JObj [("type", JStr "get_object_info");
          ("params", JObj [("name", JStr (text_of [xc3; xa9]))])] in
  py_loads accented_request = Ok command
  /\ decoded_of (trace (sample_deliver [accented_request] fresh_world)) = [command]
  /\ srv (sample_deliver [accented_request] fresh_world) = connected_server []
  /\ py_loads accented_request_head
     = Raise (mkFault UnicodeDecodeError "'utf-8' codec can't decode bytes")
  /\ sample_deliver [accented_request_head] fresh_world
     = mkWorld (mkServer true (Some 0) None []) viewport_host [Closed 1]
  /\ decoded_of (trace (sample_deliver [accented_request_head; accented_request_tail]
                                       fresh_world)) = []
  /\ sent_of (trace (sample_deliver [accented_request_head; accented_request_tail]
                                    fresh_world)) = [].
Proof. vm_compute. repeat split. Qed.

(** The request for the scene information read in three chunks: every
    buffer before the last read fails to parse, and the three reads leave the
    server, the host and the trace as one read of the whole request does. *)
Lemma deliver_split_invariance_example :
  let chunks := [firstn 10 scene_info_request;
                 firstn 20 (skipn 10 scene_info_request);
                 skipn 30 scene_info_request] in
  List.concat chunks = scene_info_request
  /\ sample_deliver chunks fresh_world = sample_deliver [List.concat chunks] fresh_world
  /\ decoded_of (trace (sample_deliver chunks fresh_world))
     = [command_of "get_scene_info" JNull].
Proof.
  intros chunks. split; [reflexivity|]. split.
  - apply (deliver_split_invariance nat py_loads py_dumps sample_repr sample_call
             chunks fresh_world 1).
    + reflexivity.
    + reflexivity.
    + repeat constructor; discriminate.
    + discriminate.
    + repeat constructor; eexists; split; vm_compute; reflexivity.
  - vm_compute. reflexivity.
Qed.

(** The claim C2 fails in both directions.  A Request parsed and nothing
    was written: when the send failed; when the script the Request had
    [execute_code] run stopped the server; when that script raised
    [SystemExit].  And a response was written although what parsed is no
    Request: the buffer [[]] is JSON, and the dispatcher answers it with an
    error response. *)
Lemma response_iff_request_fails :
  let s := connected_server [] in
  let claim (call : string -> json -> server -> host nat -> result json * server * host nat)
            (E : env) :=
    sent_of (trace (snd (step py_loads py_dumps sample_repr call E s viewport_host))) <> []
    <-> exists request, parsed_command py_loads E s = Some request
                        /\ is_request request = true in
  let lost := mkEnv (Raise would_block_exn) (Ok tt) (Ok scene_info_request)
                    (Raise broken_pipe_exn) in
  ~ claim sample_call lost
  /\ ~ claim sample_call (read_env (bytes_of "[]"))
  /\ sent_of (trace (snd (sample_step (read_env (bytes_of "[]")) s viewport_host)))
     = [py_dumps (error_response "'list' object has no attribute 'get'")]
  /\ ~ claim scripted_call (read_env (script_request stop_script))
  /\ scripted_step (read_env (script_request stop_script)) s viewport_host
     = (Ok (Reinvoke 100),
        mkWorld (mkServer false None None []) viewport_host
                [Decoded (command_of "execute_code" (JObj [("code", JStr stop_script)]));
                 Called "execute_code" (JObj [("code", JStr stop_script)])
                        (Ok (JObj [("executed", JBool true)]))])
  /\ ~ claim scripted_call (read_env (script_request exit_script))
  /\ fst (scripted_step (read_env (script_request exit_script)) s viewport_host)
     = Raise (mkExn SystemExit "").
Proof.
  intros s claim lost. subst claim. cbv beta.
  assert (Hfails : forall call code,
             sent_of (trace (snd (step py_loads py_dumps sample_repr call
                                       (read_env (script_request code)) s viewport_host)))
             = [] ->
             parsed_command py_loads (read_env (script_request code)) s
             = Some (command_of "execute_code" (JObj [("code", JStr code)])) ->
             ~ (sent_of (trace (snd (step py_loads py_dumps sample_repr call
                                          (read_env (script_request code)) s viewport_host)))
                <> []
                <-> exists request,
                    parsed_command py_loads (read_env (script_request code)) s = Some request
                    /\ is_request request = true)).
  { intros call code Hw Hp [_ H]. apply H; [|exact Hw].
    eexists. split; [exact Hp|reflexivity]. }
  split; [|split; [|split; [|split; [|split; [|split]]]]].
  - intros [_ H]. apply H.
    + eexists. split; vm_compute; reflexivity.
    + vm_compute. reflexivity.
  - intros [H _]. destruct H as (request & Hp & Hr); [vm_compute; discriminate|].
    vm_compute in Hp. injection Hp as <-. discriminate Hr.
  - vm_compute. reflexivity.
  - apply Hfails; vm_compute; reflexivity.
  - vm_compute. reflexivity.
  - apply Hfails; vm_compute; reflexivity.
  - vm_compute. reflexivity.
Qed.

(** The claim C4 fails on what a handler raises outside [Exception]: the
    [SystemExit] of a script that [execute_code] runs is neither turned into
    an error response nor kept inside the dispatcher. *)
Lemma exit_propagates_out_of_dispatch :
  let params := JObj [("code", JStr exit_script)] in
  registered false "execute_code" = true
  /\ fst (fst (scripted_call "execute_code" params (connected_server []) viewport_host))
     = Raise (mkExn SystemExit "")
  /\ execute_command sample_repr scripted_call (command_of "execute_code" params) fresh_world
     = (Raise (mkExn SystemExit ""),
        mkWorld (connected_server []) viewport_host
                [Called "execute_code" params (Raise (mkExn SystemExit ""))])
  /\ ~ (exists response,
          fst (execute_command sample_repr scripted_call (command_of "execute_code" params)
                               fresh_world) = Ok response).
Proof.
  vm_compute. repeat split. intros (response & H). discriminate.
Qed.

(** The claim C5 fails in three ways.  The would-block signal, an [OSError]
    of the socket layer, raised by the receive is no disconnect: the client
    stays and the buffer is kept.  An error raised by the accept closes no
    socket and clears no buffer: the restarted server keeps the byte it held.
    And the [SystemExit] of a script that [execute_code] runs escapes the
    step. *)
Lemma step_disconnect_claim_fails :
  let idle := mkEnv (Raise would_block_exn) (Ok tt) (Raise would_block_exn) (Ok tt) in
  let busy := mkEnv (Raise too_many_files_exn) (Ok tt) (Ok []) (Ok tt) in
  let w1 := snd (sample_step idle (connected_server (bytes_of "{")) viewport_host) in
  let w2 := snd (sample_step busy restarted_server viewport_host) in
  (isinstance would_block_exn OSError = true
   /\ ~ (client (srv w1) = None /\ buffer (srv w1) = [])
   /\ client (srv w1) = Some 1 /\ buffer (srv w1) = bytes_of "{" /\ trace w1 = [])
  /\ (restarted_server = mkServer true (Some 5) None (bytes_of "{")
      /\ transport_fault too_many_files_exn = true
      /\ ~ (buffer (srv w2) = [])
      /\ buffer (srv w2) = bytes_of "{" /\ trace w2 = [])
  /\ (fst (scripted_step (read_env (script_request exit_script)) (connected_server [])
                         viewport_host)
      = Raise (mkExn SystemExit "")
      /\ ~ (exists t, fst (scripted_step (read_env (script_request exit_script))
                                         (connected_server []) viewport_host) = Ok t)).
Proof.
  vm_compute. repeat split; try discriminate.
  - intros [H _]. discriminate.
  - intros (t & H). discriminate.
Qed.

(** The claim C7 fails on two chunks that each arrive after 10 time units:
    the loop returns the response after 20 time units. *)
Lemma two_slow_chunks_exceed_timeout :
  let c := waiting_conn [(10, Ok (bytes_of "{")); (10, Ok (bytes_of "}"))] in
  receive_full_response py_loads c
  = (Ok (bytes_of "{}"), mkConn (Some 7) [] [] [] 20 [Recv 10; Recv 10])
  /\ ~ (clock (snd (receive_full_response py_loads c)) - clock c <= 15).
Proof.
  split.
  - vm_compute. reflexivity.
  - change (~ (20 - 0 <= 15)). lia.
Qed.

(** The handlers of the sample registry leave the server as it is and raise
    instances of [Exception] only. *)
Lemma sample_call_keeps {A : Type} (field : server -> A) :
  handlers_keep sample_call field.
Proof.
  intros m p s h. unfold sample_call.
  destruct (String.eqb m "create_object"); [reflexivity|].
  destruct (String.eqb m "execute_code"); reflexivity.
Qed.

Lemma sample_call_raises_errors : handlers_raise_errors sample_call.
Proof.
  intros m p s h e. unfold sample_call.
  destruct (String.eqb m "create_object"); [discriminate|].
  destruct (String.eqb m "execute_code"); [|discriminate].
  cbn [fst]. intros [= <-]. reflexivity.
Qed.

(** A step that reads a whole request and answers it. *)
Lemma response_written_iff_parsed_and_sent_witness :
  let E := read_env scene_info_request in
  let written :=
    sent_of (trace (snd (step py_loads py_dumps sample_repr sample_call E
                              (connected_server []) viewport_host))) in
  written = [py_dumps (success_response (JObj []))]
  /\ (written <> [] <-> parsed_command py_loads E (connected_server []) <> None
                        /\ sendall_r E = Ok tt).
Proof.
  intros E written. subst written. split.
  - apply (proj1 (proj2 (response_written_iff_parsed_and_sent nat py_loads py_dumps
                           sample_repr sample_call E (connected_server []) viewport_host))
             (command_of "get_scene_info" JNull) 1 (success_response (JObj []))).
    + vm_compute. reflexivity.
    + reflexivity.
    + vm_compute. reflexivity.
    + vm_compute. discriminate.
    + reflexivity.
  - apply (proj2 (proj2 (proj2 (response_written_iff_parsed_and_sent nat py_loads py_dumps
                                  sample_repr sample_call E (connected_server [])
                                  viewport_host)))).
    + exact sample_call_raises_errors.
    + exact (sample_call_keeps client).
Defined.

(** A step in which the receive fails with a connection reset. *)
Lemma step_returns_and_disconnects_witness :
  let E := mkEnv (Raise would_block_exn) (Ok tt) (Raise connection_reset_exn) (Ok tt) in
  let s := connected_server (bytes_of "{") in
  srv (snd (step py_loads py_dumps sample_repr sample_call E s viewport_host))
  = reset_server s
  /\ In (Closed 1)
        (trace (snd (step py_loads py_dumps sample_repr sample_call E s viewport_host))).
Proof.
  intros E s.
  apply (proj1 (proj2 (proj1 (proj2 (step_returns_and_disconnects nat py_loads py_dumps
                                       sample_repr sample_call E s viewport_host))
                         eq_refl 1 eq_refl))
           connection_reset_exn).
  - reflexivity.
  - reflexivity.
Defined.

(** The peer closes after one chunk that does not parse. *)
Lemma zero_length_read_outcomes_witness :
  let chunks := [bytes_of "{"] in
  let c := waiting_conn [(3, Ok [])] in
  fst (receive_from py_loads chunks c)
  = match py_loads (List.concat chunks) with
    | Ok _ => Ok (List.concat chunks)
    | Raise e => if isinstance e JSONDecodeError
                 then Raise (mkExn Exception "Incomplete JSON response received")
                 else Raise e
    end
  /\ exists waited,
      actions (snd (receive_from py_loads chunks c)) = (actions c ++ [Recv waited])%list.
Proof.
  intros chunks c.
  apply (proj2 (zero_length_read_outcomes py_loads) chunks c).
  - discriminate.
  - reflexivity.
Defined.

(** A send that fails with a connection reset on a connected manager. *)
Lemma send_command_connection_faults_witness :
  let c := mkConn (Some 7) [] [Raise connection_reset_exn] [] 0 [] in
  exists e',
    send_command py_loads py_dumps sample_repr "get_scene_info" JNull c
    = (Raise e',
       mkConn None (connects c) [] (arrivals c) (clock c)
              (actions c ++ [SendAll (py_dumps (command_of "get_scene_info" JNull))]))
    /\ exn_class e' = Exception.
Proof.
  intros c.
  apply (proj1 (proj2 (send_command_connection_faults py_loads py_dumps sample_repr
                         "get_scene_info" JNull c))
           7 connection_reset_exn []).
  - reflexivity.
  - reflexivity.
  - reflexivity.
Defined.

(** The server answers with the error response of a failed handler. *)
Lemma error_status_invalidates_connection_witness :
  let data := py_dumps (error_response "boom") in
  let c := waiting_conn [(2, Ok data)] in
  send_command py_loads py_dumps sample_repr "execute_code" JNull c
  = (Raise (mkExn Exception ("Communication error with Blender: " ++ "boom")),
     mkConn None (connects c) (tl (sends c)) [] (clock c + sum_list [2])
            ((actions c ++ [SendAll (py_dumps (command_of "execute_code" JNull))])
               ++ map Recv [2])).
Proof.
  intros data c.
  apply (error_status_invalidates_connection py_loads py_dumps sample_repr
           "execute_code" JNull c 7 data [] [2]
           [("status", JStr "error"); ("message", JStr "boom")] "boom").
  - reflexivity.
  - reflexivity.
  - vm_compute. reflexivity.
  - vm_compute. reflexivity.
  - reflexivity.
  - reflexivity.
Defined.

(* ===================================================================== *)
(** * Further facts about the timer callback *)
(* ===================================================================== *)

Section StepInvariants.

Local Open Scope list_scope.
Variable Scene : Type.
Variable json_loads : bytes -> reply json.
Variable json_dumps : json -> bytes.
Variable py_repr : json -> string.
Variable call_handler : string -> json -> server -> host Scene
                        -> result json * server * host Scene.

Local Notation exec := (execute_command py_repr call_handler).
Local Notation pstep := (step json_loads json_dumps py_repr call_handler).

(** The server a step leaves, case by case. *)
Lemma step_server E s h :
  srv (snd (pstep E s h))
  = if running s then
      match client_after_accept E s with
      | None => s
      | Some cid =>
          match recv_r E with
          | Ok [] => reset_server s
          | Ok (b :: data) =>
              match json_loads (buffer s ++ b :: data) with
              | Ok cmd =>
                  let x := exec cmd (mkWorld (mkServer true (socket s) (Some cid) []) h
                                             (accepted s cid ++ [Decoded cmd])) in
                  match fst x, client (srv (snd x)), sendall_r E with
                  | Raise _, _, _ => srv (snd x)
                  | Ok _, None, _ => reset_server (srv (snd x))
                  | Ok _, Some _, Ok _ => srv (snd x)
                  | Ok _, Some _, Raise e =>
                      if isinstance e JSONDecodeError || would_block e
                      then srv (snd x)
                      else reset_server (srv (snd x))
                  end
              | Raise e =>
                  if isinstance e JSONDecodeError || would_block e
                  then mkServer true (socket s) (Some cid) (buffer s ++ b :: data)
                  else reset_server s
              end
          | Raise e => if would_block e then with_client s cid else reset_server s
          end
      end
    else s.
Proof.
  destruct (running s) eqn:Hr; [|now rewrite (step_not_running Scene json_loads json_dumps py_repr call_handler E s h Hr)].
  destruct (client_after_accept E s) as [cid|] eqn:Hc;
    [|now rewrite (step_no_client Scene json_loads json_dumps py_repr call_handler E s h Hr Hc)].
  destruct (recv_r E) as [[|b data]|e] eqn:Hrecv.
  - now rewrite (step_recv_empty Scene json_loads json_dumps py_repr call_handler E s h cid Hr Hc Hrecv).
  - destruct (json_loads _) as [cmd|e] eqn:Hl.
    + rewrite (step_decodes Scene json_loads json_dumps py_repr call_handler E s h cid b data cmd Hr Hc Hrecv Hl), Hr.
      unfold after_dispatch. cbv zeta.
      destruct (exec cmd _) as [[resp|e] w3]; cbn [fst snd]; [|reflexivity].
      destruct (client (srv w3)); cbn [srv]; [|reflexivity].
      destruct (sendall_r E) as [[]|e]; [reflexivity|].
      destruct (_ || _); reflexivity.
    + rewrite (step_parse_fails Scene json_loads json_dumps py_repr call_handler E s h cid b data e Hr Hc Hrecv Hl). cbn [snd].
      rewrite Hr. destruct (_ || _); reflexivity.
  - rewrite (step_recv_raises Scene json_loads json_dumps py_repr call_handler E s h cid e Hr Hc Hrecv). cbn [snd].
    destruct (would_block e); reflexivity.
Qed.

(** One call of the timer callback keeps the [running] flag and the listening
    socket when no handler writes them. *)
Lemma step_keeps_running_and_socket E s h :
  handlers_keep call_handler running -> handlers_keep call_handler socket ->
  running (srv (snd (pstep E s h))) = running s
  /\ socket (srv (snd (pstep E s h))) = socket s.
Proof.
  intros Hrun Hsock. rewrite step_server.
  destruct (running s) eqn:Hr; [|rewrite Hr; tauto].
  destruct (client_after_accept E s) as [cid|]; [|rewrite Hr; tauto].
  destruct (recv_r E) as [[|b data]|e]; cbn [reset_server with_client running socket];
    try tauto.
  - destruct (json_loads _) as [cmd|e].
    + cbv zeta.
      pose proof (exec_keeps Scene py_repr call_handler running cmd
                    (mkWorld (mkServer true (socket s) (Some cid) []) h
                             (accepted s cid ++ [Decoded cmd])) Hrun) as H1.
      pose proof (exec_keeps Scene py_repr call_handler socket cmd
                    (mkWorld (mkServer true (socket s) (Some cid) []) h
                             (accepted s cid ++ [Decoded cmd])) Hsock) as H2.
      cbn [srv running socket] in H1, H2.
      destruct (fst (exec cmd _)); [|tauto].
      destruct (client _); [|cbn; tauto].
      destruct (sendall_r E); [tauto|]. destruct (_ || _); cbn; tauto.
    + destruct (_ || _); cbn; tauto.
  - destruct (would_block e); cbn; tauto.
Qed.

(** The buffer a step leaves when no handler writes the buffer. *)
Lemma step_buffer E s h :
  handlers_keep call_handler buffer ->
  buffer (srv (snd (pstep E s h)))
  = if running s then
      match client_after_accept E s with
      | None => buffer s
      | Some cid =>
          match recv_r E with
          | Ok [] => []
          | Ok (b :: data) =>
              match json_loads (buffer s ++ b :: data) with
              | Ok _ => []
              | Raise e =>
                  if isinstance e JSONDecodeError || would_block e
                  then buffer s ++ b :: data
                  else []
              end
          | Raise e => if would_block e then buffer s else []
          end
      end
    else buffer s.
Proof.
  intros Hbuf. rewrite step_server.
  destruct (running s) eqn:Hr; [|reflexivity].
  destruct (client_after_accept E s) as [cid|]; [|reflexivity].
  destruct (recv_r E) as [[|b data]|e]; try reflexivity.
  - destruct (json_loads _) as [cmd|e].
    + cbv zeta.
      pose proof (exec_keeps Scene py_repr call_handler buffer cmd
                    (mkWorld (mkServer true (socket s) (Some cid) []) h
                             (accepted s cid ++ [Decoded cmd])) Hbuf) as H1.
      cbn [srv buffer] in H1.
      destruct (fst (exec cmd _)); [|exact H1].
      destruct (client _); [|reflexivity].
      destruct (sendall_r E); [exact H1|]. destruct (_ || _); [exact H1|reflexivity].
    + destruct (_ || _); reflexivity.
  - destruct (would_block e); reflexivity.
Qed.

(** X2.  When no handler writes the buffer: after a call of the timer
    callback the buffer is empty, or as it was, or it is the old buffer with
    the bytes just received appended; the last happens only when at least one
    byte was received and the buffer with these bytes did not parse. *)
Theorem step_buffer_grows_or_resets E s h :
  handlers_keep call_handler buffer ->
  let b' := buffer (srv (snd (step json_loads json_dumps py_repr call_handler E s h))) in
  b' = []
  \/ b' = buffer s
  \/ exists data, recv_r E = Ok data /\ data <> [] /\ b' = buffer s ++ data
                  /\ exists e, json_loads (buffer s ++ data) = Raise e.
Proof.
  intros Hbuf. cbv zeta. rewrite (step_buffer E s h Hbuf).
  destruct (running s) eqn:Hr; [|tauto].
  destruct (client_after_accept E s); [|tauto].
  destruct (recv_r E) as [[|b data]|e]; try tauto.
  - destruct (json_loads _) eqn:Hl; [tauto|].
    destruct (_ || _); [|tauto]. right. right. exists (b :: data).
    split; [reflexivity|]. split; [discriminate|]. split; [reflexivity|]. eauto.
  - destruct (would_block e); tauto.
Qed.

(** One call of the timer callback keeps the invariant that a server without
    client holds no bytes, when no handler writes the buffer. *)
Lemma no_client_no_buffer_preserved E s h :
  handlers_keep call_handler buffer ->
  (client s = None -> buffer s = []) ->
  client (srv (snd (pstep E s h))) = None ->
  buffer (srv (snd (pstep E s h))) = [].
Proof.
  intros Hbuf Hinv. rewrite (step_buffer E s h Hbuf), step_server.
  destruct (running s) eqn:Hr; [|exact Hinv].
  destruct (client_after_accept E s); [|exact Hinv].
  destruct (recv_r E) as [[|b data]|e]; cbn [reset_server with_client buffer client];
    try reflexivity.
  - destruct (json_loads _) eqn:Hl; [reflexivity|].
    destruct (_ || _); cbn; [discriminate|reflexivity].
  - destruct (would_block e); cbn; [discriminate|reflexivity].
Qed.

Lemma accepts_of_app (a b : list event) :
  accepts_of (a ++ b) = accepts_of a ++ accepts_of b.
Proof. apply flat_map_app. Qed.

Lemma decoded_of_app (a b : list event) :
  decoded_of (a ++ b) = decoded_of a ++ decoded_of b.
Proof. apply flat_map_app. Qed.

Lemma calls_of_app (a b : list event) :
  calls_of (a ++ b) = calls_of a ++ calls_of b.
Proof. apply flat_map_app. Qed.

Lemma accepted_projections s cid :
  accepts_of (accepted s cid) = (match client s with Some _ => [] | None => [cid] end)
  /\ decoded_of (accepted s cid) = [] /\ calls_of (accepted s cid) = [].
Proof. unfold accepted. destruct (client s); cbn; auto. Qed.

(** The events of a step, case by case; [evs] are the calls of the dispatcher. *)
Lemma step_trace E s h :
  exists evs tl,
    (evs = [] \/ exists m a out, evs = [Called m a out])
    /\ (tl = [] \/ (exists cid, tl = [Closed cid]) \/ exists cid data, tl = [Sent cid data])
    /\ trace (snd (pstep E s h))
       = if running s then
           match client_after_accept E s with
           | None => []
           | Some cid =>
               accepted s cid
               ++ match parsed_command json_loads E s with
                  | Some cmd => Decoded cmd :: evs
                  | None => []
                  end ++ tl
           end
         else [].
Proof.
  unfold parsed_command.
  destruct (running s) eqn:Hr;
    [|rewrite (step_not_running Scene json_loads json_dumps py_repr call_handler E s h Hr);
      exists [], []; auto].
  destruct (client_after_accept E s) as [cid|] eqn:Hc;
    [|rewrite (step_no_client Scene json_loads json_dumps py_repr call_handler E s h Hr Hc);
      exists [], []; auto].
  destruct (recv_r E) as [[|b data]|e] eqn:Hrecv.
  - rewrite (step_recv_empty Scene json_loads json_dumps py_repr call_handler E s h cid Hr Hc Hrecv).
    exists [], [Closed cid]. cbn [snd trace app]. eauto 8.
  - destruct (json_loads _) as [cmd|e] eqn:Hl.
    + destruct (exec_calls Scene py_repr call_handler cmd
                  (mkWorld (mkServer true (socket s) (Some cid) []) h
                           (accepted s cid ++ [Decoded cmd]))) as (evs & Htr & Hevs).
      cbn [trace] in Htr.
      rewrite (step_decodes Scene json_loads json_dumps py_repr call_handler E s h cid b data cmd Hr Hc Hrecv Hl), Hr.
      unfold after_dispatch.
      assert (Hnone : exists evs0 tl,
                 (evs0 = [] \/ exists m a out, evs0 = [Called m a out])
                 /\ (tl = [] \/ (exists cid0, tl = [Closed cid0])
                     \/ exists cid0 data0, tl = [Sent cid0 data0])
                 /\ trace (snd (exec cmd (mkWorld (mkServer true (socket s) (Some cid) []) h
                                                  (accepted s cid ++ [Decoded cmd]))))
                    = accepted s cid ++ (Decoded cmd :: evs0) ++ tl).
      { exists evs, []. rewrite Htr.
        split; [exact Hevs|]. split; [auto|]. now rewrite <- !app_assoc, app_nil_r. }
      destruct (exec cmd _) as [[resp|e] w3]; cbn [fst snd trace] in *; [|exact Hnone].
      destruct (client (srv w3)) as [c|]; cbn [trace]; [|exact Hnone].
      destruct (sendall_r E) as [[]|e].
      * exists evs, [Sent c (json_dumps resp)]. cbn [trace]. rewrite Htr.
        split; [exact Hevs|]. split; [eauto 8|]. now rewrite <- !app_assoc.
      * destruct (_ || _); [exact Hnone|].
        exists evs, [Closed c]. cbn [trace]. rewrite Htr.
        split; [exact Hevs|]. split; [eauto 8|]. now rewrite <- !app_assoc.
    + rewrite (step_parse_fails Scene json_loads json_dumps py_repr call_handler E s h cid b data e Hr Hc Hrecv Hl). cbn [snd].
      destruct (_ || _); cbn [trace].
      * exists [], []. rewrite !app_nil_r. auto.
      * exists [], [Closed cid]. cbn [app]. eauto 8.
  - rewrite (step_recv_raises Scene json_loads json_dumps py_repr call_handler E s h cid e Hr Hc Hrecv). cbn [snd].
    destruct (would_block e); cbn [trace].
      * exists [], []. rewrite !app_nil_r. auto.
      * exists [], [Closed cid]. cbn [app]. eauto 8.
Qed.

(** X4.  One client at a time: a call of the timer callback accepts a
    connection only when the server runs, has a listening socket and has no
    client, and then it accepts exactly the one [accept] returned; with a
    client connected nothing is accepted. *)
Theorem step_accepts_only_without_client E s h :
  accepts_of (trace (snd (pstep E s h)))
  = if running s then
      match client s, socket s, accept_r E with
      | None, Some _, Ok cid => [cid]
      | _, _, _ => []
      end
    else [].
Proof.
  destruct (step_trace E s h) as (evs & tl & Hevs & Htl & ->).
  destruct (running s); [|reflexivity].
  unfold client_after_accept.
  assert (Hrest : forall cid : nat,
            accepts_of (match parsed_command json_loads E s with
                        | Some cmd => Decoded cmd :: evs
                        | None => []
                        end ++ tl) = []).
  { intros cid. rewrite accepts_of_app.
    assert (accepts_of tl = []) as ->
        by (destruct Htl as [->|[[c ->]|(c & d & ->)]]; reflexivity).
    rewrite app_nil_r.
    destruct (parsed_command _ _ _); [|reflexivity].
    destruct Hevs as [->|(m & a & out & ->)]; reflexivity. }
  destruct (client s) as [c|] eqn:Hcl.
  - rewrite accepts_of_app, (Hrest c), app_nil_r.
    unfold accepted. now rewrite Hcl.
  - destruct (socket s); [|reflexivity].
    destruct (accept_r E) as [cid|]; [|reflexivity].
    rewrite accepts_of_app, (Hrest cid), app_nil_r.
    unfold accepted. now rewrite Hcl.
Qed.

(** One call of the timer callback decodes the command that parsed, if any,
    and calls at most one handler and writes at most one response for it. *)
Lemma step_one_command E s h :
  let tr := trace (snd (pstep E s h)) in
  decoded_of tr = match parsed_command json_loads E s with
                  | Some cmd => [cmd]
                  | None => []
                  end
  /\ List.length (calls_of tr) <= List.length (decoded_of tr)
  /\ List.length (sent_of tr) <= List.length (decoded_of tr).
Proof.
  cbv zeta.
  pose proof (step_sent Scene json_loads json_dumps py_repr call_handler E s h) as Hsent.
  destruct (step_trace E s h) as (evs & tl & Hevs & Htl & Htr).
  assert (Hdc : decoded_of (trace (snd (pstep E s h)))
                = match parsed_command json_loads E s with
                  | Some cmd => [cmd]
                  | None => []
                  end
                /\ List.length (calls_of (trace (snd (pstep E s h))))
                   <= List.length (decoded_of (trace (snd (pstep E s h))))).
  { rewrite Htr.
    assert (Htl2 : decoded_of tl = [] /\ calls_of tl = []).
    { destruct Htl as [->|[[c ->]|(c & d & ->)]]; cbn; auto. }
    destruct Htl2 as (Htd & Htc).
    assert (Hev2 : decoded_of evs = [] /\ List.length (calls_of evs) <= 1).
    { destruct Hevs as [->|(m & a & out & ->)]; cbn; auto. }
    destruct Hev2 as (Hed & Hec).
    destruct (running s) eqn:Hr.
    2:{ unfold parsed_command. rewrite Hr. cbn. auto. }
    destruct (client_after_accept E s) as [cid|] eqn:Hc.
    2:{ unfold parsed_command. rewrite Hr, Hc. cbn. auto. }
    destruct (accepted_projections s cid) as (_ & Had & Hac).
    rewrite !decoded_of_app, !calls_of_app, Had, Hac, Htd, Htc.
    cbn [app]. rewrite !app_nil_r.
    destruct (parsed_command json_loads E s) as [cmd|] eqn:Hp.
    - cbn [decoded_of calls_of flat_map app].
      fold (decoded_of evs). fold (calls_of evs).
      rewrite Hed. cbn [app List.length]. split; [reflexivity|]. lia.
    - cbn. split; [reflexivity|]. lia. }
  destruct Hdc as (Hd & Hc).
  split; [exact Hd|]. split; [exact Hc|].
  rewrite Hsent, Hd.
  destruct (parsed_command json_loads E s) as [cmd|]; [|cbn; lia].
  destruct (client_after_accept E s); [|cbn; lia].
  cbv zeta.
  destruct (fst _); [|cbn; lia].
  destruct (client _); [|cbn; lia].
  destruct (sendall_r E); cbn; lia.
Qed.


Local Notation prun := (run_steps json_loads json_dumps py_repr call_handler).

(** X1.  The timer callback itself never writes the [running] flag or the
    listening socket of the server: when no handler writes them (as a script
    that [execute_code] runs does when it calls [stop]), no sequence of calls
    of the timer callback changes them, whatever the sockets do. *)
Theorem run_keeps_running_and_socket Es (w : world Scene) :
  handlers_keep call_handler running -> handlers_keep call_handler socket ->
  running (srv (prun Es w)) = running (srv w)
  /\ socket (srv (prun Es w)) = socket (srv w).
Proof.
  intros Hrun Hsock.
  revert w. induction Es as [|E Es IH]; intros w; cbn [run_steps]; [tauto|].
  destruct (IH (mkWorld (srv (snd (pstep E (srv w) (hst w))))
                        (hst (snd (pstep E (srv w) (hst w))))
                        (trace w ++ trace (snd (pstep E (srv w) (hst w))))))
    as (-> & ->).
  cbn [srv]. now apply step_keeps_running_and_socket.
Qed.

(** X3.  When no handler writes the buffer, a server that holds no bytes
    while it has no client keeps it that way through every sequence of calls
    of the timer callback: each path that drops the client also clears the
    buffer. *)
Theorem run_no_client_no_buffer Es (w : world Scene) :
  handlers_keep call_handler buffer ->
  (client (srv w) = None -> buffer (srv w) = []) ->
  client (srv (prun Es w)) = None -> buffer (srv (prun Es w)) = [].
Proof.
  intros Hbuf.
  revert w. induction Es as [|E Es IH]; intros w Hinv; cbn [run_steps]; [exact Hinv|].
  apply IH. cbn [srv]. now apply no_client_no_buffer_preserved.
Qed.

(** X5.  Over any sequence of calls of the timer callback, at most one
    command is decoded per call, and neither the handler calls nor the
    responses written outnumber the commands decoded. *)
Theorem run_one_command_per_step Es s (h : host Scene) :
  let tr := trace (prun Es (mkWorld s h [])) in
  List.length (decoded_of tr) <= List.length Es
  /\ List.length (calls_of tr) <= List.length (decoded_of tr)
  /\ List.length (sent_of tr) <= List.length (decoded_of tr).
Proof.
  cbv zeta.
  assert (Hgen : forall Es (w : world Scene) n,
            List.length (decoded_of (trace w)) <= n ->
            List.length (calls_of (trace w)) <= List.length (decoded_of (trace w)) ->
            List.length (sent_of (trace w)) <= List.length (decoded_of (trace w)) ->
            List.length (decoded_of (trace (prun Es w))) <= n + List.length Es
            /\ List.length (calls_of (trace (prun Es w)))
               <= List.length (decoded_of (trace (prun Es w)))
            /\ List.length (sent_of (trace (prun Es w)))
               <= List.length (decoded_of (trace (prun Es w)))).
  { clear Es s h. induction Es as [|E Es IH]; intros w n Hd Hc Hs; cbn [run_steps].
    - cbn [List.length]. rewrite Nat.add_0_r. auto.
    - cbn [List.length]. replace (n + S (List.length Es)) with (S n + List.length Es) by lia.
      destruct (step_one_command E (srv w) (hst w)) as (Hd1 & Hc1 & Hs1).
      apply IH; cbn [trace];
        rewrite ?decoded_of_app, ?calls_of_app, ?sent_of_app, ?length_app.
      + rewrite Hd1. destruct (parsed_command _ _ _); cbn [List.length]; lia.
      + lia.
      + lia. }
  apply (Hgen Es (mkWorld s h []) 0); cbn; lia.
Qed.

End StepInvariants.

(* ===================================================================== *)
(** * The life cycle of the server *)
(* ===================================================================== *)

Section LifeCycle.
Local Open Scope list_scope.

Lemma stop_state (b : bool) (l : life) :
  stop b l
  = (Ok tt,
     mkLife (mkServer false None None (buffer (self l)))
            (if b then false else timer_registered l)
            (closed l ++ sockets_of (self l))).
Proof.
  destruct l as [[rn so cl buf] tr cs], b; lrun;
    destruct tr, so, cl; lrun; rewrite <- ?app_assoc, ?app_nil_r; reflexivity.
Qed.

(** X6.  [stop] does not raise; it leaves the server not running, without
    listening socket and without client, having closed the sockets it held,
    the listening one first; the timer is unregistered when Blender offers
    [unregister]; the buffer is left as it was; a second [stop] changes
    nothing. *)
Theorem stop_releases_everything (b : bool) (l : life) :
  let l' := snd (stop b l) in
  fst (stop b l) = Ok tt
  /\ self l' = mkServer false None None (buffer (self l))
  /\ closed l' = closed l ++ sockets_of (self l)
  /\ timer_registered l' = (if b then false else timer_registered l)
  /\ snd (stop b l') = l'.
Proof.
  cbv zeta. rewrite !stop_state. cbn [fst snd self closed timer_registered buffer].
  split; [reflexivity|]. split; [reflexivity|]. split; [reflexivity|].
  split; [reflexivity|].
  unfold sockets_of at 2. cbn [socket client app]. rewrite app_nil_r.
  destruct b; reflexivity.
Qed.

(** What [start] leaves when it got its socket: a listening server, or the
    state [stop] leaves. *)
Lemma start_state (b : bool) (E : start_env) (l : life) (sid : nat) :
  socket_r E = Ok sid -> setsockopt_r E = Ok tt ->
  start b E l
  = (Ok tt,
     if setup_fails E then
       mkLife (mkServer false None None (buffer (self l)))
              (if b then false else timer_registered l)
              (closed l ++ sockets_of (mkServer true (Some sid) (client (self l))
                                                (buffer (self l))))
     else
       mkLife (mkServer true (Some sid) (client (self l)) (buffer (self l)))
              true (closed l)).
Proof.
  destruct E as [sk so bd li nb rg], l as [[rn sock cl buf] tr cs].
  cbn [socket_r setsockopt_r]. intros -> ->.
  unfold setup_fails. cbn [bind_r listen_r nonblocking_r register_r].
  cbv beta iota zeta delta
    [start set_self set_registered try_except modify bind get ret lift raised raise
     self timer_registered closed running socket client buffer
     socket_r setsockopt_r bind_r listen_r nonblocking_r register_r].
  destruct bd as [[]|]; [destruct li as [[]|]; [destruct nb as [[]|];
    [destruct rg as [[]|]|]|]|];
    cbv beta iota; caught; cbv beta iota; rewrite ?stop_state; reflexivity.
Qed.

(** X7.  When [bind], [listen], [setblocking] or the registration of the
    timer raises, [start] does not raise: it ends in the state [stop] leaves,
    with the socket it had just created closed, and the client socket too if
    there was one. *)
Theorem start_failure_stops_server (b : bool) (E : start_env) (l : life) (sid : nat) :
  socket_r E = Ok sid -> setsockopt_r E = Ok tt -> setup_fails E = true ->
  let l' := snd (start b E l) in
  fst (start b E l) = Ok tt
  /\ self l' = mkServer false None None (buffer (self l))
  /\ closed l' = closed l ++ ClosedListening sid
                             :: match client (self l) with
                                | Some cid => [ClosedClient cid]
                                | None => []
                                end.
Proof.
  intros Hs Ho Hf. cbv zeta. rewrite (start_state b E l sid Hs Ho), Hf.
  cbn [fst snd self closed]. auto.
Qed.

(** X8.  [start] raises exactly when the creation of the socket or
    [setsockopt] raises, the two calls before its [try] block; the server is
    then left with [running] set although nothing listens, and no socket was
    closed. *)
Theorem start_raises_before_the_try (b : bool) (E : start_env) (l : life) (e : exn) :
  (fst (start b E l) = Raise e <->
   raised (socket_r E) = Raise e
   \/ (exists sid, socket_r E = Ok sid) /\ raised (setsockopt_r E) = Raise e)
  /\ (fst (start b E l) = Raise e ->
      running (self (snd (start b E l))) = true
      /\ closed (snd (start b E l)) = closed l).
Proof.
  destruct (socket_r E) as [sid|e0] eqn:Hs.
  2:{ destruct E as [sk so bd li nb rg], l as [[rn sock cl buf] tr cs].
      cbn [socket_r] in Hs. subst sk. cbn. split; [|auto].
      split; [intros [= <-]; auto|intros [[= <-]|[[? [=]] _]]; reflexivity]. }
  destruct (setsockopt_r E) as [[]|e0] eqn:Ho.
  2:{ destruct E as [sk so bd li nb rg], l as [[rn sock cl buf] tr cs].
      cbn [socket_r setsockopt_r] in Hs, Ho. subst sk so. cbn. split; [|auto].
      split; [intros [= <-]; eauto|intros [[=]|[_ [= <-]]]; reflexivity]. }
  rewrite (start_state b E l sid Hs Ho). cbn [fst raised]. split.
  - split; [discriminate|]. intros [[=]|[_ [=]]].
  - discriminate.
Qed.

Section LifeCycleSteps.

Variable Scene : Type.
Variable json_loads : bytes -> reply json.
Variable json_dumps : json -> bytes.
Variable py_repr : json -> string.
Variable call_handler : string -> json -> server -> host Scene
                        -> result json * server * host Scene.

Local Notation pstep := (step json_loads json_dumps py_repr call_handler).
Local Notation prun := (run_steps json_loads json_dumps py_repr call_handler).

(** X9.  After [stop], every call of the timer callback returns [None], which
    unregisters the timer, and no sequence of calls changes the server, the
    host or the trace. *)
Theorem stopped_server_ignores_steps (b : bool) (l : life) (Es : list env)
        (h : host Scene) (tr : list event) :
  let s := self (snd (stop b l)) in
  prun Es (mkWorld s h tr) = mkWorld s h tr
  /\ forall E, fst (pstep E s h) = Ok Unregister.
Proof.
  cbv zeta. rewrite stop_state. cbn [snd self]. split.
  - induction Es as [|E Es IH]; [reflexivity|].
    cbn [run_steps srv hst trace].
    rewrite (step_not_running Scene json_loads json_dumps py_repr call_handler E
               (mkServer false None None (buffer (self l))) h eq_refl).
    cbn [snd srv hst trace]. rewrite app_nil_r. exact IH.
  - intros E.
    now rewrite (step_not_running Scene json_loads json_dumps py_repr call_handler E
               (mkServer false None None (buffer (self l))) h eq_refl).
Qed.

(** X10.  Neither [stop] nor [start] clears the buffer: a server stopped and
    started again listens without client but with the bytes of its last
    client, and what the next client sends is parsed after those bytes. *)
Theorem restart_keeps_stale_buffer (b : bool) (E0 : start_env) (l : life) (sid cid : nat)
        (E : env) (data : bytes) :
  socket_r E0 = Ok sid -> setsockopt_r E0 = Ok tt -> setup_fails E0 = false ->
  accept_r E = Ok cid -> recv_r E = Ok data -> data <> [] ->
  let s := self (snd (start b E0 (snd (stop b l)))) in
  s = mkServer true (Some sid) None (buffer (self l))
  /\ parsed_command json_loads E s
     = match json_loads (buffer (self l) ++ data) with
       | Ok command => Some command
       | Raise _ => None
       end.
Proof.
  intros Hs Ho Hf Ha Hr Hd. cbv zeta.
  rewrite stop_state. cbn [snd].
  rewrite (start_state b E0 _ sid Hs Ho), Hf.
  cbn [snd self client buffer]. split; [reflexivity|].
  unfold parsed_command, client_after_accept. cbn [running client socket buffer].
  rewrite Ha, Hr. destruct data as [|x data]; [congruence|reflexivity].
Qed.

End LifeCycleSteps.

(** X11.  The start operator sets the scene property
    [blendermcp_server_running] whether or not the server came up: when
    [start] fails inside its [try] block the property is true while the
    instance is stopped and has no socket. *)
Theorem start_operator_sets_flag_on_failure (b : bool) (E : start_env) (p : panel) (sid : nat) :
  socket_r E = Ok sid -> setsockopt_r E = Ok tt -> setup_fails E = true ->
  exists l',
    start_server_execute b E p = (Ok tt, mkPanel (Some l') true)
    /\ running (self l') = false /\ socket (self l') = None.
Proof.
  intros Hs Ho Hf.
  destruct p as [[l|] flag];
    cbv beta iota zeta delta
      [start_server_execute bind get ret modify on_instance raise
       blendermcp_server blendermcp_server_running];
    rewrite (start_state b E _ sid Hs Ho), Hf;
    eexists; (split; [reflexivity|]); auto.
Qed.

(** X12.  The stop operator does not raise and, whatever the state before,
    leaves no server instance and the scene property
    [blendermcp_server_running] false. *)
Theorem stop_operator_postcondition (b : bool) (p : panel) :
  stop_server_execute b p = (Ok tt, mkPanel None false).
Proof.
  destruct p as [[l|] flag];
    cbv beta iota zeta delta
      [stop_server_execute bind get ret modify on_instance raise
       blendermcp_server blendermcp_server_running];
    rewrite ?stop_state; reflexivity.
Qed.

End LifeCycle.

(* ===================================================================== *)
(** * Further facts about the dispatcher *)
(* ===================================================================== *)

Section DispatcherEdges.

Variable Scene : Type.
Variable py_repr : json -> string.
Variable call_handler : string -> json -> server -> host Scene
                        -> result json * server * host Scene.

Local Notation exec := (execute_command py_repr call_handler).
Local Notation exec_internal := (_execute_command_internal py_repr call_handler).

(** X13.  A command that is not a JSON object gets the error response
    carrying the text of the [AttributeError] of its missing [get] method; no
    handler is called and the world is as before. *)
Theorem malformed_command_error (cmd : json) (w : world Scene) :
  (forall members, cmd <> JObj members) ->
  exec cmd w
  = (Ok (error_response ("'" ++ py_type_name cmd ++ "' object has no attribute 'get'")), w).
Proof.
  intros Hno. destruct cmd; try reflexivity. now destruct (Hno members).
Qed.

(** X14.  A command dict whose type is missing or is not a string calls no
    handler: a missing type or a scalar gives "Unknown command type: " with
    [str] of the value ([None] when missing), a list or dict gives the text
    of the [TypeError] for an unhashable key. *)
Theorem non_string_type_error (members : list (string * json)) (w : world Scene) :
  (forall s, dict_get members "type" JNull <> JStr s) ->
  exec (JObj members) w
  = (Ok (error_response
           match dict_get members "type" JNull with
           | JArr _ => "unhashable type: 'list'"
           | JObj _ => "unhashable type: 'dict'"
           | t => "Unknown command type: " ++ py_str py_repr t
           end), w).
Proof.
  intros Hno.
  unfold execute_command, _execute_command_internal, try_except, bind, attr_get, ret, get.
  destruct (dict_get members "type" JNull) as [| | |s| |] eqn:Ht;
    try reflexivity.
  now destruct (Hno s).
Qed.

(** X15.  For [create_object], [modify_object] and [delete_object] on a
    screen with a 3D viewport, the handler runs once, with the params of the
    command, on a context overridden by the first area of type [VIEW_3D];
    whether it returns or raises, the override that was in place before the
    call is back afterwards, and the response follows the outcome; what the
    handler raises outside [Exception] is raised on, and the server is as the
    handler left it. *)
Theorem viewport_override_scoped (members : list (string * json)) (t : string)
        (w : world Scene) (areas rest : list area) (a : area) :
  dict_get members "type" JNull = JStr t ->
  In t view3d_commands ->
  screen (hst w) = Some areas ->
  filter (fun a => String.eqb (area_type a) "VIEW_3D") areas = a :: rest ->
  let args := dict_get members "params" (JObj []) in
  let inside := mkHost (screen (hst w)) (blendermcp_use_polyhaven (hst w)) (Some a)
                       (scene (hst w)) in
  let out := fst (fst (call_handler t args (srv w) inside)) in
  let s1 := snd (fst (call_handler t args (srv w) inside)) in
  let h1 := snd (call_handler t args (srv w) inside) in
  exec (JObj members) w
  = (match out with
     | Ok v => Ok (success_response v)
     | Raise e => if is_exception e then Ok (error_response (exn_str e)) else Raise e
     end,
     mkWorld s1
             (mkHost (screen h1) (blendermcp_use_polyhaven h1) (override_area (hst w))
                     (scene h1))
             (trace w ++ [Called t args out])).
Proof.
  intros Htype Hin Hscreen Hfilter. cbv zeta.
  assert (Hv : py_in_strs (JStr t) view3d_commands = true).
  { unfold py_in_strs. apply existsb_exists. exists t. split; [exact Hin|].
    cbn [py_eq_str]. apply String.eqb_refl. }
  assert (Hreg : forall flag, registered flag t = true).
  { intros flag. cbn in Hin.
    destruct Hin as [<-|[<-|[<-|[]]]]; destruct flag; reflexivity. }
  assert (Hargs : handler_arguments t members = dict_get members "params" (JObj [])).
  { unfold handler_arguments. cbn in Hin.
    destruct Hin as [<-|[<-|[<-|[]]]]; reflexivity. }
  rewrite (exec_run Scene py_repr call_handler members t w Htype), Hreg, Hv, Hargs.
  unfold has_view3d, handler_context, after_handler, viewport.
  rewrite Hv, Hscreen, Hfilter, (filter_cons_existsb _ _ _ _ Hfilter).
  reflexivity.
Qed.

(** X16.  The four Poly Haven commands are dispatched by the flag of the
    scene as it is at the call: with the flag set the handler is called with
    the params (outside any viewport override) and its outcome becomes the
    response, what it raises outside [Exception] being raised on; with the
    flag clear the command is unknown and nothing is called. *)
Theorem polyhaven_command_needs_flag (members : list (string * json)) (t : string)
        (w : world Scene) :
  dict_get members "type" JNull = JStr t ->
  In t (map fst polyhaven_handlers) ->
  let args := dict_get members "params" (JObj []) in
  let out := fst (fst (call_handler t args (srv w) (hst w))) in
  exec (JObj members) w
  = if blendermcp_use_polyhaven (hst w) then
      (match out with
       | Ok v => Ok (success_response v)
       | Raise e => if is_exception e then Ok (error_response (exn_str e)) else Raise e
       end,
       mkWorld (snd (fst (call_handler t args (srv w) (hst w))))
               (snd (call_handler t args (srv w) (hst w)))
               (trace w ++ [Called t args out]))
    else (Ok (error_response ("Unknown command type: " ++ t)), w).
Proof.
  intros Htype Hin. cbv zeta.
  assert (Hv : py_in_strs (JStr t) view3d_commands = false).
  { cbn in Hin. destruct Hin as [<-|[<-|[<-|[<-|[]]]]]; reflexivity. }
  assert (Hargs : handler_arguments t members = dict_get members "params" (JObj [])).
  { unfold handler_arguments. cbn in Hin.
    destruct Hin as [<-|[<-|[<-|[<-|[]]]]]; reflexivity. }
  assert (Hreg : forall flag, registered flag t = flag).
  { intros flag. cbn in Hin.
    destruct Hin as [<-|[<-|[<-|[<-|[]]]]]; destruct flag; reflexivity. }
  rewrite (exec_run Scene py_repr call_handler members t w Htype), Hreg, Hv, Hargs.
  unfold handler_context, after_handler. rewrite Hv. reflexivity.
Qed.

End DispatcherEdges.

(* ===================================================================== *)
(** * Further facts about the connection manager *)
(* ===================================================================== *)

Section ConnectionFacts.

Local Open Scope list_scope.

Variable json_loads : bytes -> reply json.
Variable json_dumps : json -> bytes.
Variable py_repr : json -> string.

Local Notation loop := (recv_loop json_loads).
Local Notation psend := (send_command json_loads json_dumps py_repr).

Lemma connect_state (c : conn) :
  connect c = (Ok (is_some (sock (connected c))), connected c).
Proof.
  destruct c as [[sid|] cs ss net ck acts]; [reflexivity|].
  destruct cs as [|[sid|e] cs]; reflexivity.
Qed.

(** X17.  [connect] never raises and returns whether the manager has a
    socket afterwards; on a connected manager it returns [True] and does
    nothing; after a success a second call changes nothing; a failure means
    there was no socket, the attempt failed, and one attempt was made. *)
Theorem connect_is_idempotent (c : conn) :
  fst (connect c) = Ok (is_some (sock (snd (connect c))))
  /\ (is_some (sock c) = true -> connect c = (Ok true, c))
  /\ (fst (connect c) = Ok true -> connect (snd (connect c)) = connect c)
  /\ (fst (connect c) = Ok false ->
      sock c = None /\ connect_fails c = true
      /\ actions (snd (connect c)) = actions c ++ [ConnectAttempt]).
Proof.
  rewrite !connect_state. cbn [fst snd].
  split; [reflexivity|]. split; [|split].
  - intros H. unfold connected. destruct (sock c) eqn:Hs; [now rewrite Hs|discriminate].
  - intros [= H].
    assert (connected (connected c) = connected c) as ->; [|reflexivity].
    unfold connected at 1. destruct (sock (connected c)); [reflexivity|discriminate H].
  - intros [= H]. revert H. unfold connected, connect_fails.
    destruct (sock c) eqn:Hs; [rewrite Hs; discriminate|]. cbn [sock actions].
    destruct (connects c) as [|[sid|e] cs]; try discriminate; auto.
Qed.

Lemma disconnect_state (close_r : reply unit) (c : conn) :
  disconnect close_r c = (Ok tt, dropped c).
Proof.
  destruct c as [[sid|] cs ss net ck acts], close_r as [[]|e]; reflexivity.
Qed.

(** X18.  [disconnect] never raises, also when [close] raises, and leaves
    the manager without socket and otherwise as it was; a second call does
    nothing; a [connect] after it makes a new attempt. *)
Theorem disconnect_drops_socket (close_r : reply unit) (c : conn) :
  let c' := snd (disconnect close_r c) in
  fst (disconnect close_r c) = Ok tt
  /\ c' = mkConn None (connects c) (sends c) (arrivals c) (clock c) (actions c)
  /\ disconnect close_r c' = (Ok tt, c')
  /\ actions (snd (connect c')) = actions c ++ [ConnectAttempt].
Proof.
  cbv zeta. rewrite !disconnect_state, connect_state. cbn [fst snd].
  split; [reflexivity|]. split; [reflexivity|]. split; [reflexivity|].
  reflexivity.
Qed.

(** [send_command], phase by phase. *)
Lemma send_command_run (t : string) (p : json) (c : conn) :
  psend t p c
  = let c1 := connected c in
    match sock c1 with
    | None => (Raise (mkExn ConnectionError "Not connected to Blender"), c1)
    | Some sid =>
        let c2 := mkConn (Some sid) (connects c1) (tl (sends c1)) (arrivals c1) (clock c1)
                         (actions c1 ++ [SendAll (json_dumps (command_of t p))]) in
        match sends c1 with
        | Raise e :: _ => on_error e c2
        | _ =>
            match receive_full_response json_loads c2 with
            | (Raise e, c3) => on_error e c3
            | (Ok data, c3) =>
                match json_loads data with
                | Raise e => on_error e c3
                | Ok response =>
                    match interpret py_repr response with
                    | Ok v => (Ok v, c3)
                    | Raise e => (Raise e, dropped c3)
                    end
                end
            end
        end
    end.
Proof.
  assert (Hconn : forall sid cs ss net ck acts,
            psend t p (mkConn (Some sid) cs ss net ck acts)
            = let c2 := mkConn (Some sid) cs (tl ss) net ck
                               (acts ++ [SendAll (json_dumps (command_of t p))]) in
              match ss with
              | Raise e :: _ => on_error e c2
              | _ =>
                  match receive_full_response json_loads c2 with
                  | (Raise e, c3) => on_error e c3
                  | (Ok data, c3) =>
                      match json_loads data with
                      | Raise e => on_error e c3
                      | Ok response =>
                          match interpret py_repr response with
                          | Ok v => (Ok v, c3)
                          | Raise e => (Raise e, dropped c3)
                          end
                      end
                  end
              end).
  { intros sid cs ss net ck acts.
    cbv beta iota zeta delta [send_command bind get ret is_some sock negb raise try_except
      client_sendall act modify lift raised connects sends arrivals clock actions tl
      set_sock].
    fold (command_of t p).
    destruct ss as [|[[]|es] ss].
    - destruct (receive_full_response _ _) as [[data|e] c3]; [|settle e].
      destruct (json_loads data) as [response|e]; [|settle e].
      cbv beta iota.
      destruct response as [| | | | |members]; try reflexivity.
      cbn [attr_get interpret]. unfold ret.
      destruct (py_eq_str _ "error"); reflexivity.
    - destruct (receive_full_response _ _) as [[data|e] c3]; [|settle e].
      destruct (json_loads data) as [response|e]; [|settle e].
      cbv beta iota.
      destruct response as [| | | | |members]; try reflexivity.
      cbn [attr_get interpret]. unfold ret.
      destruct (py_eq_str _ "error"); reflexivity.
    - settle es. }
  destruct c as [[sid|] cs ss net ck acts].
  - rewrite Hconn. reflexivity.
  - destruct cs as [|[sid|e] cs]; try reflexivity.
    transitivity (psend t p (mkConn (Some sid) cs ss net ck (acts ++ [ConnectAttempt])));
      [reflexivity|].
    rewrite Hconn. reflexivity.
Qed.


(** The connection [receive_full_response] leaves. *)
Lemma receive_state (c : conn) :
  snd (receive_full_response json_loads c)
  = let '(x, rest, waits) := loop 15 (arrivals c) [] in
    mkConn (sock c) (connects c) (sends c) rest (clock c + sum_list waits)
           (actions c ++ map Recv waits).
Proof.
  unfold receive_full_response, receive_from.
  destruct (loop 15 (arrivals c) []) as [[x rest] waits].
  destruct x as [data|chunks|e]; try reflexivity. apply finalize_keeps_conn.
Qed.

(** What the receive loop returns has parsed, and what it raises is no JSON
    decoding error unless the socket layer raised one. *)
Lemma recv_loop_exit (timeout : nat) (net : list arrival) :
  forall chunks x rest waits,
    forallb (fun a : arrival => raises_oserror (snd a)) net = true ->
    loop timeout net chunks = (x, rest, waits) ->
    match x with
    | Returned data => exists v, json_loads data = Ok v
    | Broke _ => True
    | Raised e => isinstance e JSONDecodeError = false
    end.
Proof.
  assert (Hexc : forall chunks e x,
            isinstance e JSONDecodeError = false ->
            loop_exception chunks e = x ->
            match x with
            | Returned data => exists v, json_loads data = Ok v
            | Broke _ => True
            | Raised e => isinstance e JSONDecodeError = false
            end).
  { intros chunks e x He <-. rewrite loop_exception_cases.
    destruct (isinstance e SocketTimeout); [exact I|exact He]. }
  induction net as [|[d out] net IH]; intros chunks x rest waits Hnet H;
    cbn [recv_loop] in H.
  - injection H as <- _ _. eapply (Hexc _ timeout_exn); reflexivity.
  - cbn [forallb snd] in Hnet. apply andb_true_iff in Hnet. destruct Hnet as [Hout Hnet].
    destruct (timeout <=? d)%nat.
    + injection H as <- _ _. eapply (Hexc _ timeout_exn); reflexivity.
    + destruct out as [[|b chunk]|e].
      * destruct chunks; injection H as <- _ _;
          [eapply (Hexc _ (mkExn Exception "Connection closed before receiving any data"));
           reflexivity|exact I].
      * destruct (json_loads _) as [v|e] eqn:Hl; [injection H as <- _ _; eauto|].
        destruct (isinstance e JSONDecodeError) eqn:He.
        -- destruct (loop timeout net _) as [[x1 r1] w1] eqn:Hrec.
           injection H as <- _ _. eapply IH; eassumption.
        -- injection H as <- _ _. eapply Hexc; [exact He|reflexivity].
      * injection H as <- _ _. eapply Hexc; [|reflexivity].
        apply oserror_not_json. exact Hout.
Qed.

Lemma receive_outcome (c : conn) :
  forallb (fun a : arrival => raises_oserror (snd a)) (arrivals c) = true ->
  match fst (receive_full_response json_loads c) with
  | Ok data => exists v, json_loads data = Ok v
  | Raise e => isinstance e JSONDecodeError = false
  end.
Proof.
  intros Hnet. unfold receive_full_response, receive_from.
  destruct (loop 15 (arrivals c) []) as [[x rest] waits] eqn:Hloop.
  pose proof (recv_loop_exit _ _ _ _ _ _ Hnet Hloop) as Hx.
  destruct x as [data|chunks|e]; [exact Hx| |exact Hx].
  destruct chunks as [|ch chunks]; [reflexivity|].
  cbv beta iota zeta delta [finalize try_except bind lift raised ret raise fst].
  destruct (json_loads _) as [v|e] eqn:Hl; [eauto|].
  destruct (isinstance e JSONDecodeError) eqn:He; [reflexivity|exact He].
Qed.

(** What [receive_full_response] raises is an instance of [Exception]. *)
Lemma receive_raises_errors (c : conn) (e : exn) :
  fst (receive_full_response json_loads c) = Raise e -> is_exception e = true.
Proof.
  unfold receive_full_response, receive_from.
  destruct (loop 15 (arrivals c) []) as [[x rest] waits] eqn:Hloop.
  destruct x as [data|chunks|e0]; cbn [fst].
  - discriminate.
  - destruct chunks as [|ch chunks]; [now intros [= <-]|].
    cbv beta iota zeta delta [finalize try_except bind lift raised ret raise fst].
    destruct (json_loads _) as [v|f]; [discriminate|].
    destruct (isinstance f JSONDecodeError); now intros [= <-].
  - intros [= <-]. exact (recv_loop_raised json_loads _ _ _ _ _ _ Hloop).
Qed.

Lemma on_error_raises (e : exn) (c : conn) :
  (exists e', fst (on_error e c) = Raise e')
  /\ actions (snd (on_error e c)) = actions c
  /\ (isinstance e JSONDecodeError = false -> is_exception e = true ->
      sock (snd (on_error e c)) = None).
Proof.
  unfold on_error.
  destruct (isinstance e SocketTimeout); [cbn; eauto|].
  destruct (isinstance_any _ _); [cbn; eauto|].
  destruct (isinstance e JSONDecodeError); [cbn; split; eauto; split; [eauto|discriminate]|].
  destruct (is_exception e); cbn; split; eauto.
  split; [reflexivity|discriminate].
Qed.

(** What [send_command] raises is an instance of [Exception]. *)
Lemma send_command_raises_errors (t : string) (p : json) (c : conn) (e : exn) :
  fst (psend t p c) = Raise e -> is_exception e = true.
Proof.
  assert (Herr : forall e0 c0, is_exception e0 = true ->
                               fst (on_error e0 c0) = Raise e -> is_exception e = true).
  { intros e0 c0 He0. unfold on_error. rewrite He0.
    destruct (isinstance e0 SocketTimeout); [now intros [= <-]|].
    destruct (isinstance_any _ _); [now intros [= <-]|].
    destruct (isinstance e0 JSONDecodeError); now intros [= <-]. }
  rewrite send_command_run. cbv zeta.
  destruct (sock (connected c)) as [sid|]; [|now intros [= <-]].
  set (c2 := mkConn (Some sid) _ _ _ _ _).
  assert (Hbody : fst match receive_full_response json_loads c2 with
                      | (Raise e, c3) => on_error e c3
                      | (Ok data, c3) =>
                          match json_loads data with
                          | Raise e => on_error e c3
                          | Ok response =>
                              match interpret py_repr response with
                              | Ok v => (Ok v, c3)
                              | Raise e => (Raise e, dropped c3)
                              end
                          end
                      end = Raise e -> is_exception e = true).
  { pose proof (receive_raises_errors c2) as Hexc.
    destruct (receive_full_response json_loads c2) as [[data|e0] c3]; cbn [fst] in Hexc.
    - destruct (json_loads data) as [r|f]; [|now apply Herr].
      unfold interpret. destruct r as [| | | | |members]; try now intros [= <-].
      destruct (py_eq_str _ "error"); [now intros [= <-]|discriminate].
    - apply Herr. now apply Hexc. }
  destruct (sends (connected c)) as [|[[]|f] ss]; try exact Hbody.
  now apply Herr.
Qed.

(** X19.  What [send_command] makes of a response it received and decoded:
    a dict whose status is not ["error"] gives its [result] ([{}] when
    absent) and keeps the socket; a dict with status ["error"] or a value
    that is no dict raises "Communication error with Blender: ..." and drops
    the socket. *)
Theorem response_interpretation (t : string) (p : json) (c : conn) (sid : nat)
        (data : bytes) (rest : list arrival) (waits : list nat) (response : json) :
  sock c = Some sid -> send_succeeds c = true ->
  loop 15 (arrivals c) [] = (Returned data, rest, waits) ->
  json_loads data = Ok response ->
  psend t p c
  = (interpret py_repr response,
     mkConn (match interpret py_repr response with
             | Ok _ => Some sid
             | Raise _ => None
             end)
            (connects c) (tl (sends c)) rest (clock c + sum_list waits)
            ((actions c ++ [SendAll (json_dumps (command_of t p))]) ++ map Recv waits)).
Proof.
  intros Hsock Hs Hloop Hl. rewrite send_command_run.
  unfold connected. rewrite Hsock. cbv zeta. rewrite Hsock.
  unfold send_succeeds in Hs.
  assert (Hrecv : forall ss acts,
            receive_full_response json_loads
              (mkConn (Some sid) (connects c) ss (arrivals c) (clock c) acts)
            = (Ok data, mkConn (Some sid) (connects c) ss rest (clock c + sum_list waits)
                               (acts ++ map Recv waits))).
  { intros ss acts. unfold receive_full_response, receive_from.
    cbn [arrivals sock connects sends clock actions]. now rewrite Hloop. }
  destruct (sends c) as [|[[]|e] ss]; [| |discriminate];
    rewrite Hrecv, Hl; destruct (interpret py_repr response); reflexivity.
Qed.

(** X20.  When the errors of the socket layer are [OSError]s,
    [send_command] leaves the manager with a socket exactly when it returned:
    every raise drops the connection.  In particular the clause for
    [json.JSONDecodeError], the only one that keeps the socket, is never
    taken. *)
Theorem send_command_drops_socket_iff_raises (t : string) (p : json) (c : conn) :
  socket_errors c = true ->
  is_some (sock (snd (psend t p c)))
  = match fst (psend t p c) with
    | Ok _ => true
    | Raise _ => false
    end.
Proof.
  intros Herr. unfold socket_errors in Herr. apply andb_true_iff in Herr.
  destruct Herr as [Hsends Hnet].
  rewrite send_command_run. cbv zeta.
  assert (Hc : sends (connected c) = sends c /\ arrivals (connected c) = arrivals c).
  { unfold connected. destruct (sock c); auto. }
  destruct Hc as [-> Harr].
  destruct (sock (connected c)) as [sid|] eqn:Hs; [|cbn [fst snd]; now rewrite Hs].
  assert (Hfail : forall e c0, isinstance e JSONDecodeError = false ->
            is_exception e = true ->
            is_some (sock (snd (on_error e c0)))
            = match fst (on_error e c0) with Ok _ => true | Raise _ => false end).
  { intros e c0 He Hexc. destruct (on_error_raises e c0) as ((e' & ->) & _ & Hnone).
    now rewrite (Hnone He Hexc). }
  set (c2 := mkConn (Some sid) _ _ _ _ _).
  assert (Hbody : is_some (sock (snd
                    match receive_full_response json_loads c2 with
                    | (Raise e, c3) => on_error e c3
                    | (Ok data, c3) =>
                        match json_loads data with
                        | Raise e => on_error e c3
                        | Ok response =>
                            match interpret py_repr response with
                            | Ok v => (Ok v, c3)
                            | Raise e => (Raise e, dropped c3)
                            end
                        end
                    end))
                  = match fst
                    match receive_full_response json_loads c2 with
                    | (Raise e, c3) => on_error e c3
                    | (Ok data, c3) =>
                        match json_loads data with
                        | Raise e => on_error e c3
                        | Ok response =>
                            match interpret py_repr response with
                            | Ok v => (Ok v, c3)
                            | Raise e => (Raise e, dropped c3)
                            end
                        end
                    end with Ok _ => true | Raise _ => false end).
  { pose proof (receive_outcome c2) as Hout.
    pose proof (receive_state c2) as Hst.
    pose proof (receive_raises_errors c2) as Hexc.
    destruct (receive_full_response json_loads c2) as [[data|e] c3];
      cbn [fst snd] in Hout, Hst, Hexc.
    - destruct Hout as (v & Hv); [subst c2; cbn [arrivals]; now rewrite Harr|].
      rewrite Hv.
      destruct (interpret py_repr v); cbn [fst snd dropped sock is_some]; [|reflexivity].
      rewrite Hst. destruct (loop _ _ _) as [[x rest] waits]. reflexivity.
    - apply Hfail; [apply Hout|now apply Hexc]. subst c2; cbn [arrivals]; now rewrite Harr. }
  destruct (sends c) as [|[[]|e] ss]; try exact Hbody.
  apply Hfail; [|reflexivity]. cbn [forallb raises_oserror] in Hsends.
  apply andb_true_iff in Hsends. apply oserror_not_json. tauto.
Qed.


(** X21.  Whatever happens, one call of [send_command] makes at most one
    connect attempt (none when connected), then writes the serialized command
    at most once, and only reads after that: it never sends twice and never
    reconnects.  After a failed send it does not read. *)
Theorem send_command_single_request (t : string) (p : json) (c : conn) :
  exists waits,
    actions (snd (psend t p c))
    = actions c
      ++ (if is_some (sock c) then [] else [ConnectAttempt])
      ++ (if is_some (sock (connected c))
          then SendAll (json_dumps (command_of t p)) :: map Recv waits
          else [])
    /\ (if send_succeeds c then True else waits = [])
    /\ List.length waits <= S (List.length (arrivals c)).
Proof.
  rewrite send_command_run. cbv zeta.
  assert (Hc : sends (connected c) = sends c /\ arrivals (connected c) = arrivals c
               /\ actions (connected c)
                  = actions c ++ (if is_some (sock c) then [] else [ConnectAttempt])).
  { unfold connected. destruct (sock c); cbn [sends arrivals actions is_some];
      rewrite ?app_nil_r; auto. }
  destruct Hc as (-> & Harr & Hact).
  destruct (sock (connected c)) as [sid|] eqn:Hs; cbn [is_some].
  2:{ exists []. cbn [snd]. rewrite Hact, app_nil_r. split; [reflexivity|].
      split; [destruct (send_succeeds c); auto|]. cbn; lia. }
  set (c2 := mkConn (Some sid) _ _ _ _ _).
  assert (Hbody : exists waits,
            actions (snd
                    match receive_full_response json_loads c2 with
                    | (Raise e, c3) => on_error e c3
                    | (Ok data, c3) =>
                        match json_loads data with
                        | Raise e => on_error e c3
                        | Ok response =>
                            match interpret py_repr response with
                            | Ok v => (Ok v, c3)
                            | Raise e => (Raise e, dropped c3)
                            end
                        end
                    end) = actions c2 ++ map Recv waits
            /\ List.length waits <= S (List.length (arrivals c))).
  { pose proof (receive_state c2) as Hst.
    destruct (loop 15 (arrivals c2) []) as [[x rest] waits] eqn:Hloop.
    destruct (recv_loop_waits _ _ _ _ _ _ _ Hloop) as [_ Hlen].
    exists waits. split; [|subst c2; cbn [arrivals] in Hlen; rewrite Harr in Hlen; lia].
    destruct (receive_full_response json_loads c2) as [[data|e] c3]; cbn [snd] in Hst;
      subst c3.
    - destruct (json_loads data) as [v|e].
      + destruct (interpret py_repr v); reflexivity.
      + destruct (on_error_raises e (mkConn (sock c2) (connects c2) (sends c2) rest
                   (clock c2 + sum_list waits) (actions c2 ++ map Recv waits)))
          as (_ & -> & _). reflexivity.
    - destruct (on_error_raises e (mkConn (sock c2) (connects c2) (sends c2) rest
                   (clock c2 + sum_list waits) (actions c2 ++ map Recv waits)))
          as (_ & -> & _). reflexivity. }
  assert (Hc2 : actions c2 = (actions c ++ (if is_some (sock c) then [] else [ConnectAttempt]))
                              ++ [SendAll (json_dumps (command_of t p))]).
  { subst c2. cbn [actions]. now rewrite Hact. }
  unfold send_succeeds.
  destruct (sends c) as [|[[]|e] ss].
  - destruct Hbody as (waits & -> & Hlen). exists waits. rewrite Hc2, <- !app_assoc.
    split; [reflexivity|]. split; [exact I|exact Hlen].
  - destruct Hbody as (waits & -> & Hlen). exists waits. rewrite Hc2, <- !app_assoc.
    split; [reflexivity|]. split; [exact I|exact Hlen].
  - exists []. destruct (on_error_raises e c2) as (_ & -> & _).
    rewrite Hc2, <- !app_assoc. split; [reflexivity|]. split; [reflexivity|cbn; lia].
Qed.

End ConnectionFacts.

(* ===================================================================== *)
(** * The global connection *)
(* ===================================================================== *)

Section GlobalConnection.

Local Open Scope list_scope.

Variable json_loads : bytes -> reply json.
Variable json_dumps : json -> bytes.
Variable py_repr : json -> string.
Variable close_r : reply unit.

Local Notation psend := (send_command json_loads json_dumps py_repr).
Local Notation connection := (get_blender_connection json_loads json_dumps py_repr close_r).

(** [get_blender_connection], by the outcome of the probe. *)
Lemma get_blender_connection_run (g : globals) :
  connection g
  = if has_connection g then
      match psend "get_polyhaven_status" JNull (link g) with
      | (Ok (JObj members), c1) =>
          (Ok tt, mkGlobals true (dict_get members "enabled" (JBool false)) c1)
      | (_, c1) => fresh_connection (_polyhaven_enabled g) c1
      end
    else fresh_connection (_polyhaven_enabled g) (link g).
Proof.
  destruct g as [has flag c].
  cbv beta iota zeta delta
    [get_blender_connection bind get ret raise try_except on_link set_has_connection
     set_polyhaven_enabled modify has_connection _polyhaven_enabled link negb set_sock
     fresh_connection].
  assert (Hfresh : forall c0 : conn,
            (let (r, w') :=
               let (r, c') := connect (mkConn None (connects c0) (sends c0) (arrivals c0)
                                              (clock c0) (actions c0)) in
               (r, mkGlobals true flag c') in
             match r with
             | Ok a =>
                 (if negb a
                  then fun w : globals =>
                         (Raise (mkExn Exception
                            "Could not connect to Blender. Make sure the Blender addon is running."),
                          mkGlobals false (_polyhaven_enabled w) (link w))
                  else fun w : globals => (Ok tt, w)) w'
             | Raise e => (Raise e, w')
             end)
            = (if is_some (sock (connected (dropped c0)))
               then (Ok tt, mkGlobals true flag (connected (dropped c0)))
               else (Raise (mkExn Exception unreachable),
                     mkGlobals false flag (connected (dropped c0))))).
  { intros c0. fold (dropped c0). rewrite connect_state.
    destruct (is_some (sock (connected (dropped c0)))); reflexivity. }
  destruct has.
  - pose proof (send_command_raises_errors json_loads json_dumps py_repr
                  "get_polyhaven_status" JNull c) as Hexc.
    destruct (psend "get_polyhaven_status" JNull c) as [[result|e] c1]; cbn [fst] in Hexc.
    + destruct result as [| | | | |members]; cbn [attr_get]; unfold raise, ret;
        cbv beta iota; caught; cbv beta iota;
        cbn [has_connection _polyhaven_enabled link negb];
        try (rewrite disconnect_state; cbv beta iota;
             unfold dropped;
             cbn [has_connection _polyhaven_enabled link negb sock connects sends arrivals
                  clock actions];
             exact (Hfresh c1)).
      reflexivity.
    + rewrite (Hexc e eq_refl). rewrite disconnect_state; cbv beta iota;
             unfold dropped;
             cbn [has_connection _polyhaven_enabled link negb sock connects sends arrivals
                  clock actions].
      exact (Hfresh c1).
  - cbn [negb]. exact (Hfresh c).
Qed.


Lemma fresh_connection_cases (flag : json) (c : conn) :
  match fst (fresh_connection flag c) with
  | Ok _ =>
      has_connection (snd (fresh_connection flag c)) = true
      /\ is_some (sock (link (snd (fresh_connection flag c)))) = true
  | Raise e =>
      e = mkExn Exception unreachable
      /\ has_connection (snd (fresh_connection flag c)) = false
      /\ sock (link (snd (fresh_connection flag c))) = None
  end
  /\ _polyhaven_enabled (snd (fresh_connection flag c)) = flag
  /\ actions (link (snd (fresh_connection flag c))) = actions c ++ [ConnectAttempt].
Proof.
  unfold fresh_connection.
  destruct (is_some (sock (connected (dropped c)))) eqn:Hs; cbn [fst snd has_connection link
    _polyhaven_enabled].
  - rewrite Hs. auto.
  - split; [|auto]. split; [reflexivity|]. split; [reflexivity|].
    destruct (sock (connected (dropped c))); [discriminate|reflexivity].
Qed.

Lemma send_command_ok_connected (t : string) (p : json) (c : conn) (v : json) :
  fst (psend t p c) = Ok v -> is_some (sock (snd (psend t p c))) = true.
Proof.
  rewrite send_command_run. cbv zeta.
  destruct (sock (connected c)) as [sid|] eqn:Hs; [|discriminate].
  set (c2 := mkConn (Some sid) _ _ _ _ _).
  assert (Herr : forall e c0, fst (on_error e c0) = Ok v ->
                              is_some (sock (snd (on_error e c0))) = true).
  { intros e c0. destruct (on_error_raises e c0) as ((e' & ->) & _). discriminate. }
  assert (Hbody : fst match receive_full_response json_loads c2 with
                    | (Raise e, c3) => on_error e c3
                    | (Ok data, c3) =>
                        match json_loads data with
                        | Raise e => on_error e c3
                        | Ok response =>
                            match interpret py_repr response with
                            | Ok v => (Ok v, c3)
                            | Raise e => (Raise e, dropped c3)
                            end
                        end
                    end = Ok v ->
                  is_some (sock (snd match receive_full_response json_loads c2 with
                    | (Raise e, c3) => on_error e c3
                    | (Ok data, c3) =>
                        match json_loads data with
                        | Raise e => on_error e c3
                        | Ok response =>
                            match interpret py_repr response with
                            | Ok v => (Ok v, c3)
                            | Raise e => (Raise e, dropped c3)
                            end
                        end
                    end)) = true).
  { pose proof (receive_state json_loads c2) as Hst.
    destruct (receive_full_response json_loads c2) as [[data|e] c3]; [|apply Herr].
    destruct (json_loads data) as [r|e]; [|apply Herr].
    destruct (interpret py_repr r); [|discriminate].
    intros _. cbn [snd] in *. rewrite Hst.
    destruct (recv_loop _ _ _ _) as [[x rest] waits]. reflexivity. }
  destruct (sends (connected c)) as [|[[]|e] ss]; try exact Hbody. apply Herr.
Qed.

(** The only exception [get_blender_connection] raises. *)
Lemma connection_raises (g : globals) (e : exn) :
  fst (connection g) = Raise e -> e = mkExn Exception unreachable.
Proof.
  rewrite get_blender_connection_run.
  assert (Hf : forall flag c, fst (fresh_connection flag c) = Raise e ->
                              e = mkExn Exception unreachable).
  { intros flag c H. pose proof (fresh_connection_cases flag c) as [Hc _].
    rewrite H in Hc. tauto. }
  destruct (has_connection g); [|apply Hf].
  destruct (psend _ _ _) as [[r|e'] c1]; [|apply Hf].
  destruct r; try apply Hf. discriminate.
Qed.

(** X22.  [get_blender_connection] either returns, and then the global
    connection object exists and has a socket, or raises the exception
    "Could not connect to Blender. Make sure the Blender addon is running.",
    and then there is no global connection object. *)
Theorem get_blender_connection_postcondition (g : globals) :
  match fst (connection g) with
  | Ok _ =>
      has_connection (snd (connection g)) = true
      /\ is_some (sock (link (snd (connection g)))) = true
  | Raise e =>
      e = mkExn Exception unreachable
      /\ has_connection (snd (connection g)) = false
      /\ sock (link (snd (connection g))) = None
  end.
Proof.
  rewrite get_blender_connection_run.
  destruct (has_connection g); [|apply fresh_connection_cases].
  pose proof (send_command_ok_connected "get_polyhaven_status" JNull (link g)) as Hok.
  destruct (psend "get_polyhaven_status" JNull (link g)) as [[result|e] c1];
    [|apply fresh_connection_cases].
  destruct result; try apply fresh_connection_cases.
  cbn [fst snd has_connection link]. split; [reflexivity|]. eapply Hok. reflexivity.
Qed.

(** X23.  [_polyhaven_enabled] is written only by a successful probe of an
    existing connection, as the [enabled] entry of its result ([False] when
    absent).  A call that creates the connection leaves it as it was, so the
    first call leaves the initial [False] whatever the scene says. *)
Theorem polyhaven_flag_follows_probe (g : globals) :
  _polyhaven_enabled (snd (connection g))
  = if has_connection g then
      match fst (psend "get_polyhaven_status" JNull (link g)) with
      | Ok (JObj members) => dict_get members "enabled" (JBool false)
      | _ => _polyhaven_enabled g
      end
    else _polyhaven_enabled g.
Proof.
  rewrite get_blender_connection_run.
  destruct (has_connection g); [|apply fresh_connection_cases].
  destruct (psend "get_polyhaven_status" JNull (link g)) as [[result|e] c1];
    [|apply fresh_connection_cases].
  destruct result; try apply fresh_connection_cases. reflexivity.
Qed.

(** X24.  When the probe of the existing connection raises, the same call
    of [get_blender_connection] drops that connection and connects a new
    one: it returns the new connection if Blender accepts it and raises the
    could-not-connect exception otherwise; [_polyhaven_enabled] is as
    before. *)
Theorem stale_connection_is_replaced (g : globals) (e : exn) :
  has_connection g = true ->
  fst (psend "get_polyhaven_status" JNull (link g)) = Raise e ->
  let c1 := snd (psend "get_polyhaven_status" JNull (link g)) in
  connection g
  = match connects c1 with
    | Ok sid :: rest =>
        (Ok tt, mkGlobals true (_polyhaven_enabled g)
                          (mkConn (Some sid) rest (sends c1) (arrivals c1) (clock c1)
                                  (actions c1 ++ [ConnectAttempt])))
    | _ =>
        (Raise (mkExn Exception unreachable),
         mkGlobals false (_polyhaven_enabled g)
                   (mkConn None (tl (connects c1)) (sends c1) (arrivals c1) (clock c1)
                           (actions c1 ++ [ConnectAttempt])))
    end.
Proof.
  intros Hhas Hprobe. cbv zeta. rewrite get_blender_connection_run, Hhas.
  destruct (psend "get_polyhaven_status" JNull (link g)) as [r c1].
  cbn [fst snd] in *. subst r.
  unfold fresh_connection, connected, dropped. cbn [sock connects sends arrivals clock actions].
  destruct (connects c1) as [|[sid|e'] rest]; reflexivity.
Qed.

(** X25.  The start-up part of [server_lifespan] never raises: when Blender
    cannot be reached it goes on without a connection object.  The shut-down
    part never raises and leaves no connection object, having disconnected
    the one there was. *)
Theorem lifespan_swallows_failure_and_cleans_up (g : globals) :
  fst (lifespan_startup json_loads json_dumps py_repr close_r g) = Ok tt
  /\ (forall e, fst (connection g) = Raise e ->
        has_connection (snd (lifespan_startup json_loads json_dumps py_repr close_r g))
        = false)
  /\ lifespan_shutdown close_r g
     = (Ok tt, mkGlobals false (_polyhaven_enabled g)
                         (if has_connection g then dropped (link g) else link g)).
Proof.
  split; [|split].
  - unfold lifespan_startup, try_except.
    pose proof (connection_raises g) as Hexc.
    destruct (connection g) as [[[]|e] g1]; [reflexivity|].
    rewrite (Hexc e eq_refl). reflexivity.
  - intros e He.
    assert (Hst : snd (lifespan_startup json_loads json_dumps py_repr close_r g)
                  = snd (connection g)).
    { unfold lifespan_startup, try_except.
      pose proof (connection_raises g) as Hexc.
      destruct (connection g) as [[[]|e'] g1]; [reflexivity|].
      rewrite (Hexc e' eq_refl). reflexivity. }
    rewrite Hst. revert He. rewrite get_blender_connection_run.
    assert (Hf : forall flag c, fst (fresh_connection flag c) = Raise e ->
                                has_connection (snd (fresh_connection flag c)) = false).
    { intros flag c H. pose proof (fresh_connection_cases flag c) as [Hc _].
      rewrite H in Hc. tauto. }
    destruct (has_connection g); [|apply Hf].
    destruct (psend _ _ _) as [[r|e'] c1]; [|apply Hf].
    destruct r; try apply Hf. discriminate.
  - destruct g as [[|] flag c];
      cbv beta iota zeta delta
        [lifespan_shutdown bind get ret on_link set_has_connection modify
         has_connection _polyhaven_enabled link];
      [rewrite disconnect_state|]; reflexivity.
Qed.

End GlobalConnection.

(* ===================================================================== *)
(** * The tools *)
(* ===================================================================== *)

Section ToolFacts.

Local Open Scope list_scope.

Variable json_loads : bytes -> reply json.
Variable json_dumps : json -> bytes.
Variable py_repr : json -> string.
Variable close_r : reply unit.
Variable json_dumps_indent : json -> string.
Variable string_indices_message : string.

Local Notation psend := (send_command json_loads json_dumps py_repr).
Local Notation connection := (get_blender_connection json_loads json_dumps py_repr close_r).
Local Notation str := (py_str py_repr).

(** A tool: the connection, then the body, with every instance of
    [Exception] turned into the text of the tool. *)
Lemma tool_run (k : M globals json) (prefix : string) (g : globals) :
  try_except (connection ;; k)
             (fun e => if is_exception e
                       then Some (ret (JStr (prefix ++ exn_str e)%string))
                       else None) g
  = match connection g with
    | (Ok _, g1) =>
        match k g1 with
        | (Ok v, g2) => (Ok v, g2)
        | (Raise e, g2) =>
            if is_exception e then (Ok (JStr (prefix ++ exn_str e)%string), g2)
            else (Raise e, g2)
        end
    | (Raise e, g1) => (Ok (JStr (prefix ++ exn_str e)%string), g1)
    end.
Proof.
  unfold try_except, bind, ret.
  pose proof (connection_raises json_loads json_dumps py_repr close_r g) as Hexc.
  destruct (connection g) as [[[]|e] g1].
  - destruct (k g1) as [[v|e] g2]; [reflexivity|]. destruct (is_exception e); reflexivity.
  - rewrite (Hexc e eq_refl). reflexivity.
Qed.

(** X26.  When [get_blender_connection] fails, each of the eight tools
    returns, without raising, its own error prefix followed by the
    could-not-connect text, and does nothing more. *)
Theorem tools_report_unreachable_blender (g : globals) (e : exn) :
  fst (connection g) = Raise e ->
  let g' := snd (connection g) in
  let says (text : string) (r : result json * globals) :=
      r = (Ok (JStr (text ++ unreachable)%string), g') in
  says "Error getting scene info: "
       (Tool.get_scene_info json_loads json_dumps py_repr close_r json_dumps_indent g)
  /\ (forall object_name,
        says "Error getting object info: "
             (Tool.get_object_info json_loads json_dumps py_repr close_r json_dumps_indent
                                   object_name g))
  /\ (forall type name location rotation scale,
        says "Error creating object: "
             (Tool.create_object json_loads json_dumps py_repr close_r string_indices_message
                                 type name location rotation scale g))
  /\ (forall name location rotation scale visible,
        says "Error modifying object: "
             (Tool.modify_object json_loads json_dumps py_repr close_r string_indices_message
                                 name location rotation scale visible g))
  /\ (forall name,
        says "Error deleting object: "
             (Tool.delete_object json_loads json_dumps py_repr close_r name g))
  /\ (forall object_name material_name color,
        says "Error setting material: "
             (Tool.set_material json_loads json_dumps py_repr close_r
                                object_name material_name color g))
  /\ (forall code,
        says "Error executing code: "
             (Tool.execute_blender_code json_loads json_dumps py_repr close_r code g))
  /\ says "Error checking PolyHaven status: "
          (Tool.get_polyhaven_status json_loads json_dumps py_repr close_r g).
Proof.
  intros Hfail. cbv zeta.
  pose proof (connection_raises json_loads json_dumps py_repr close_r g e Hfail) as ->.
  assert (Hrun : forall k prefix,
            try_except (connection ;; k)
                       (fun e => if is_exception e
                                 then Some (ret (JStr (prefix ++ exn_str e)%string))
                                 else None) g
            = (Ok (JStr (prefix ++ unreachable)%string), snd (connection g))).
  { intros k prefix. rewrite tool_run.
    destruct (connection g) as [[[]|e] g1]; [discriminate|].
    cbn [fst snd] in *. now injection Hfail as ->. }
  repeat (split; [try (intros; apply Hrun)|]); try (intros; apply Hrun).
Qed.


(** X27.  [create_object] sends the type with location, rotation and scale
    replaced by [[0, 0, 0]], [[0, 0, 0]] and [[1, 1, 1]] when they are falsy
    (left out or empty), and the name only when it is truthy.  When the
    command returns [r] the tool answers "Created <type> object: <name>" with
    the name in [r], and the text of the exception of [r['name']] after
    "Error creating object: " when [r] has none. *)
Theorem create_object_defaults_and_name
        (type name location rotation scale : json) (g g1 : globals) (r : json) (c2 : conn) :
  let zeros := JArr [JNum "0"; JNum "0"; JNum "0"] in
  let ones := JArr [JNum "1"; JNum "1"; JNum "1"] in
  let params := JObj ([("type", type);
                       ("location", or_default location zeros);
                       ("rotation", or_default rotation zeros);
                       ("scale", or_default scale ones)]
                      ++ optional py_truthy "name" name) in
  connection g = (Ok tt, g1) ->
  psend "create_object" params (link g1) = (Ok r, c2) ->
  Tool.create_object json_loads json_dumps py_repr close_r string_indices_message
                     type name location rotation scale g
  = (Ok (JStr match r with
              | JObj members =>
                  match dict_lookup members "name" with
                  | Some v => "Created " ++ str type ++ " object: " ++ str v
                  | None => "Error creating object: 'name'"
                  end
              | JArr _ => "Error creating object: list indices must be integers or slices, not str"
              | JStr _ => "Error creating object: " ++ string_indices_message
              | _ => "Error creating object: '" ++ py_type_name r
                     ++ "' object is not subscriptable"
              end)%string,
     mkGlobals (has_connection g1) (_polyhaven_enabled g1) c2).
Proof.
  cbv zeta. intros Hconn Hsend.
  unfold Tool.create_object. rewrite tool_run, Hconn.
  unfold bind at 1, on_link.
  assert (Hparams : (if py_truthy name
                     then dict_set [("type", type);
                                    ("location", if py_truthy location then location
                                                 else JArr [JNum "0"; JNum "0"; JNum "0"]);
                                    ("rotation", if py_truthy rotation then rotation
                                                 else JArr [JNum "0"; JNum "0"; JNum "0"]);
                                    ("scale", if py_truthy scale then scale
                                              else JArr [JNum "1"; JNum "1"; JNum "1"])]
                                   "name" name
                     else [("type", type);
                           ("location", if py_truthy location then location
                                        else JArr [JNum "0"; JNum "0"; JNum "0"]);
                           ("rotation", if py_truthy rotation then rotation
                                        else JArr [JNum "0"; JNum "0"; JNum "0"]);
                           ("scale", if py_truthy scale then scale
                                     else JArr [JNum "1"; JNum "1"; JNum "1"])])
                    = [("type", type);
                       ("location", or_default location (JArr [JNum "0"; JNum "0"; JNum "0"]));
                       ("rotation", or_default rotation (JArr [JNum "0"; JNum "0"; JNum "0"]));
                       ("scale", or_default scale (JArr [JNum "1"; JNum "1"; JNum "1"]))]
                      ++ optional py_truthy "name" name).
  { unfold optional, or_default. destruct (py_truthy name); reflexivity. }
  rewrite Hparams, Hsend. unfold bind, ret.
  destruct r as [| | | | |members]; try reflexivity.
  unfold py_getitem. destruct (dict_lookup members "name"); reflexivity.
Qed.

(** X28.  [modify_object] sends the name and those of location, rotation,
    scale and visible that are not [None], in this order; a value such as
    [False] or an empty list is sent.  The answer is "Modified object: <name>"
    with the name in the result, or the text of the exception of
    [result['name']] after "Error modifying object: ". *)
Theorem modify_object_sends_what_is_given
        (name location rotation scale visible : json) (g g1 : globals) (r : json) (c2 : conn) :
  let params := JObj ([("name", name)]
                      ++ optional given "location" location
                      ++ optional given "rotation" rotation
                      ++ optional given "scale" scale
                      ++ optional given "visible" visible) in
  connection g = (Ok tt, g1) ->
  psend "modify_object" params (link g1) = (Ok r, c2) ->
  Tool.modify_object json_loads json_dumps py_repr close_r string_indices_message
                     name location rotation scale visible g
  = (Ok (JStr match r with
              | JObj members =>
                  match dict_lookup members "name" with
                  | Some v => "Modified object: " ++ str v
                  | None => "Error modifying object: 'name'"
                  end
              | JArr _ => "Error modifying object: list indices must be integers or slices, not str"
              | JStr _ => "Error modifying object: " ++ string_indices_message
              | _ => "Error modifying object: '" ++ py_type_name r
                     ++ "' object is not subscriptable"
              end)%string,
     mkGlobals (has_connection g1) (_polyhaven_enabled g1) c2).
Proof.
  cbv zeta. intros Hconn Hsend.
  unfold Tool.modify_object. rewrite tool_run, Hconn.
  unfold bind at 1, on_link.
  match goal with
  | |- context [psend "modify_object" (JObj ?l)] =>
      assert (Hparams : l = [("name", name)]
                      ++ optional given "location" location
                      ++ optional given "rotation" rotation
                      ++ optional given "scale" scale
                      ++ optional given "visible" visible)
  end.
  { unfold optional, given.
    destruct (is_none location), (is_none rotation), (is_none scale), (is_none visible);
      reflexivity. }
  rewrite Hparams, Hsend. unfold bind, ret.
  destruct r as [| | | | |members]; try reflexivity.
  unfold py_getitem. destruct (dict_lookup members "name"); reflexivity.
Qed.

End ToolFacts.

(* ===================================================================== *)
(** * Client and server together *)
(* ===================================================================== *)

Section ExchangeFacts.

Local Open Scope list_scope.

Variable Scene : Type.
Variable json_loads : bytes -> reply json.
Variable json_dumps : json -> bytes.
Variable py_repr : json -> string.
Variable call_handler : string -> json -> server -> host Scene
                        -> result json * server * host Scene.

Local Notation exec := (execute_command py_repr call_handler).
Local Notation pstep := (step json_loads json_dumps py_repr call_handler).
Local Notation psend := (send_command json_loads json_dumps py_repr).
Local Notation pserve := (serve json_loads json_dumps py_repr call_handler).
Local Notation pserved := (served json_loads json_dumps py_repr call_handler).
Local Notation ptrip := (round_trip json_loads json_dumps py_repr call_handler).

(** The dispatch of a registered command that needs no viewport. *)
Lemma exec_registered_plain (t : string) (p : json) (w : world Scene) :
  registered (blendermcp_use_polyhaven (hst w)) t = true ->
  py_in_strs (JStr t) view3d_commands = false ->
  let args := if String.eqb t "get_polyhaven_status" then JObj []
              else if py_truthy p then p else JObj [] in
  exec (command_of t p) w
  = (answer (fst (fst (call_handler t args (srv w) (hst w)))),
     mkWorld (snd (fst (call_handler t args (srv w) (hst w))))
             (snd (call_handler t args (srv w) (hst w)))
             (trace w ++ [Called t args (fst (fst (call_handler t args (srv w) (hst w))))])).
Proof.
  intros Hreg Hv. cbv zeta.
  unfold command_of.
  rewrite (exec_run Scene py_repr call_handler
             [("type", JStr t); ("params", if py_truthy p then p else JObj [])]
             t w eq_refl), Hreg, Hv.
  unfold handler_context, after_handler, handler_arguments. rewrite Hv.
  reflexivity.
Qed.

(** One exchange in which the request and the response survive the codec,
    the dispatcher returns and the server still has its client: the server
    answers in the same step and the client interprets the response of the
    dispatcher. *)
Lemma round_trip_run (t : string) (p : json) (s : server) (h : host Scene) (c : conn)
      (cid sid : nat) (resp : json) (w3 : world Scene) :
  running s = true -> client s = Some cid -> buffer s = [] ->
  sock c = Some sid -> send_succeeds c = true ->
  json_dumps (command_of t p) <> [] ->
  json_loads (json_dumps (command_of t p)) = Ok (command_of t p) ->
  exec (command_of t p)
       (mkWorld (mkServer true (socket s) (Some cid) []) h [Decoded (command_of t p)])
  = (Ok resp, w3) ->
  client (srv w3) = Some cid ->
  json_dumps resp <> [] ->
  json_loads (json_dumps resp) = Ok resp ->
  pserve t p s h = mkWorld (srv w3) (hst w3) (trace w3 ++ [Sent cid (json_dumps resp)])
  /\ ptrip t p s h c
     = (interpret py_repr resp,
        mkConn (match interpret py_repr resp with Ok _ => Some sid | Raise _ => None end)
               (connects c) (tl (sends c)) [] (clock c + 0)
               ((actions c ++ [SendAll (json_dumps (command_of t p))]) ++ [Recv 0])).
Proof.
  intros Hr Hcl Hbuf Hsock Hsend Hne Hcodec Hexec Hcl3 Hne' Hcodec'.
  assert (Hserve : pserve t p s h
                   = mkWorld (srv w3) (hst w3) (trace w3 ++ [Sent cid (json_dumps resp)])).
  { unfold serve.
    destruct (json_dumps (command_of t p)) as [|b data] eqn:Hreq; [contradiction|].
    assert (Hc : client_after_accept (read_env (b :: data)) s = Some cid).
    { unfold client_after_accept. now rewrite Hcl. }
    assert (Hl : json_loads (buffer s ++ b :: data) = Ok (command_of t p)).
    { rewrite Hbuf. exact Hcodec. }
    assert (Hx : exec (command_of t p)
                   (mkWorld (mkServer (running s) (socket s) (Some cid) []) h
                            (accepted s cid ++ [Decoded (command_of t p)]))
                 = (Ok resp, w3)).
    { unfold accepted. rewrite Hcl, Hr. exact Hexec. }
    rewrite (step_decodes Scene json_loads json_dumps py_repr call_handler
               (read_env (b :: data)) s h cid b data (command_of t p)
               Hr Hc eq_refl Hl), Hx.
    unfold after_dispatch. cbn [fst snd]. rewrite Hcl3. reflexivity. }
  destruct (exec_calls Scene py_repr call_handler (command_of t p)
              (mkWorld (mkServer true (socket s) (Some cid) []) h [Decoded (command_of t p)]))
    as (evs & Htr & Hcalls).
  rewrite Hexec in Htr. cbn [snd trace] in Htr.
  split; [exact Hserve|].
  unfold round_trip, served. rewrite Hserve. cbn [trace].
  assert (Hrep : replies (trace w3 ++ [Sent cid (json_dumps resp)])
                 = [(0, Ok (json_dumps resp))]).
  { rewrite Htr. unfold replies. rewrite !flat_map_app. cbn [flat_map app].
    destruct Hcalls as [->|(m & a & out & ->)]; reflexivity. }
  rewrite Hrep.
  rewrite send_command_run. unfold connected. cbn [sock]. rewrite Hsock. cbv zeta.
  cbn [sock connects sends arrivals clock actions].
  assert (Hrecv : forall ss acts,
            receive_full_response json_loads
              (mkConn (Some sid) (connects c) ss [(0, Ok (json_dumps resp))] (clock c) acts)
            = (Ok (json_dumps resp),
               mkConn (Some sid) (connects c) ss [] (clock c + 0) (acts ++ [Recv 0]))).
  { intros ss acts. unfold receive_full_response, receive_from.
    cbn [arrivals sock connects sends clock actions recv_loop Nat.leb].
    destruct (json_dumps resp) as [|b data] eqn:Hd; [contradiction|].
    cbn [app List.concat]. rewrite app_nil_r, Hcodec'. reflexivity. }
  unfold send_succeeds in Hsend.
  destruct (sends c) as [|[[]|e] ss]; [| |discriminate];
    rewrite Hrecv, Hcodec'; destruct (interpret py_repr resp); reflexivity.
Qed.


(** X29.  Round trip.  A client sends a registered command that needs no
    viewport to a running server it is connected to, whose buffer is empty;
    request and response survive serialization and parsing; the handler,
    called on the server as the step has it after decoding, leaves the client
    of the server in place and either returns or raises an instance of
    [Exception].  Then one call of the timer callback decodes the command,
    calls the handler once and writes the response, leaving the server and
    the host as the handler left them, and [send_command] returns the value
    the handler returned, or raises "Communication error with Blender: "
    followed by the text of the exception the handler raised, dropping its
    socket. *)
Theorem round_trip_carries_handler_outcome (t : string) (p : json) (s : server)
        (h : host Scene) (c : conn) (cid sid : nat) :
  running s = true -> client s = Some cid -> buffer s = [] ->
  sock c = Some sid -> send_succeeds c = true ->
  registered (blendermcp_use_polyhaven h) t = true ->
  py_in_strs (JStr t) view3d_commands = false ->
  let args := if String.eqb t "get_polyhaven_status" then JObj []
              else if py_truthy p then p else JObj [] in
  let called := call_handler t args (mkServer true (socket s) (Some cid) []) h in
  let out := fst (fst called) in
  let resp := match out with
              | Ok v => success_response v
              | Raise e => error_response (exn_str e)
              end in
  client (snd (fst called)) = Some cid ->
  (forall e, out = Raise e -> is_exception e = true) ->
  (forall x, x = command_of t p \/ x = resp ->
             json_dumps x <> [] /\ json_loads (json_dumps x) = Ok x) ->
  fst (ptrip t p s h c)
  = match out with
    | Ok v => Ok v
    | Raise e => Raise (mkExn Exception ("Communication error with Blender: " ++ exn_str e))
    end
  /\ is_some (sock (snd (ptrip t p s h c))) = match out with Ok _ => true | Raise _ => false end
  /\ pserve t p s h
     = mkWorld (snd (fst called)) (snd called)
               [Decoded (command_of t p); Called t args out; Sent cid (json_dumps resp)].
Proof.
  intros Hr Hcl Hbuf Hsock Hsend Hreg Hv. cbv zeta. intros Hkeep Herr Hcodec.
  destruct (Hcodec _ (or_introl eq_refl)) as [Hne Hrt].
  destruct (Hcodec _ (or_intror eq_refl)) as [Hne' Hrt'].
  pose proof (exec_registered_plain t p
                (mkWorld (mkServer true (socket s) (Some cid) []) h
                         [Decoded (command_of t p)]) Hreg Hv) as Hexec.
  cbv zeta in Hexec. cbn [hst srv trace app] in Hexec.
  assert (Hanswer : answer (fst (fst (call_handler t
                       (if String.eqb t "get_polyhaven_status" then JObj []
                        else if py_truthy p then p else JObj [])
                       (mkServer true (socket s) (Some cid) []) h)))
                    = Ok match fst (fst (call_handler t
                                  (if String.eqb t "get_polyhaven_status" then JObj []
                                   else if py_truthy p then p else JObj [])
                                  (mkServer true (socket s) (Some cid) []) h)) with
                         | Ok v => success_response v
                         | Raise e => error_response (exn_str e)
                         end).
  { unfold answer. destruct (fst (fst (call_handler t _ _ h))) as [v|e]; [reflexivity|].
    now rewrite (Herr e eq_refl). }
  rewrite Hanswer in Hexec.
  destruct (round_trip_run t p s h c cid sid _ _ Hr Hcl Hbuf Hsock Hsend Hne Hrt Hexec
              Hkeep Hne' Hrt')
    as (Hserve & Htrip).
  rewrite Htrip, Hserve. cbn [fst snd srv hst trace app sock].
  destruct (fst (fst (call_handler t _ _ h))) as [v|e]; cbn; auto.
Qed.

End ExchangeFacts.

Section ProbeFacts.

Local Open Scope list_scope.

Variable Scene : Type.
Variable json_loads : bytes -> reply json.
Variable json_dumps : json -> bytes.
Variable py_repr : json -> string.
Variable call_handler : string -> json -> server -> host Scene
                        -> result json * server * host Scene.
Variable close_r : reply unit.

Local Notation pserved := (served json_loads json_dumps py_repr call_handler).
Local Notation connection := (get_blender_connection json_loads json_dumps py_repr close_r).

(** X30.  End to end: when the server answers the probe of
    [get_blender_connection] with the result of its status handler, which
    leaves the server and the host as they are, [_polyhaven_enabled] becomes
    the Poly Haven flag of the scene of the server. *)
Theorem probe_stores_server_flag (s : server) (h : host Scene) (c : conn) (cid sid : nat)
        (old : json) :
  running s = true -> client s = Some cid -> buffer s = [] ->
  sock c = Some sid -> send_succeeds c = true ->
  call_handler "get_polyhaven_status" (JObj []) (mkServer true (socket s) (Some cid) []) h
  = (Ok (get_polyhaven_status h), mkServer true (socket s) (Some cid) [], h) ->
  (forall x, x = command_of "get_polyhaven_status" JNull
             \/ x = success_response (get_polyhaven_status h) ->
             json_dumps x <> [] /\ json_loads (json_dumps x) = Ok x) ->
  let g := mkGlobals true old (pserved "get_polyhaven_status" JNull s h c) in
  fst (connection g) = Ok tt
  /\ has_connection (snd (connection g)) = true
  /\ _polyhaven_enabled (snd (connection g)) = JBool (blendermcp_use_polyhaven h).
Proof.
  intros Hr Hcl Hbuf Hsock Hsend Hcall Hcodec. cbv zeta.
  destruct (Hcodec _ (or_introl eq_refl)) as [Hne Hrt].
  destruct (Hcodec _ (or_intror eq_refl)) as [Hne' Hrt'].
  assert (Hreg : registered (blendermcp_use_polyhaven h) "get_polyhaven_status" = true)
    by (destruct (blendermcp_use_polyhaven h); reflexivity).
  pose proof (exec_registered_plain Scene py_repr call_handler "get_polyhaven_status" JNull
                (mkWorld (mkServer true (socket s) (Some cid) []) h
                         [Decoded (command_of "get_polyhaven_status" JNull)])
                Hreg eq_refl) as Hexec.
  cbv zeta in Hexec. cbn [hst srv trace app String.eqb Ascii.eqb Bool.eqb] in Hexec.
  rewrite Hcall in Hexec. cbn [fst snd answer] in Hexec.
  destruct (round_trip_run Scene json_loads json_dumps py_repr call_handler
              "get_polyhaven_status" JNull s h c cid sid _ _
              Hr Hcl Hbuf Hsock Hsend Hne Hrt Hexec eq_refl Hne' Hrt')
    as (_ & Htrip).
  unfold round_trip in Htrip.
  rewrite get_blender_connection_run. cbn [has_connection link _polyhaven_enabled].
  rewrite Htrip.
  unfold get_polyhaven_status.
  destruct (blendermcp_use_polyhaven h); cbn; auto.
Qed.

End ProbeFacts.

(* ===================================================================== *)
(** * Further runs of the sample environment *)
(* ===================================================================== *)

(** Two calls of the timer callback of the sample environment: a request is
    answered, then the peer closes. *)
Lemma run_keeps_running_and_socket_witness :
  let Es := [read_env scene_info_request; read_env []] in
  running (srv (run_steps py_loads py_dumps sample_repr sample_call Es fresh_world)) = true
  /\ socket (srv (run_steps py_loads py_dumps sample_repr sample_call Es fresh_world))
     = Some 0.
Proof.
  intros Es.
  apply (run_keeps_running_and_socket nat py_loads py_dumps sample_repr sample_call
           Es fresh_world).
  - exact (sample_call_keeps running).
  - exact (sample_call_keeps socket).
Defined.

(** The first byte of a request is read: the buffer grows by it. *)
Lemma step_buffer_grows_or_resets_witness :
  let E := read_env (bytes_of "{") in
  let s := connected_server [] in
  let b' := buffer (srv (snd (step py_loads py_dumps sample_repr sample_call E s
                                   viewport_host))) in
  b' = []
  \/ b' = buffer s
  \/ exists data, recv_r E = Ok data /\ data <> [] /\ b' = (buffer s ++ data)%list
                  /\ exists e, py_loads (buffer s ++ data)%list = Raise e.
Proof.
  intros E s.
  apply (step_buffer_grows_or_resets nat py_loads py_dumps sample_repr sample_call E s
           viewport_host).
  exact (sample_call_keeps buffer).
Defined.

(** The peer of a server that holds an unfinished request closes. *)
Lemma run_no_client_no_buffer_witness :
  buffer (srv (run_steps py_loads py_dumps sample_repr sample_call [read_env []]
                         (mkWorld (connected_server (bytes_of "{")) viewport_host [])))
  = [].
Proof.
  apply (run_no_client_no_buffer nat py_loads py_dumps sample_repr sample_call
           [read_env []] (mkWorld (connected_server (bytes_of "{")) viewport_host [])).
  - exact (sample_call_keeps buffer).
  - discriminate.
  - reflexivity.
Defined.

(** The port is taken when a fresh instance starts. *)
Lemma start_failure_stops_server_witness :
  let l := mkLife init_server false [] in
  fst (start true port_taken l) = Ok tt
  /\ self (snd (start true port_taken l)) = mkServer false None None []
  /\ closed (snd (start true port_taken l)) = [ClosedListening 5].
Proof.
  intros l.
  apply (start_failure_stops_server true port_taken l 5); reflexivity.
Defined.

(** No socket can be created. *)
Lemma start_raises_before_the_try_witness :
  let E := mkStartEnv (Raise too_many_files_exn) (Ok tt) (Ok tt) (Ok tt) (Ok tt) (Ok tt) in
  let l := mkLife init_server false [] in
  running (self (snd (start true E l))) = true /\ closed (snd (start true E l)) = closed l.
Proof.
  intros E l.
  apply (proj2 (start_raises_before_the_try true E l too_many_files_exn)).
  reflexivity.
Defined.

(** A server stopped in the middle of a request and started again. *)
Lemma restart_keeps_stale_buffer_witness :
  let E := mkEnv (Ok 2) (Ok tt) (Ok scene_info_request) (Ok tt) in
  let s := self (snd (start true port_free (snd (stop true serving_life)))) in
  s = mkServer true (Some 5) None (bytes_of "{")
  /\ parsed_command py_loads E s
     = match py_loads (bytes_of "{" ++ scene_info_request)%list with
       | Ok command => Some command
       | Raise _ => None
       end.
Proof.
  intros E.
  apply (restart_keeps_stale_buffer py_loads true port_free serving_life 5 2 E
           scene_info_request); try reflexivity.
  vm_compute. discriminate.
Defined.

(** The start button when the port is taken. *)
Lemma start_operator_sets_flag_on_failure_witness :
  exists l',
    start_server_execute true port_taken (mkPanel None false)
    = (Ok tt, mkPanel (Some l') true)
    /\ running (self l') = false /\ socket (self l') = None.
Proof.
  apply (start_operator_sets_flag_on_failure true port_taken (mkPanel None false) 5);
    reflexivity.
Defined.

(** A JSON array sent as a command. *)
Lemma malformed_command_error_witness :
  execute_command sample_repr sample_call (JArr []) fresh_world
  = (Ok (error_response "'list' object has no attribute 'get'"), fresh_world).
Proof.
  apply (malformed_command_error nat sample_repr sample_call (JArr []) fresh_world).
  discriminate.
Defined.

(** A command without a type. *)
Lemma non_string_type_error_witness :
  execute_command sample_repr sample_call (JObj [("params", JObj [])]) fresh_world
  = (Ok (error_response "Unknown command type: None"), fresh_world).
Proof.
  apply (non_string_type_error nat sample_repr sample_call [("params", JObj [])] fresh_world).
  discriminate.
Defined.

(** [create_object] on a screen whose second area is the 3D viewport. *)
Lemma viewport_override_scoped_witness :
  execute_command sample_repr sample_call (request_of "create_object") fresh_world
  = (Ok (success_response (JObj [("name", JStr "Cube")])),
     mkWorld (connected_server [])
             (mkHost (screen viewport_host) false None 4)
             [Called "create_object" (JObj []) (Ok (JObj [("name", JStr "Cube")]))]).
Proof.
  apply (viewport_override_scoped nat sample_repr sample_call
           [("type", JStr "create_object"); ("params", JObj [])] "create_object"
           fresh_world [mkArea 0 "OUTLINER"; mkArea 1 "VIEW_3D"] [] (mkArea 1 "VIEW_3D")).
  - reflexivity.
  - cbn. tauto.
  - reflexivity.
  - reflexivity.
Defined.

(** [set_texture] while the Poly Haven flag is off. *)
Lemma polyhaven_command_needs_flag_witness :
  execute_command sample_repr sample_call (request_of "set_texture") fresh_world
  = (Ok (error_response "Unknown command type: set_texture"), fresh_world).
Proof.
  apply (polyhaven_command_needs_flag nat sample_repr sample_call
           [("type", JStr "set_texture"); ("params", JObj [])] "set_texture" fresh_world).
  - reflexivity.
  - cbn. tauto.
Defined.

(** [connect] on a connected manager. *)
Lemma connect_is_idempotent_witness :
  connect (waiting_conn []) = (Ok true, waiting_conn []).
Proof.
  apply (proj1 (proj2 (connect_is_idempotent (waiting_conn [])))).
  reflexivity.
Defined.

(** The server answers with the result of a handler. *)
Lemma response_interpretation_witness :
  let response := success_response (JObj [("name", JStr "Cube")]) in
  let c := waiting_conn [(2, Ok (py_dumps response))] in
  send_command py_loads py_dumps sample_repr "get_object_info" JNull c
  = (interpret sample_repr response,
     mkConn (match interpret sample_repr response with
             | Ok _ => Some 7
             | Raise _ => None
             end)
            (connects c) (tl (sends c)) [] (clock c + sum_list [2])
            ((actions c ++ [SendAll (py_dumps (command_of "get_object_info" JNull))])
               ++ map Recv [2])%list).
Proof.
  intros response c.
  apply (response_interpretation py_loads py_dumps sample_repr "get_object_info" JNull c 7
           (py_dumps response) [] [2] response).
  - reflexivity.
  - reflexivity.
  - vm_compute. reflexivity.
  - vm_compute. reflexivity.
Defined.

(** A send that fails with a connection reset. *)
Lemma send_command_drops_socket_iff_raises_witness :
  let c := mkConn (Some 7) [] [Raise connection_reset_exn] [] 0 [] in
  is_some (sock (snd (send_command py_loads py_dumps sample_repr "get_scene_info" JNull c)))
  = match fst (send_command py_loads py_dumps sample_repr "get_scene_info" JNull c) with
    | Ok _ => true
    | Raise _ => false
    end.
Proof.
  intros c.
  apply (send_command_drops_socket_iff_raises py_loads py_dumps sample_repr
           "get_scene_info" JNull c).
  reflexivity.
Defined.

(** The probe fails with a broken pipe and Blender accepts a new connection. *)
Lemma stale_connection_is_replaced_witness :
  let g := mkGlobals true (JBool true)
                     (mkConn (Some 7) [Ok 8] [Raise broken_pipe_exn] [] 0 []) in
  fst (get_blender_connection py_loads py_dumps sample_repr (Ok tt) g) = Ok tt
  /\ sock (link (snd (get_blender_connection py_loads py_dumps sample_repr (Ok tt) g)))
     = Some 8
  /\ _polyhaven_enabled (snd (get_blender_connection py_loads py_dumps sample_repr (Ok tt) g))
     = JBool true.
Proof.
  intros g.
  rewrite (stale_connection_is_replaced py_loads py_dumps sample_repr (Ok tt) g
             (mkExn Exception "Connection to Blender lost: [Errno 32] Broken pipe")).
  - vm_compute. auto.
  - reflexivity.
  - vm_compute. reflexivity.
Defined.

(** The server starts while Blender is not running. *)
Lemma lifespan_swallows_failure_and_cleans_up_witness :
  has_connection (snd (lifespan_startup py_loads py_dumps sample_repr (Ok tt) no_blender))
  = false.
Proof.
  apply (proj1 (proj2 (lifespan_swallows_failure_and_cleans_up py_loads py_dumps sample_repr
                         (Ok tt) no_blender))
           (mkExn Exception unreachable)).
  reflexivity.
Defined.

(** The scene tool while Blender is not running. *)
Lemma tools_report_unreachable_blender_witness :
  fst (Tool.get_scene_info py_loads py_dumps sample_repr (Ok tt) sample_repr no_blender)
  = Ok (JStr "Error getting scene info: Could not connect to Blender. Make sure the Blender addon is running.").
Proof.
  rewrite (proj1 (tools_report_unreachable_blender py_loads py_dumps sample_repr (Ok tt)
                    sample_repr "string indices must be integers, not 'str'" no_blender
                    (mkExn Exception unreachable) eq_refl)).
  reflexivity.
Defined.

(** A cube created with every argument left out. *)
Lemma create_object_defaults_and_name_witness :
  let g := blender_answering (success_response (JObj [("name", JStr "Cube")])) in
  exists g',
    Tool.create_object py_loads py_dumps sample_repr (Ok tt)
                       "string indices must be integers, not 'str'"
                       (JStr "CUBE") JNull JNull JNull JNull g
    = (Ok (JStr "Created CUBE object: Cube"), g')
    /\ In (SendAll (py_dumps (command_of "create_object"
                      (JObj [("type", JStr "CUBE");
                             ("location", JArr [JNum "0"; JNum "0"; JNum "0"]);
                             ("rotation", JArr [JNum "0"; JNum "0"; JNum "0"]);
                             ("scale", JArr [JNum "1"; JNum "1"; JNum "1"])]))))
          (actions (link g')).
Proof.
  intros g.
  eexists. split.
  - apply (create_object_defaults_and_name py_loads py_dumps sample_repr (Ok tt)
             "string indices must be integers, not 'str'"
             (JStr "CUBE") JNull JNull JNull JNull g
             (snd (get_blender_connection py_loads py_dumps sample_repr (Ok tt) g))
             (JObj [("name", JStr "Cube")])
             (snd (send_command py_loads py_dumps sample_repr "create_object"
                     (JObj [("type", JStr "CUBE");
                            ("location", JArr [JNum "0"; JNum "0"; JNum "0"]);
                            ("rotation", JArr [JNum "0"; JNum "0"; JNum "0"]);
                            ("scale", JArr [JNum "1"; JNum "1"; JNum "1"])])
                     (link (snd (get_blender_connection py_loads py_dumps sample_repr
                                   (Ok tt) g)))))).
    + vm_compute. reflexivity.
    + vm_compute. reflexivity.
  - vm_compute. tauto.
Defined.

(** An object hidden: [visible] is [False], which is not [None]. *)
Lemma modify_object_sends_what_is_given_witness :
  let g := blender_answering (success_response (JObj [("name", JStr "Cube")])) in
  exists g',
    Tool.modify_object py_loads py_dumps sample_repr (Ok tt)
                       "string indices must be integers, not 'str'"
                       (JStr "Cube") JNull JNull JNull (JBool false) g
    = (Ok (JStr "Modified object: Cube"), g')
    /\ In (SendAll (py_dumps (command_of "modify_object"
                      (JObj [("name", JStr "Cube"); ("visible", JBool false)]))))
          (actions (link g')).
Proof.
  intros g.
  eexists. split.
  - apply (modify_object_sends_what_is_given py_loads py_dumps sample_repr (Ok tt)
             "string indices must be integers, not 'str'"
             (JStr "Cube") JNull JNull JNull (JBool false) g
             (snd (get_blender_connection py_loads py_dumps sample_repr (Ok tt) g))
             (JObj [("name", JStr "Cube")])
             (snd (send_command py_loads py_dumps sample_repr "modify_object"
                     (JObj [("name", JStr "Cube"); ("visible", JBool false)])
                     (link (snd (get_blender_connection py_loads py_dumps sample_repr
                                   (Ok tt) g)))))).
    + vm_compute. reflexivity.
    + vm_compute. reflexivity.
  - vm_compute. tauto.
Defined.

(** The handler of [execute_code] fails with "boom" at the other end. *)
Lemma round_trip_carries_handler_outcome_witness :
  fst (round_trip py_loads py_dumps sample_repr sample_call "execute_code"
                  (JObj [("code", JStr "1/0")]) (connected_server []) viewport_host
                  (waiting_conn []))
  = Raise (mkExn Exception "Communication error with Blender: boom").
Proof.
  refine (proj1 (round_trip_carries_handler_outcome nat py_loads py_dumps sample_repr
                   sample_call "execute_code" (JObj [("code", JStr "1/0")])
                   (connected_server []) viewport_host (waiting_conn []) 1 7
                   eq_refl eq_refl eq_refl eq_refl eq_refl eq_refl eq_refl eq_refl _ _)).
  - intros e [= <-]. reflexivity.
  - intros x [->| ->]; vm_compute; (split; [discriminate|reflexivity]).
Defined.

(** The probe of a connection to a server whose scene has Poly Haven on. *)
Lemma probe_stores_server_flag_witness :
  let h := mkHost (Some [mkArea 1 "VIEW_3D"]) true None 3 in
  let g := mkGlobals true (JBool false)
                     (served py_loads py_dumps sample_repr status_call
                             "get_polyhaven_status" JNull (connected_server []) h
                             (waiting_conn [])) in
  fst (get_blender_connection py_loads py_dumps sample_repr (Ok tt) g) = Ok tt
  /\ has_connection (snd (get_blender_connection py_loads py_dumps sample_repr (Ok tt) g))
     = true
  /\ _polyhaven_enabled (snd (get_blender_connection py_loads py_dumps sample_repr (Ok tt) g))
     = JBool true.
Proof.
  intros h g.
  refine (probe_stores_server_flag nat py_loads py_dumps sample_repr status_call (Ok tt)
            (connected_server []) h (waiting_conn []) 1 7 (JBool false)
            eq_refl eq_refl eq_refl eq_refl eq_refl eq_refl _).
  intros x [->| ->]; vm_compute; (split; [discriminate|reflexivity]).
Defined.
